(** * The Sentinel: Fix Pipeline and Verification Loop

    A shallow embedding of the orchestration code of the backend:

    - [app/services/github_service.py]   (module [GitHubService])
    - [app/services/gemini_service.py]   (module [GeminiService])
    - [app/services/verification_service.py] (module [VerificationLoopService])
    - [app/api/analyze.py]               (module [Analyze])

    The external world (PyGithub, the generative model, the file system,
    the clock) is an oracle [env]: it answers every library call, and its
    answer may depend on the moment of the call (the number of events that
    happened before it).  Every call is appended to a trace, so that what a
    run did to the outside world can be read off afterwards. *)

From Stdlib Require Import ZArith List Bool Ascii String Lia.
From Stdlib Require Import DecimalString.
From stdpp Require Import base option strings gmap.
Import ListNotations.

Set Implicit Arguments.
Local Open Scope string_scope.

(** ** Python values and string operations *)

(** A Python [str] is a [string] here, one [ascii] for each character: the
    texts of the model are those whose characters have a code below 256,
    and lengths, cuts and searches count characters. *)

Module Py.

(** The empty string literal. *)
Definition empty : string := EmptyString.

(** A line feed, as [\n] in the source's literals. *)
Definition nl : string := String (ascii_of_nat 10) EmptyString.

(** Truthiness of a string: [bool(s)]. *)
Definition truthy (s : string) : bool :=
  match s with EmptyString => false | _ => true end.

(** [o is not None]. *)
Definition is_Some_bool {A} (o : option A) : bool :=
  match o with Some _ => true | None => false end.

(** Truthiness of an optional string ([None] is falsy). *)
Definition truthy_opt (o : option string) : bool :=
  match o with Some s => truthy s | None => false end.

(** [x or y] on optional strings with a string default. *)
Definition or_else (o : option string) (d : string) : string :=
  match o with Some s => if truthy s then s else d | None => d end.

(** [s[:n]] on strings: the first [n] characters. *)
Definition str_take (n : nat) (s : string) : string := String.substring 0 n s.

(** [l[:n]] on lists. *)
Definition take {A} (n : nat) (l : list A) : list A := firstn n l.

(** [needle in hay] on strings. *)
Definition contains (needle hay : string) : bool :=
  match String.index 0 needle hay with Some _ => true | None => false end.

Definition lower_ascii (c : ascii) : ascii :=
  let n := nat_of_ascii c in
  if (65 <=? n)%nat && (n <=? 90)%nat then ascii_of_nat (n + 32) else c.

(** [s.lower()], on the ASCII letters. *)
Fixpoint lower (s : string) : string :=
  match s with
  | EmptyString => EmptyString
  | String c r => String (lower_ascii c) (lower r)
  end.

(** [str(n)] for an integer. *)
Definition str_of_Z (n : Z) : string := NilZero.string_of_int (Z.to_int n).

(** [sep.join(l)]. *)
Definition join (sep : string) (l : list string) : string := String.concat sep l.

(** A Python [dict] whose iteration order matters: keys are unique and
    keep the position of their first insertion. *)
Definition odict (V : Type) : Type := list (string * V).

Fixpoint odict_set {V} (k : string) (v : V) (d : odict V) : odict V :=
  match d with
  | [] => [(k, v)]
  | (k', v') :: r =>
      if String.eqb k k' then (k', v) :: r else (k', v') :: odict_set k v r
  end.

#[local] Set Warnings "-register-all".

(** A value as [json.loads] returns it; a number is kept as its literal. *)
Inductive Json : Type :=
| JNull
| JBool (b : bool)
| JNumber (literal : string)
| JString (s : string)
| JArray (items : list Json)
| JObject (members : list (string * Json)).

(** A text that is not empty. *)
Record Text : Type := { text_head : ascii; text_tail : string }.

Definition text (t : Text) : string := String (text_head t) (text_tail t).

(** The text FastAPI binds an optional form field to: a field that is
    sent empty is bound to [None], as a field that is not sent. *)
Definition bound (sent : string) : option Text :=
  match sent with
  | EmptyString => None
  | String c r => Some {| text_head := c; text_tail := r |}
  end.

(** The exceptions the code meets.  [Exception] stands for any subclass of
    Python's [Exception] the code does not tell apart. *)
Inductive exn : Type :=
| GithubException (msg : string)
| ValueError (msg : string)
| Exception (msg : string)
| HTTPException (status_code : Z) (detail : string).

(** [str(e)]. *)
Definition str (e : exn) : string :=
  match e with
  | GithubException m | ValueError m | Exception m => m
  | HTTPException c d => str_of_Z c ++ ": " ++ d
  end.

Definition is_GithubException (e : exn) : bool :=
  match e with GithubException _ => true | _ => false end.

Definition is_ValueError (e : exn) : bool :=
  match e with ValueError _ => true | _ => false end.

Definition is_HTTPException (e : exn) : bool :=
  match e with HTTPException _ _ => true | _ => false end.

End Py.

(** ** The outside world: library calls, the oracle and the trace *)

Module World.
Import Py.

(** An entry of [repo.get_git_tree(...).tree]. *)
Record TreeItem : Type := {
  item_path : string;
  item_type : string;
  item_size : option Z;
  item_sha  : string
}.

(** What [repo.get_contents] hands back: a directory listing, a
    [ContentFile], or something that is neither. *)
Inductive Contents : Type :=
| ContentsList
| ContentsOther
| ContentFile (encoding content sha : string).

(** One entry of a commit's combined status. *)
Record CommitStatus : Type := {
  st_context : string;
  st_state : string;
  st_description : string;
  st_target_url : string
}.

Record CombinedStatus : Type := {
  cs_state : string;
  cs_statuses : list CommitStatus
}.

Record CheckRunOutput : Type := {
  out_title : option string;
  out_summary : option string
}.

Record CheckRun : Type := {
  run_name : string;
  run_conclusion : option string;
  run_output : option CheckRunOutput;
  run_html_url : string
}.

Record PullRequest : Type := {
  html_url : string;
  number : Z
}.

(** A created commit; only its identity is kept. *)
Record Commit : Type := { commit_sha : string }.

(** The dict built by [_encode_image]. *)
Record ImageData : Type := { mime_type : string; data : string }.

(** An element of the [content_parts] list handed to the model. *)
Inductive Part : Type :=
| PText (text : string)
| PImage (img : ImageData).

(** The calls that leave the program.  The index is the type of the
    value the call returns when it does not raise.  A call stands for
    one step of the source with the attribute reads that follow it:
    [Github_get_user] is [github.get_user().login], [Github_get_repo]
    is [parse_repo_url] with [github.get_repo], [Repo_get_git_tree] is
    [repo.get_git_tree(branch, recursive=True).tree], [Repo_get_git_ref]
    is [repo.get_git_ref(ref).object.sha], [Repo_get_pull] is
    [repo.get_pull(n).head.sha], and the two [Commit_] calls are
    [repo.get_commit(sha)] with [get_status()] and [get_check_runs()]. *)
Inductive Call : Type -> Type :=
(* PyGithub *)
| Github_get_user (token : string) : Call string
| Github_get_repo (repo_url : string) : Call unit
| Repo_has_in_collaborators (login : string) : Call bool
| Repo_get_git_tree (branch : string) : Call (list TreeItem)
| Repo_get_contents (path ref : string) : Call Contents
| Repo_get_git_ref (ref : string) : Call string
| Repo_create_git_ref (ref sha : string) : Call unit
| Repo_update_file (path message content sha branch : string) : Call Commit
| Repo_create_file (path message content branch : string) : Call Commit
| Repo_create_pull (title body head base : string) : Call PullRequest
| Repo_get_pull (pr_number : Z) : Call string
| Commit_get_status (sha : string) : Call CombinedStatus
| Commit_get_check_runs (sha : string) : Call (list CheckRun)
(* google.generativeai: [generate_content_async]; the value is the text
   of the response, [None] when reading [response.text] raises *)
| Model_generate_content (parts : list Part) : Call (option string)
(* [get_gemini_service()]: the module's singleton, built on first use *)
| Get_gemini_service : Call unit
(* url capture service: [capture_visual_context] *)
| Capture_visual_context (url : string) : Call (list string)
(* standard library: [uuid.uuid4], [tempfile.mkdtemp], reading an
   upload and writing it to a path, [_encode_image] (reading the file
   and naming its MIME type), [shutil.rmtree], the clock and sleeping *)
| Uuid4 : Call string
| Mkdtemp (prefix : string) : Call string
| Save_upload (path : string) : Call unit
| Encode_image (path : string) : Call ImageData
| Rmtree (path : string) : Call unit
| Datetime_now : Call Z
| Time_sleep (seconds : Z) : Call unit
| Asyncio_sleep (seconds : Z) : Call unit.

(** How a library call fails: with PyGithub's [GithubException], or with
    some other exception.  No library raises FastAPI's [HTTPException]. *)
Inductive gw_error : Type :=
| GwGithub (msg : string)
| GwOther (msg : string).

Definition exn_of_gw (g : gw_error) : exn :=
  match g with
  | GwGithub m => GithubException m
  | GwOther m => Exception m
  end.

(** The oracle: the answer to a call made after [tick] earlier events. *)
Definition Env : Type := forall T, nat -> Call T -> gw_error + T.

(** A failed check as [get_check_logs] reports it. *)
Record CheckLog : Type := {
  log_name : string;
  log_conclusion : string;
  log_output_title : string;
  log_output_summary : string;
  log_html_url : string
}.

(** Entries of the trace: a library call, or the entry into a method of
    one of the services (the capabilities the orchestration code uses). *)
Inductive Event : Type :=
| EvCall {T} (c : Call T)
| EvCheckWriteAccess (repo_url : string)
| EvGetFileContent (file_path branch : string)
| EvCreateBranch (base_branch new_branch_name : string)
| EvCommitFileChanges (branch file_path new_content commit_message : string)
| EvCreatePullRequest (title body head_branch base_branch : string)
| EvWaitForCi (pr_number : Z)
| EvGetPrStatus (pr_number : Z)
| EvGetCheckLogs (pr_number : Z)
| EvScoutFiles (file_tree : list string) (bug_description : option string)
| EvAnalyzeVibe (code_context : odict string)
    (bug_description : option string) (image_paths : option (list string))
| EvSelfCorrect (original_code : string) (error_logs : list CheckLog)
    (file_path : string).

(** Newest event first. *)
Definition Trace : Type := list Event.

(** How a computation ends: with a value, with an exception, or not
    within the number of polling rounds it was given. *)
Inductive Outcome (A : Type) : Type :=
| Returned (a : A)
| Raised (e : exn)
| Unfinished.
Arguments Raised {A} e.
Arguments Unfinished {A}.

Definition M (A : Type) : Type := Trace -> Outcome A * Trace.

Definition ret {A} (a : A) : M A := fun tr => (Returned a, tr).

Definition bind {A B} (m : M A) (k : A -> M B) : M B :=
  fun tr =>
    match m tr with
    | (Returned a, tr') => k a tr'
    | (Raised e, tr') => (Raised e, tr')
    | (Unfinished, tr') => (Unfinished, tr')
    end.

(** [raise e]. *)
Definition raise {A} (e : exn) : M A := fun tr => (Raised e, tr).

(** Running out of polling rounds. *)
Definition unfinished {A} : M A := fun tr => (Unfinished, tr).

(** [try: m  except <catches> as e: h e]; other exceptions go on. *)
Definition try_except {A} (m : M A) (catches : exn -> bool) (h : exn -> M A) : M A :=
  fun tr =>
    match m tr with
    | (Raised e, tr') => if catches e then h e tr' else (Raised e, tr')
    | r => r
    end.

(** [try: m finally: f]; an exception of [f] is not modelled, the
    source's [finally] block swallows its own. *)
Definition try_finally {A} (m : M A) (f : M unit) : M A :=
  fun tr =>
    match m tr with
    | (o, tr') => (o, snd (f tr'))
    end.

(** Entering a service method. *)
Definition enter (e : Event) : M unit := fun tr => (Returned tt, e :: tr).

(** A library call, answered by the oracle. *)
Definition call (env : Env) {T} (c : Call T) : M T :=
  fun tr =>
    match env T (List.length tr) c with
    | inr v => (Returned v, EvCall c :: tr)
    | inl g => (Raised (exn_of_gw g), EvCall c :: tr)
    end.

Definition any_exception (_ : exn) : bool := true.

End World.

Notation "'let!' x ':=' m 'in' k" := (World.bind m (fun x => k))
  (at level 10, x name, m at level 100, k at level 200).
Notation "m ';;;' k" := (World.bind m (fun _ => k))
  (at level 100, k at level 200, right associativity, only parsing).

(** ** [app/services/github_service.py] *)

Module GitHubService.
Import Py World.

(** The fields of a [GitHubService] object the methods read. *)
Record t : Type := { token : string; user_login : string }.

(** The dict returned by [get_file_tree] for one item. *)
Record FileInfo : Type := {
  fi_path : string;
  fi_type : string;
  fi_size : option Z;
  fi_sha : string
}.

(** The dict returned by [get_pr_status]. *)
Record PrStatus : Type := {
  state : string;
  statuses : list CommitStatus;
  total_count : nat
}.

Section WithEnv.
Variable env : Env.
(** [base64.b64decode(...).decode("utf-8")]; [None] when it raises. *)
Variable b64decode_utf8 : string -> option string.

(** [GitHubService(token)] with [settings.GITHUB_TOKEN] as default. *)
Definition init (tok : option string) (settings_token : string) : M t :=
  let token := or_else tok settings_token in
  if negb (truthy token) then
    raise (ValueError "GitHub token is required. Set GITHUB_TOKEN in .env")
  else
    let! login :=
      try_except (call env (Github_get_user token)) any_exception
        (fun e => raise (ValueError ("Invalid GitHub token: " ++ str e))) in
    ret {| token := token; user_login := login |}.

(** [get_repository]: URL parsing and [github.get_repo], one call to
    the outside. *)
Definition get_repository (repo_url : string) : M unit :=
  call env (Github_get_repo repo_url).

Definition check_write_access (self : t) (repo_url : string) : M bool :=
  enter (EvCheckWriteAccess repo_url) ;;;
  try_except
    (get_repository repo_url ;;;
     call env (Repo_has_in_collaborators (user_login self)))
    any_exception
    (fun _ => ret false).

Definition get_file_tree (repo_url : string) (branch : string) : M (list FileInfo) :=
  get_repository repo_url ;;;
  let! tree :=
    try_except (call env (Repo_get_git_tree branch)) is_GithubException
      (fun _ => call env (Repo_get_git_tree "master")) in
  ret (map (fun item =>
              {| fi_path := item_path item; fi_type := item_type item;
                 fi_size := item_size item; fi_sha := item_sha item |}) tree).

Definition get_file_content (repo_url file_path branch : string) : M (option string) :=
  enter (EvGetFileContent file_path branch) ;;;
  get_repository repo_url ;;;
  try_except
    (let! content := call env (Repo_get_contents file_path branch) in
     match content with
     | ContentsList => ret None
     | ContentsOther => ret None
     | ContentFile encoding text _ =>
         if String.eqb encoding "base64" then
           match b64decode_utf8 text with
           | Some s => ret (Some s)
           | None => raise (Exception "decode")
           end
         else ret (Some text)
     end)
    is_GithubException
    (fun _ => ret None).

Definition create_branch (repo_url base_branch new_branch_name : string) : M string :=
  enter (EvCreateBranch base_branch new_branch_name) ;;;
  get_repository repo_url ;;;
  let! base_sha :=
    try_except (call env (Repo_get_git_ref ("heads/" ++ base_branch)))
      is_GithubException
      (fun _ => call env (Repo_get_git_ref ("heads/" ++ "master"))) in
  call env (Repo_create_git_ref ("refs/heads/" ++ new_branch_name) base_sha) ;;;
  ret new_branch_name.

Definition commit_file_changes
    (repo_url branch file_path new_content commit_message : string) : M Commit :=
  enter (EvCommitFileChanges branch file_path new_content commit_message) ;;;
  get_repository repo_url ;;;
  try_except
    (let! contents := call env (Repo_get_contents file_path branch) in
     match contents with
     | ContentFile _ _ sha =>
         call env (Repo_update_file file_path commit_message new_content sha branch)
     | _ => raise (GithubException "404 Path is a directory, not a file")
     end)
    is_GithubException
    (fun _ => call env (Repo_create_file file_path commit_message new_content branch)).

Definition create_pull_request
    (repo_url title body head_branch base_branch : string) : M PullRequest :=
  enter (EvCreatePullRequest title body head_branch base_branch) ;;;
  get_repository repo_url ;;;
  try_except (call env (Repo_create_pull title body head_branch base_branch))
    is_GithubException
    (fun _ => call env (Repo_create_pull title body head_branch "master")).

Definition _map_conclusion_to_state (conclusion : option string) : string :=
  match conclusion with
  | None => "pending"
  | Some c =>
      if String.eqb c "success" then "success"
      else if String.eqb c "failure" then "failure"
      else "error"
  end.

Definition get_pr_status (repo_url : string) (pr_number : Z) : M PrStatus :=
  enter (EvGetPrStatus pr_number) ;;;
  get_repository repo_url ;;;
  let! head_sha := call env (Repo_get_pull pr_number) in
  let! combined_status := call env (Commit_get_status head_sha) in
  let! check_runs := call env (Commit_get_check_runs head_sha) in
  let statuses :=
    (cs_statuses combined_status ++
    map (fun run =>
           {| st_context := run_name run;
              st_state := _map_conclusion_to_state (run_conclusion run);
              st_description :=
                match run_output run with
                | Some o => or_else (out_title o) empty
                | None => empty
                end;
              st_target_url := run_html_url run |}) check_runs)%list in
  ret {| state := cs_state combined_status;
         statuses := statuses;
         total_count := List.length statuses |}.

(** [timedelta.seconds]: the seconds within the day of a difference
    of two clock readings, both in whole seconds. *)
Definition timedelta_seconds (now start : Z) : Z := ((now - start) mod 86400)%Z.

(** The [while] loop of [wait_for_ci_completion]; [rounds] bounds the
    number of polls. *)
Fixpoint wait_loop (rounds : nat) (repo_url : string) (pr_number : Z)
    (start_time timeout_seconds poll_interval : Z) : M PrStatus :=
  let! now := call env Datetime_now in
  if (timedelta_seconds now start_time <? timeout_seconds)%Z then
    match rounds with
    | O => unfinished
    | S rounds' =>
        let! status := get_pr_status repo_url pr_number in
        if negb (String.eqb (state status) "pending") then ret status
        else
          call env (Time_sleep poll_interval) ;;;
          wait_loop rounds' repo_url pr_number start_time timeout_seconds poll_interval
    end
  else get_pr_status repo_url pr_number.

Definition wait_for_ci_completion (rounds : nat) (repo_url : string)
    (pr_number : Z) (timeout_seconds poll_interval : Z) : M PrStatus :=
  enter (EvWaitForCi pr_number) ;;;
  let! start_time := call env Datetime_now in
  wait_loop rounds repo_url pr_number start_time timeout_seconds poll_interval.

Definition conclusion_failed (c : option string) : bool :=
  match c with
  | Some s => String.eqb s "failure" || String.eqb s "error"
  | None => false
  end.

Definition get_check_logs (repo_url : string) (pr_number : Z) : M (list CheckLog) :=
  enter (EvGetCheckLogs pr_number) ;;;
  get_repository repo_url ;;;
  let! head_sha := call env (Repo_get_pull pr_number) in
  let! check_runs := call env (Commit_get_check_runs head_sha) in
  ret (flat_map
         (fun run =>
            if conclusion_failed (run_conclusion run) then
              [ {| log_name := run_name run;
                   log_conclusion := default empty (run_conclusion run);
                   log_output_title :=
                     match run_output run with
                     | Some o => or_else (out_title o) empty
                     | None => empty
                     end;
                   log_output_summary :=
                     match run_output run with
                     | Some o => or_else (out_summary o) empty
                     | None => empty
                     end;
                   log_html_url := run_html_url run |} ]
            else [])
         check_runs).

End WithEnv.
End GitHubService.

(** ** [app/services/gemini_service.py] *)

Module GeminiService.
Import Py World.

(** The three prompt texts of the module, taken as they are. *)
Record Prompts : Type := {
  SYSTEM_PROMPT_SENTINEL : string;
  SYSTEM_PROMPT_SELF_CORRECT : string;
  SYSTEM_PROMPT_SCOUT : string
}.

(** The value under the key [fix] of an analysis: JSON [null] or an
    object with string values. *)
Inductive FixVal : Type :=
| FixNone
| FixDict (d : gmap string string).

(** The parsed reply to a scouting prompt: the key [relevant_files] may
    be missing. *)
Record ScoutDict : Type := { relevant_files : option (list string) }.

(** The parsed reply to an analysis prompt; each key may be missing, and
    the values under [analysis] and [severity] are whatever JSON the model
    wrote there. *)
Record AnalysisDict : Type := {
  ad_analysis : option Json;
  ad_severity : option Json;
  ad_fix : option FixVal
}.

(** [_parse_json_response] read at the three shapes the callers expect:
    [None] is the [ValueError] of a text no JSON can be found in, and
    [decode_error] is the text of json's own error.  The other fields are
    the texts Python makes of a value: [str_of_value] is [str(v)],
    [subscript_error] is the text of the error [v[:n]] raises on a value
    that cannot be sliced, and [validation_error] is the text of
    pydantic's [ValidationError] for an [AnalysisResult] built from the
    given [analysis] and [severity]. *)
Record JsonReader : Type := {
  loads_scout : string -> option ScoutDict;
  loads_analysis : string -> option AnalysisDict;
  loads_correction : string -> option (gmap string string);
  decode_error : string -> string;
  str_of_value : Json -> string;
  subscript_error : Json -> string;
  validation_error : Json -> Json -> string
}.

Section WithEnv.
Variable env : Env.
Variable prompts : Prompts.
Variable json : JsonReader.

Definition _parse_json_response {D} (loads : string -> option D) (text : string) : M D :=
  match loads text with
  | Some d => ret d
  | None =>
      raise (ValueError ("Failed to parse JSON response: " ++ decode_error json text
                         ++ nl ++ "Response: " ++ str_take 200 text))
  end.

(** [response.text]. *)
Definition response_text (response : option string) : M string :=
  match response with
  | Some text => ret text
  | None => raise (ValueError "response.text")
  end.

Definition web_markers : list string :=
  [".tsx"; ".jsx"; ".ts"; ".js"; ".css"; ".scss"; ".styled";
   "component"; "button"; "modal"; "page"].

(** The list comprehension of the fallback branch of [scout_files]. *)
Definition scout_fallback (file_tree : list string) : list string :=
  take 10
    (List.filter
       (fun path =>
          existsb (fun ext => contains ext (lower path)) web_markers
          && negb (contains "node_modules" path))
       file_tree).

Definition scout_prompt (file_tree : list string) (bug_description : option string) : string :=
  SYSTEM_PROMPT_SCOUT prompts ++ nl ++ nl
  ++ "**File Tree:**" ++ nl
  ++ String.concat empty (map (fun path => "- " ++ path ++ nl) (take 100 file_tree))
  ++ (match bug_description with
      | Some d => if truthy d then nl ++ "**Bug Description:** " ++ d ++ nl else empty
      | None => empty
      end)
  ++ nl ++ "Identify the most relevant files for fixing this bug.".

Definition scout_files (file_tree : list string) (bug_description : option string)
    : M (list string) :=
  enter (EvScoutFiles file_tree bug_description) ;;;
  let prompt := scout_prompt file_tree bug_description in
  let! response := call env (Model_generate_content [PText prompt]) in
  try_except
    (let! text := response_text response in
     let! result := _parse_json_response (loads_scout json) text in
     ret (default [] (relevant_files result)))
    any_exception
    (fun _ => ret (scout_fallback file_tree)).

(** What one file of the code context adds to the analysis prompt. *)
Definition context_section (entry : string * string) : string :=
  "### " ++ fst entry ++ nl ++ "```" ++ nl ++ str_take 2000 (snd entry) ++ nl
  ++ "```" ++ nl ++ nl.

Definition analysis_prompt (code_context : odict string) (bug_description : option string)
    : string :=
  SYSTEM_PROMPT_SENTINEL prompts ++ nl ++ nl
  ++ "**Codebase Context:**" ++ nl ++ nl
  ++ String.concat empty (map context_section code_context)
  ++ (match bug_description with
      | Some d => if truthy d then "**Bug Description:** " ++ d ++ nl ++ nl else empty
      | None => empty
      end)
  ++ "Analyze the provided visual context and code. Identify discrepancies and provide the fix.".

(** The loop over [image_paths]: an image that cannot be encoded is
    skipped with a warning. *)
Fixpoint encode_images (image_paths : list string) : M (list Part) :=
  match image_paths with
  | [] => ret []
  | image_path :: rest =>
      let! part :=
        try_except
          (let! image_data := call env (Encode_image image_path) in
           ret [PImage image_data])
          any_exception
          (fun _ => ret []) in
      let! parts := encode_images rest in
      ret (part ++ parts)%list
  end.

Definition empty_fix : gmap string string :=
  <["file_path" := empty]> (<["code" := empty]> ∅).

(** The loop over [required_fields] of [analyze_vibe]. *)
Definition fill_analysis (result : AnalysisDict) : AnalysisDict :=
  {| ad_analysis := Some (default (JString "Unknown") (ad_analysis result));
     ad_severity := Some (default (JString "Unknown") (ad_severity result));
     ad_fix := Some (default (FixDict empty_fix) (ad_fix result)) |}.

Definition analyze_vibe (code_context : odict string) (bug_description : option string)
    (image_paths : option (list string)) : M AnalysisDict :=
  enter (EvAnalyzeVibe code_context bug_description image_paths) ;;;
  let prompt := analysis_prompt code_context bug_description in
  let! images :=
    match image_paths with
    | Some paths => encode_images paths
    | None => ret []
    end in
  let content_parts := PText prompt :: images in
  let! response := call env (Model_generate_content content_parts) in
  let! text := response_text response in
  let! result := _parse_json_response (loads_analysis json) text in
  ret (fill_analysis result).

Definition error_text (error_logs : list CheckLog) : string :=
  join (nl ++ nl)
    (map (fun log =>
            "Check: " ++ log_name log ++ nl
            ++ "Conclusion: " ++ log_conclusion log ++ nl
            ++ "Title: " ++ log_output_title log ++ nl
            ++ "Summary: " ++ log_output_summary log)
       error_logs).

Definition correction_prompt (original_code : string) (error_logs : list CheckLog)
    (file_path : string) : string :=
  SYSTEM_PROMPT_SELF_CORRECT prompts ++ nl ++ nl
  ++ "**File:** " ++ file_path ++ nl ++ nl
  ++ "**Original Code:**" ++ nl ++ "```" ++ nl ++ original_code ++ nl ++ "```" ++ nl ++ nl
  ++ "**CI/CD Error Logs:**" ++ nl ++ error_text error_logs ++ nl ++ nl
  ++ "Please provide the corrected code that fixes all errors.".

Definition correction_fields : list string :=
  ["error_analysis"; "corrected_code"; "changes_made"].

(** The loop over [required_fields] of [self_correct]. *)
Definition fill_correction (result : gmap string string) : gmap string string :=
  fold_left
    (fun (result : gmap string string) field =>
       match result !! field with
       | Some _ => result
       | None =>
           <[field := if negb (String.eqb field "error_analysis")
                      then empty else "Unknown error"]> result
       end)
    correction_fields result.

Definition self_correct (original_code : string) (error_logs : list CheckLog)
    (file_path : string) : M (gmap string string) :=
  enter (EvSelfCorrect original_code error_logs file_path) ;;;
  let prompt := correction_prompt original_code error_logs file_path in
  let! response := call env (Model_generate_content [PText prompt]) in
  let! text := response_text response in
  let! result := _parse_json_response (loads_correction json) text in
  ret (fill_correction result).

Definition analyze_video_frames (video_path : string) (code_context : odict string)
    (bug_description : option string) : M AnalysisDict :=
  let desc := default empty bug_description in
  analyze_vibe code_context (Some (desc ++ " (Video: " ++ video_path ++ ")")) None.

End WithEnv.
End GeminiService.

(** ** [app/services/verification_service.py] *)

Module VerificationLoopService.
Import Py World.

(** The [error_logs] field holds failed-check logs, or, when no log
    could be found, the statuses of the last poll. *)
Inductive ErrorLogs : Type :=
| CheckLogs (logs : list CheckLog)
| Statuses (statuses : list CommitStatus).

Record VerificationResult : Type := {
  success : bool;
  iterations : Z;
  final_status : string;
  error_logs : ErrorLogs;
  corrected_code : option string;
  error_message : option string
}.

(** The attributes [__init__] sets. *)
Record t : Type := {
  max_iterations : Z;
  poll_timeout : Z;
  poll_interval : Z
}.

Definition init : t :=
  {| max_iterations := 3; poll_timeout := 300; poll_interval := 15 |}.

(** How one pass through the body of the [while] loop ends: with a
    [return], or at the bottom of the body with the new working code. *)
Inductive Pass : Type :=
| Return (result : VerificationResult)
| Next (current_code : string) (error_logs : list CheckLog).

Section WithEnv.
Variable env : Env.
Variable prompts : GeminiService.Prompts.
Variable json : GeminiService.JsonReader.
Variable self : t.
(** The bound on the polls of one wait for CI. *)
Variable rounds : nat.

Variables (repo_url : string) (pr_number : Z) (branch file_path : string).

Definition commit_message (iteration : Z) (correction : gmap string string) : string :=
  "fix: Auto-correct CI errors (iteration " ++ str_of_Z iteration ++ ")" ++ nl ++ nl
  ++ "Error analysis: " ++ default "N/A" (correction !! "error_analysis") ++ nl
  ++ "Changes: " ++ default "N/A" (correction !! "changes_made").

(** The end of the body: adopt the corrected code, commit it, and let
    GitHub process the new commit. *)
Definition recommit (iteration : Z) (current_code : string)
    (error_logs : list CheckLog) (correction : gmap string string) : M Pass :=
  let corrected_code := default current_code (correction !! "corrected_code") in
  GitHubService.commit_file_changes env repo_url branch file_path corrected_code
    (commit_message iteration correction) ;;;
  call env (Asyncio_sleep 5) ;;;
  ret (Next corrected_code error_logs).

(** The body of the loop, after [iteration += 1]. *)
Definition pass (iteration : Z) (current_code : string) : M Pass :=
  let! status :=
    GitHubService.wait_for_ci_completion env rounds repo_url pr_number
      (poll_timeout self) (poll_interval self) in
  if String.eqb (GitHubService.state status) "success" then
    ret (Return {| success := true;
                   iterations := iteration;
                   final_status := "success";
                   error_logs := CheckLogs [];
                   corrected_code := Some current_code;
                   error_message := None |})
  else
    let! error_logs := GitHubService.get_check_logs env repo_url pr_number in
    match error_logs with
    | [] =>
        ret (Return {| success := false;
                       iterations := iteration;
                       final_status := GitHubService.state status;
                       error_logs := Statuses (GitHubService.statuses status);
                       corrected_code := Some current_code;
                       error_message :=
                         Some "CI failed but no specific error logs found" |})
    | _ :: _ =>
        let! correction :=
          GeminiService.self_correct env prompts json current_code error_logs file_path in
        recommit iteration current_code error_logs correction
    end.

Definition exhausted (iteration : Z) (current_code : string)
    (error_logs : list CheckLog) : VerificationResult :=
  {| success := false;
     iterations := iteration;
     final_status := "timeout";
     error_logs := CheckLogs error_logs;
     corrected_code := Some current_code;
     error_message :=
       Some ("Maximum iterations (" ++ str_of_Z (max_iterations self)
             ++ ") reached without CI success") |}.

(** [while iteration < self.max_iterations: ...]; [fuel] bounds the
    number of passes. *)
Fixpoint while_loop (fuel : nat) (iteration : Z) (current_code : string)
    (error_logs : list CheckLog) : M VerificationResult :=
  if (iteration <? max_iterations self)%Z then
    match fuel with
    | O => unfinished
    | S fuel' =>
        let iteration := (iteration + 1)%Z in
        let! p := pass iteration current_code in
        match p with
        | Return result => ret result
        | Next current_code error_logs =>
            while_loop fuel' iteration current_code error_logs
        end
    end
  else ret (exhausted iteration current_code error_logs).

Definition run_verification_loop (original_code : string) : M VerificationResult :=
  while_loop (Z.to_nat (max_iterations self)) 0%Z original_code [].

Definition quick_check_status : M GitHubService.PrStatus :=
  GitHubService.get_pr_status env repo_url pr_number.

End WithEnv.
End VerificationLoopService.

(** ** [app/api/analyze.py] *)

Module Analyze.
Import Py World.

(** An [UploadFile]. *)
Record UploadFile : Type := { filename : option string }.

(** The form fields of the request, as FastAPI binds them before the
    handler runs: a request whose [repo_url] is missing or empty is refused
    there, and an optional text field that is sent empty is bound to [None]. *)
Record Form : Type := {
  form_repo_url : Text;
  form_deployed_url : option Text;
  form_bug_description : option Text;
  form_github_token : option Text;
  video : option UploadFile;
  images : list UploadFile
}.

(** The parameters of the handler. *)
Definition repo_url (form : Form) : string := text (form_repo_url form).

Definition deployed_url (form : Form) : option string :=
  option_map text (form_deployed_url form).

Definition bug_description (form : Form) : option string :=
  option_map text (form_bug_description form).

Definition github_token (form : Form) : option string :=
  option_map text (form_github_token form).

(** What the handler reads from its surroundings: the user's OAuth
    token and [settings.GITHUB_TOKEN]. *)
Record Ambient : Type := {
  user_github_access_token : option string;
  settings_GITHUB_TOKEN : string
}.

Record AnalysisFix : Type := { file_path : string; code : string }.

Record AnalysisResult : Type := {
  analysis : string;
  severity : string;
  fix_ : AnalysisFix
}.

Record AnalyzeResponse : Type := {
  status : string;
  job_id : string;
  analysis_ : option AnalysisResult;
  pr_url : option string;
  screenshots_captured : option (list string);
  error : option string
}.

(** The local variables alive when the analysis is asked for. *)
Record Gathered : Type := {
  g_github : GitHubService.t;
  g_screenshots_captured : option (list string);
  g_image_paths : list string;
  g_video_path : option string;
  g_code_context : odict string
}.

Section WithEnv.
Variable env : Env.
Variable b64decode_utf8 : string -> option string.
Variable prompts : GeminiService.Prompts.
Variable json : GeminiService.JsonReader.

Definition no_visual_input : string :=
  "At least one visual input required: video, images, or deployed_url".

Definition no_token : string :=
  "No GitHub token available. Please provide a token or connect your GitHub account.".

Definition token_expired : string :=
  "Your GitHub token has expired or is invalid. Please re-authenticate with GitHub or provide a valid GitHub token.".

Definition no_write_access (login : string) : string :=
  "GitHub token for user '" ++ login
  ++ "' does not have write access to this repository. "
  ++ "Please ensure: 1) Your token has 'repo' scope (for private repos) or 'public_repo' scope (for public repos), "
  ++ "2) You are a collaborator on this repository or it's your own repository, "
  ++ "3) If it's someone else's repo, fork it first and analyze your fork.".

Definition no_code_files : string :=
  "Could not fetch any relevant code files from the repository".

Definition branch_forbidden : string :=
  "GitHub token doesn't have write access to this repository. Please ensure: 1) You're using a Personal Access Token with 'repo' scope, 2) You have push access to the repository, or 3) Connect your GitHub account via OAuth.".

(** Step 1: screenshots of the deployed URL; a failed capture is skipped. *)
Definition capture (form : Form) : M (option (list string)) :=
  match deployed_url form with
  | Some url =>
      if truthy url then
        try_except
          (let! shots := call env (Capture_visual_context url) in ret (Some shots))
          any_exception
          (fun _ => ret None)
      else ret None
  | None => ret None
  end.

(** Step 2: the uploaded images, numbered by their position. *)
Fixpoint save_images (temp_dir : string) (i : nat) (images : list UploadFile)
    : M (list string) :=
  match images with
  | [] => ret []
  | image :: rest =>
      let! saved :=
        match filename image with
        | Some name =>
            if truthy name then
              let image_path :=
                temp_dir ++ "/upload_" ++ str_of_Z (Z.of_nat i) ++ "_" ++ name in
              call env (Save_upload image_path) ;;; ret [image_path]
            else ret []
        | None => ret []
        end in
      let! more := save_images temp_dir (S i) rest in
      ret (saved ++ more)%list
  end.

(** Step 3: the uploaded video. *)
Definition save_video (temp_dir : string) (form : Form) : M (option string) :=
  match video form with
  | Some v =>
      match filename v with
      | Some name =>
          if truthy name then
            let video_path := temp_dir ++ "/video_" ++ name in
            call env (Save_upload video_path) ;;; ret (Some video_path)
          else ret None
      | None => ret None
      end
  | None => ret None
  end.

(** [github_token or current_user.github_access_token or settings.GITHUB_TOKEN]. *)
Definition effective_github_token (form : Form) (amb : Ambient) : string :=
  or_else (github_token form)
    (or_else (user_github_access_token amb) (settings_GITHUB_TOKEN amb)).

Definition init_github (form : Form) (amb : Ambient) : M GitHubService.t :=
  let token := effective_github_token form amb in
  if negb (truthy token) then raise (HTTPException 400 no_token)
  else
    try_except (GitHubService.init env (Some token) (settings_GITHUB_TOKEN amb))
      is_ValueError
      (fun e =>
         let error_msg := str e in
         if contains "Invalid GitHub token" error_msg
            || contains "401" error_msg
            || contains "Bad credentials" error_msg
         then raise (HTTPException 401 token_expired)
         else raise (HTTPException 400
                       ("Failed to initialize GitHub service: " ++ error_msg))).

(** Step 4: the file tree. *)
Definition fetch_tree (form : Form) : M (list GitHubService.FileInfo) :=
  try_except (GitHubService.get_file_tree env (repo_url form) "main")
    any_exception
    (fun e => raise (HTTPException 400
                       ("Failed to fetch repository: " ++ str e
                        ++ ". Ensure the repo exists and is accessible."))).

(** The write-access check: [except HTTPException: raise], then
    [except Exception] logs a warning and goes on. *)
Definition verify_write_access (github : GitHubService.t) (form : Form) : M unit :=
  try_except
    (let! has_write_access :=
       GitHubService.check_write_access env github (repo_url form) in
     if negb has_write_access then
       raise (HTTPException 403 (no_write_access (GitHubService.user_login github)))
     else ret tt)
    (fun e => negb (is_HTTPException e))
    (fun _ => ret tt).

Definition blob_paths (file_tree : list GitHubService.FileInfo) : list string :=
  map GitHubService.fi_path
    (List.filter (fun f => String.eqb (GitHubService.fi_type f) "blob") file_tree).

(** Step 6: the loop that fills [code_context]. *)
Fixpoint fetch_context (form : Form) (paths : list string) (code_context : odict string)
    : M (odict string) :=
  match paths with
  | [] => ret code_context
  | path :: rest =>
      let! content :=
        GitHubService.get_file_content env b64decode_utf8 (repo_url form) path "main" in
      fetch_context form rest
        (if truthy_opt content
         then odict_set path (default empty content) code_context
         else code_context)
  end.

(** Steps 5 and 6. *)
Definition scout_and_fetch (form : Form) (file_tree : list GitHubService.FileInfo)
    : M (odict string) :=
  let file_paths := blob_paths file_tree in
  let! relevant_files :=
    GeminiService.scout_files env prompts json file_paths (bug_description form) in
  let! code_context := fetch_context form (take 10 relevant_files) [] in
  match code_context with
  | [] => raise (HTTPException 400 no_code_files)
  | _ :: _ => ret code_context
  end.

(** Everything before the analysis, inside the temporary directory. *)
Definition gather (form : Form) (amb : Ambient) (temp_dir : string) : M Gathered :=
  let! screenshots_captured := capture form in
  let image_paths := default [] screenshots_captured in
  let! uploaded := save_images temp_dir 0 (images form) in
  let image_paths := (image_paths ++ uploaded)%list in
  let! video_path := save_video temp_dir form in
  let! github := init_github form amb in
  call env Get_gemini_service ;;;
  let! file_tree := fetch_tree form in
  verify_write_access github form ;;;
  let! code_context := scout_and_fetch form file_tree in
  ret {| g_github := github;
         g_screenshots_captured := screenshots_captured;
         g_image_paths := image_paths;
         g_video_path := video_path;
         g_code_context := code_context |}.

(** Step 7: the analysis, by the video entry point when a video was
    saved. *)
Definition request_analysis (form : Form) (g : Gathered) : M GeminiService.AnalysisDict :=
  try_except
    (match g_video_path g with
     | Some video_path =>
         if truthy video_path then
           GeminiService.analyze_video_frames env prompts json video_path
             (g_code_context g) (bug_description form)
         else
           GeminiService.analyze_vibe env prompts json (g_code_context g)
             (bug_description form)
             (match g_image_paths g with [] => None | l => Some l end)
     | None =>
         GeminiService.analyze_vibe env prompts json (g_code_context g)
           (bug_description form)
           (match g_image_paths g with [] => None | l => Some l end)
     end)
    any_exception
    (fun e => raise (HTTPException 500 ("AI analysis failed: " ++ str e))).

(** [analysis_result.get("fix", {})]. *)
Definition get_fix (analysis_result : GeminiService.AnalysisDict) : GeminiService.FixVal :=
  default (GeminiService.FixDict ∅) (GeminiService.ad_fix analysis_result).

(** [bool(fix)]. *)
Definition fix_truthy (fx : GeminiService.FixVal) : bool :=
  match fx with
  | GeminiService.FixNone => false
  | GeminiService.FixDict d => negb (bool_decide (d = ∅))
  end.

(** [fix.get(key)]. *)
Definition fix_get (fx : GeminiService.FixVal) (key : string) : option string :=
  match fx with
  | GeminiService.FixNone => None
  | GeminiService.FixDict d => d !! key
  end.

(** [not fix or not fix.get("file_path") or not fix.get("code")]. *)
Definition fix_incomplete (fx : GeminiService.FixVal) : bool :=
  negb (fix_truthy fx)
  || negb (truthy_opt (fix_get fx "file_path"))
  || negb (truthy_opt (fix_get fx "code")).

(** pydantic's reading of a value for a [str] field.  The models of
    [app/models/schemas.py] are those of pydantic 2 ([app/core/config.py]
    imports [pydantic_settings]), which takes a string for such a field
    and nothing else: [None], a number, a list are refused. *)
Definition str_field (v : Json) : option string :=
  match v with
  | JString s => Some s
  | _ => None
  end.

(** [AnalysisResult(analysis=..., severity=..., fix=...)]: pydantic's
    [ValidationError], a [ValueError], unless both values are strings. *)
Definition new_AnalysisResult (analysis severity : Json) (fx : AnalysisFix)
    : M AnalysisResult :=
  match str_field analysis, str_field severity with
  | Some a, Some s => ret {| analysis := a; severity := s; fix_ := fx |}
  | _, _ =>
      raise (ValueError (GeminiService.validation_error json analysis severity))
  end.

(** [f"{v}"]: a string as it is, any other value by [str]. *)
Definition format (v : Json) : string :=
  match v with
  | JString s => s
  | _ => GeminiService.str_of_value json v
  end.

(** [f"{v[:50]}"]: a string and a list are cut, no other value can be. *)
Definition format_first_50 (v : Json) : M string :=
  match v with
  | JString s => ret (str_take 50 s)
  | JArray items => ret (GeminiService.str_of_value json (JArray (take 50 items)))
  | _ => raise (Exception (GeminiService.subscript_error json v))
  end.

(** The response of a request that ends without a fix to deliver. *)
Definition no_fix_response (job_id : string) (g : Gathered)
    (analysis_result : GeminiService.AnalysisDict) : M AnalyzeResponse :=
  let! result :=
    new_AnalysisResult
      (default (JString "No specific issue identified")
         (GeminiService.ad_analysis analysis_result))
      (default (JString "Low") (GeminiService.ad_severity analysis_result))
      {| file_path := empty; code := empty |} in
  ret {| status := "success";
         job_id := job_id;
         analysis_ := Some result;
         pr_url := None;
         screenshots_captured := g_screenshots_captured g;
         error := None |}.

(** [str(e).lower()] holds [403] or [forbidden]. *)
Definition permission_signal (e : exn) : bool :=
  let error_str := lower (str e) in
  contains "403" error_str || contains "forbidden" error_str.

(** Step 8: the branch, from [main], then from [master]. *)
Definition create_fix_branch (form : Form) (branch_name : string) : M unit :=
  try_except
    (GitHubService.create_branch env (repo_url form) "main" branch_name ;;; ret tt)
    any_exception
    (fun e =>
       if permission_signal e then raise (HTTPException 403 branch_forbidden)
       else
         try_except
           (GitHubService.create_branch env (repo_url form) "master" branch_name ;;;
            ret tt)
           any_exception
           (fun e2 =>
              raise (HTTPException 500 ("Failed to create branch: " ++ str e2)))).

(** The commit of the fix; its message is made before the [try]. *)
Definition commit_fix (form : Form) (branch_name : string)
    (analysis_result : GeminiService.AnalysisDict) (fx : GeminiService.FixVal) : M unit :=
  let! headline :=
    format_first_50
      (default (JString "Automated vibe fix")
         (GeminiService.ad_analysis analysis_result)) in
  let commit_message := "fix: " ++ headline in
  try_except
    (GitHubService.commit_file_changes env (repo_url form) branch_name
       (default empty (fix_get fx "file_path"))
       (default empty (fix_get fx "code"))
       commit_message ;;; ret tt)
    any_exception
    (fun e => raise (HTTPException 500 ("Failed to commit changes: " ++ str e))).

Definition pr_body (analysis_result : GeminiService.AnalysisDict)
    (fx : GeminiService.FixVal) : string :=
  "## Automated Vibe Fix" ++ nl ++ nl
  ++ "**Issue:** "
  ++ format (default (JString "N/A") (GeminiService.ad_analysis analysis_result))
  ++ nl ++ nl
  ++ "**Severity:** "
  ++ format (default (JString "N/A") (GeminiService.ad_severity analysis_result))
  ++ nl ++ nl
  ++ "**File Modified:** `" ++ default empty (fix_get fx "file_path") ++ "`" ++ nl ++ nl
  ++ "---" ++ nl
  ++ "*This PR was automatically generated by The Sentinel (VibeChecker)*".

(** Step 9: the pull request. *)
Definition open_pull_request (form : Form) (branch_name : string)
    (analysis_result : GeminiService.AnalysisDict) (fx : GeminiService.FixVal)
    : M PullRequest :=
  try_except
    (let pr_body := pr_body analysis_result fx in
     let! headline :=
       format_first_50
         (default (JString "Vibe fix") (GeminiService.ad_analysis analysis_result)) in
     GitHubService.create_pull_request env (repo_url form)
       ("fix: " ++ headline) pr_body branch_name "main")
    any_exception
    (fun e => raise (HTTPException 500 ("Failed to create pull request: " ++ str e))).

(** From the validation of the analysis result to the response. *)
Definition deliver (form : Form) (job_id : string) (g : Gathered)
    (analysis_result : GeminiService.AnalysisDict) : M AnalyzeResponse :=
  let fx := get_fix analysis_result in
  if fix_incomplete fx then no_fix_response job_id g analysis_result
  else
    let branch_name := "fix-vibe-" ++ str_take 8 job_id in
    create_fix_branch form branch_name ;;;
    commit_fix form branch_name analysis_result fx ;;;
    let! pr := open_pull_request form branch_name analysis_result fx in
    let! result :=
      new_AnalysisResult
        (default (JString empty) (GeminiService.ad_analysis analysis_result))
        (default (JString "Medium") (GeminiService.ad_severity analysis_result))
        {| file_path := default empty (fix_get fx "file_path");
           code := default empty (fix_get fx "code") |} in
    ret {| status := "success";
           job_id := job_id;
           analysis_ := Some result;
           pr_url := Some (html_url pr);
           screenshots_captured := g_screenshots_captured g;
           error := None |}.

(** The [finally] block: remove the temporary directory, whatever
    its removal raises. *)
Definition cleanup (temp_dir : string) : M unit :=
  try_except (call env (Rmtree temp_dir)) any_exception (fun _ => ret tt).

(** [except HTTPException: raise] and [except Exception] of the
    outer [try]. *)
Definition http_boundary {A} (m : M A) : M A :=
  try_except m
    (fun e => negb (is_HTTPException e))
    (fun e => raise (HTTPException 500 ("An unexpected error occurred: " ++ str e))).

Definition has_visual_input (form : Form) : bool :=
  is_Some_bool (video form)
  || (0 <? List.length (images form))%nat
  || is_Some_bool (deployed_url form).

Definition analyze_vibe (form : Form) (amb : Ambient) : M AnalyzeResponse :=
  let! job_id := call env Uuid4 in
  http_boundary
    (if negb (has_visual_input form) then raise (HTTPException 400 no_visual_input)
     else
       let! temp_dir := call env (Mkdtemp ("vibe_check_" ++ job_id ++ "_")) in
       try_finally
         (let! g := gather form amb temp_dir in
          let! analysis_result := request_analysis form g in
          deliver form job_id g analysis_result)
         (cleanup temp_dir)).

End WithEnv.
End Analyze.


(** ** [app/services/github_service.py]: [get_files_by_extensions] *)

Module GitHubServiceFiles.
Import Py World GitHubService.

(** [s.endswith(ext)]. *)
Definition endswith (s ext : string) : bool :=
  (String.length ext <=? String.length s)%nat
  && String.eqb
       (String.substring (String.length s - String.length ext) (String.length ext) s)
       ext.

Section WithEnv.
Variable env : Env.
Variable b64decode_utf8 : string -> option string.

(** The [for] loop of [get_files_by_extensions], with its [break]. *)
Fixpoint collect_files (repo_url : string) (extensions : list string) (max_files : Z)
    (branch : string) (tree : list FileInfo) (files_content : odict string)
    : M (odict string) :=
  match tree with
  | [] => ret files_content
  | item :: rest =>
      if String.eqb (fi_type item) "blob" then
        if existsb (fun ext => endswith (fi_path item) ext) extensions then
          let! content := get_file_content env b64decode_utf8 repo_url (fi_path item) branch in
          let files_content :=
            if truthy_opt content
            then odict_set (fi_path item) (default empty content) files_content
            else files_content in
          if (max_files <=? Z.of_nat (List.length files_content))%Z then ret files_content
          else collect_files repo_url extensions max_files branch rest files_content
        else collect_files repo_url extensions max_files branch rest files_content
      else collect_files repo_url extensions max_files branch rest files_content
  end.

Definition get_files_by_extensions (repo_url : string) (extensions : list string)
    (max_files : Z) (branch : string) : M (odict string) :=
  let! tree := get_file_tree env repo_url branch in
  collect_files repo_url extensions max_files branch tree [].

End WithEnv.
End GitHubServiceFiles.
(** ** Reading a trace *)

Module Observe.
Import Py World.

(** The capability an event belongs to.  Library calls are split into
    those that write to the repository, those that ask the model, and
    the others. *)
Inductive Tag : Type :=
| TCall | TWrite | TModel
| TCheckWriteAccess | TGetFileContent | TCreateBranch | TCommitFileChanges
| TCreatePullRequest | TWaitForCi | TGetPrStatus | TGetCheckLogs
| TScoutFiles | TAnalyzeVibe | TSelfCorrect.

Definition call_tag {T} (c : Call T) : Tag :=
  match c with
  | Repo_create_git_ref _ _ | Repo_update_file _ _ _ _ _
  | Repo_create_file _ _ _ _ | Repo_create_pull _ _ _ _ => TWrite
  | Model_generate_content _ => TModel
  | _ => TCall
  end.

Definition tag (e : Event) : Tag :=
  match e with
  | EvCall c => call_tag c
  | EvCheckWriteAccess _ => TCheckWriteAccess
  | EvGetFileContent _ _ => TGetFileContent
  | EvCreateBranch _ _ => TCreateBranch
  | EvCommitFileChanges _ _ _ _ => TCommitFileChanges
  | EvCreatePullRequest _ _ _ _ => TCreatePullRequest
  | EvWaitForCi _ => TWaitForCi
  | EvGetPrStatus _ => TGetPrStatus
  | EvGetCheckLogs _ => TGetCheckLogs
  | EvScoutFiles _ _ => TScoutFiles
  | EvAnalyzeVibe _ _ _ => TAnalyzeVibe
  | EvSelfCorrect _ _ _ => TSelfCorrect
  end.

Definition tag_eqb (a b : Tag) : bool :=
  match a, b with
  | TCall, TCall | TWrite, TWrite | TModel, TModel
  | TCheckWriteAccess, TCheckWriteAccess
  | TGetFileContent, TGetFileContent | TCreateBranch, TCreateBranch
  | TCommitFileChanges, TCommitFileChanges
  | TCreatePullRequest, TCreatePullRequest | TWaitForCi, TWaitForCi
  | TGetPrStatus, TGetPrStatus | TGetCheckLogs, TGetCheckLogs
  | TScoutFiles, TScoutFiles | TAnalyzeVibe, TAnalyzeVibe
  | TSelfCorrect, TSelfCorrect => true
  | _, _ => false
  end.

Definition mem (t : Tag) (ts : list Tag) : bool := existsb (tag_eqb t) ts.

Definition subset (ts ts' : list Tag) : bool := forallb (fun t => mem t ts') ts.

(** The number of events of a capability. *)
Definition count (t : Tag) (tr : Trace) : nat :=
  List.length (List.filter (fun e => tag_eqb (tag e) t) tr).

(** The number of events of a capability between two moments of a run. *)
Definition calls_during (t : Tag) (tr tr' : Trace) : Z :=
  (Z.of_nat (count t tr') - Z.of_nat (count t tr))%Z.

(** [emits ts m]: whatever [m] does and however it ends, it only adds
    events of the capabilities [ts] to the trace. *)
Definition emits {A} (ts : list Tag) (m : M A) : Prop :=
  forall tr, exists evs,
    snd (m tr) = (evs ++ tr)%list /\ Forall (fun e => mem (tag e) ts = true) evs.

(** [adds_at_most t n m]: [m] adds at most [n] events of capability [t]. *)
Definition adds_at_most {A} (t : Tag) (n : nat) (m : M A) : Prop :=
  forall tr, (count t (snd (m tr)) <= n + count t tr)%nat.


(** The bases [create_branch] was asked for, oldest first. *)
Definition attempted_bases (tr : Trace) : list string :=
  rev (flat_map (fun e => match e with EvCreateBranch b _ => [b] | _ => [] end) tr).

(** The paths [get_file_content] was asked for, oldest first. *)
Definition fetched_paths (tr : Trace) : list string :=
  rev (flat_map (fun e => match e with EvGetFileContent p _ => [p] | _ => [] end) tr).

(** The code contexts handed to the analysis entry point. *)
Definition contexts_handed (tr : Trace) : list (odict string) :=
  flat_map (fun e => match e with EvAnalyzeVibe ctx _ _ => [ctx] | _ => [] end) tr.

(** At most 10 files of at most 2000 characters each. *)
Definition within_caps (ctx : odict string) : bool :=
  (List.length ctx <=? 10)%nat
  && forallb (fun entry => (String.length (snd entry) <=? 2000)%nat) ctx.

(** A code context with each content cut to its first 2000 characters. *)
Definition capped (ctx : odict string) : odict string :=
  map (fun entry => (fst entry, str_take 2000 (snd entry))) ctx.

(** The clock of an oracle: what [datetime.now()] reads at a tick. *)
Definition clock (env : Env) (tick : nat) : Z :=
  match env Z tick Datetime_now with inr z => z | inl _ => 0%Z end.

(** No library call fails and the model's response has a text. *)
Definition gateways_answer (env : Env) : Prop :=
  (forall T tick (c : Call T), exists v, env T tick c = inr v) /\
  (forall tick parts, exists text,
      env (option string) tick (Model_generate_content parts) = inr (Some text)).

(** The texts the model answers are read as JSON objects by the
    correction capability. *)
Definition replies_parse (env : Env) (json : GeminiService.JsonReader) : Prop :=
  forall tick parts text,
    env (option string) tick (Model_generate_content parts) = inr (Some text) ->
    is_Some (GeminiService.loads_correction json text).

(** A wait that polls [rounds] times outlasts the timeout: the clock read
    after that many polls (of seven events each) is at least [timeout]
    seconds past the reading the wait started with. *)
Definition polls_outlast_timeout (env : Env) (rounds : nat) (timeout : Z) : Prop :=
  forall t0 : nat,
    (timeout <= GitHubService.timedelta_seconds
                  (clock env (t0 + 1 + 7 * rounds)) (clock env t0))%Z.

(** The result reports a spent budget (the message of the last [return]). *)
Definition budget_spent (r : VerificationLoopService.VerificationResult) : bool :=
  match VerificationLoopService.error_message r with
  | Some m => String.prefix "Maximum iterations" m
  | None => false
  end.

(** The terminal condition a result stands for: success, missing
    diagnostics, or a spent budget. *)
Definition terminal_condition (r : VerificationLoopService.VerificationResult) : Prop :=
  (VerificationLoopService.success r = true
   /\ VerificationLoopService.final_status r = "success")
  \/ (VerificationLoopService.success r = false
      /\ VerificationLoopService.error_message r
         = Some "CI failed but no specific error logs found")
  \/ (VerificationLoopService.success r = false
      /\ VerificationLoopService.final_status r = "timeout"
      /\ budget_spent r = true).


End Observe.

(** ** The runs of one pass of the verification loop *)

Module LoopRuns.
Import Py World VerificationLoopService.

Section WithEnv.
Variable env : Env.
Variable prompts : GeminiService.Prompts.
Variable json : GeminiService.JsonReader.
Variable self : t.
Variable rounds : nat.
Variables (repo_url : string) (pr_number : Z) (branch file_path : string).

(** How a pass unfolds, one capability after the other. *)
Inductive pass_run (iteration : Z) (current_code : string) (tr : Trace)
  : Outcome Pass -> Trace -> Prop :=
| pass_wait_fails o tr1 :
    GitHubService.wait_for_ci_completion env rounds repo_url pr_number
      (poll_timeout self) (poll_interval self) tr = (o, tr1) ->
    (forall s, o <> Returned s) ->
    pass_run iteration current_code tr
      (match o with Raised e => Raised e | _ => Unfinished end) tr1
| pass_success status tr1 :
    GitHubService.wait_for_ci_completion env rounds repo_url pr_number
      (poll_timeout self) (poll_interval self) tr = (Returned status, tr1) ->
    String.eqb (GitHubService.state status) "success" = true ->
    pass_run iteration current_code tr
      (Returned (Return {| success := true; iterations := iteration;
                           final_status := "success"; error_logs := CheckLogs [];
                           corrected_code := Some current_code;
                           error_message := None |})) tr1
| pass_logs_fail status tr1 o tr2 :
    GitHubService.wait_for_ci_completion env rounds repo_url pr_number
      (poll_timeout self) (poll_interval self) tr = (Returned status, tr1) ->
    String.eqb (GitHubService.state status) "success" = false ->
    GitHubService.get_check_logs env repo_url pr_number tr1 = (o, tr2) ->
    (forall l, o <> Returned l) ->
    pass_run iteration current_code tr
      (match o with Raised e => Raised e | _ => Unfinished end) tr2
| pass_no_logs status tr1 tr2 :
    GitHubService.wait_for_ci_completion env rounds repo_url pr_number
      (poll_timeout self) (poll_interval self) tr = (Returned status, tr1) ->
    String.eqb (GitHubService.state status) "success" = false ->
    GitHubService.get_check_logs env repo_url pr_number tr1 = (Returned [], tr2) ->
    pass_run iteration current_code tr
      (Returned (Return {| success := false; iterations := iteration;
                           final_status := GitHubService.state status;
                           error_logs := Statuses (GitHubService.statuses status);
                           corrected_code := Some current_code;
                           error_message :=
                             Some "CI failed but no specific error logs found" |})) tr2
| pass_correct_fails status tr1 l ls tr2 o tr3 :
    GitHubService.wait_for_ci_completion env rounds repo_url pr_number
      (poll_timeout self) (poll_interval self) tr = (Returned status, tr1) ->
    String.eqb (GitHubService.state status) "success" = false ->
    GitHubService.get_check_logs env repo_url pr_number tr1 = (Returned (l :: ls), tr2) ->
    GeminiService.self_correct env prompts json current_code (l :: ls) file_path tr2
      = (o, tr3) ->
    (forall c, o <> Returned c) ->
    pass_run iteration current_code tr
      (match o with Raised e => Raised e | _ => Unfinished end) tr3
| pass_corrected status tr1 l ls tr2 correction tr3 o tr4 :
    GitHubService.wait_for_ci_completion env rounds repo_url pr_number
      (poll_timeout self) (poll_interval self) tr = (Returned status, tr1) ->
    String.eqb (GitHubService.state status) "success" = false ->
    GitHubService.get_check_logs env repo_url pr_number tr1 = (Returned (l :: ls), tr2) ->
    GeminiService.self_correct env prompts json current_code (l :: ls) file_path tr2
      = (Returned correction, tr3) ->
    recommit env repo_url branch file_path iteration current_code (l :: ls) correction tr3
      = (o, tr4) ->
    pass_run iteration current_code tr o tr4.

End WithEnv.
End LoopRuns.

(** ** Reading the arguments of the calls in a trace *)

Module Readers.
Import Py World.

(** What the events of a trace give under [f], oldest first. *)
Definition collect {A} (f : Event -> list A) (tr : Trace) : list A :=
  rev (flat_map f tr).

(** A write of a file: by [repo.update_file] or by [repo.create_file]. *)
Inductive FileWrite : Type :=
| Updated (path message content sha branch : string)
| Created (path message content branch : string).

(** The path, message, content and branch of a write. *)
Definition write_target (w : FileWrite) : string * string * string * string :=
  match w with
  | Updated p m c _ b => (p, m, c, b)
  | Created p m c b => (p, m, c, b)
  end.

Definition file_write {T} (c : Call T) : list FileWrite :=
  match c with
  | Repo_update_file p m ct sha b => [Updated p m ct sha b]
  | Repo_create_file p m ct b => [Created p m ct b]
  | _ => []
  end.

(** The file writes asked of the repository. *)
Definition file_writes : Trace -> list FileWrite :=
  collect (fun e => match e with EvCall c => file_write c | _ => [] end).

Definition pull_asked {T} (c : Call T) : list (string * string * string * string) :=
  match c with
  | Repo_create_pull title body head base => [(title, body, head, base)]
  | _ => []
  end.

(** The pull requests asked of the repository: title, body, head, base. *)
Definition pulls_asked : Trace -> list (string * string * string * string) :=
  collect (fun e => match e with EvCall c => pull_asked c | _ => [] end).

Definition ref_read {T} (c : Call T) : list string :=
  match c with
  | Repo_get_git_ref ref => [ref]
  | _ => []
  end.

(** The references looked up. *)
Definition refs_read : Trace -> list string :=
  collect (fun e => match e with EvCall c => ref_read c | _ => [] end).

Definition ref_created {T} (c : Call T) : list (string * string) :=
  match c with
  | Repo_create_git_ref ref sha => [(ref, sha)]
  | _ => []
  end.

(** The references asked to be created, with the commit they point to. *)
Definition refs_created : Trace -> list (string * string) :=
  collect (fun e => match e with EvCall c => ref_created c | _ => [] end).

Definition model_call {T} (c : Call T) : list (list Part) :=
  match c with
  | Model_generate_content parts => [parts]
  | _ => []
  end.

(** The content parts of the requests made to the model. *)
Definition model_calls : Trace -> list (list Part) :=
  collect (fun e => match e with EvCall c => model_call c | _ => [] end).

Definition is_sleep {T} (c : Call T) : list Z :=
  match c with
  | Time_sleep seconds => [seconds]
  | _ => []
  end.

(** The sleeps between two polls. *)
Definition sleeps : Trace -> list Z :=
  collect (fun e => match e with EvCall c => is_sleep c | _ => [] end).

(** The corrections asked of the model: code, logs and file path. *)
Definition corrections_asked : Trace -> list (string * list CheckLog * string) :=
  collect (fun e => match e with
                    | EvSelfCorrect code logs path => [(code, logs, path)]
                    | _ => []
                    end).

(** The contents [commit_file_changes] was asked to commit. *)
Definition committed_contents : Trace -> list string :=
  collect (fun e => match e with
                    | EvCommitFileChanges _ _ content _ => [content]
                    | _ => []
                    end).

(** The code contexts handed to the analysis, oldest first. *)
Definition contexts_analysed : Trace -> list (odict string) :=
  collect (fun e => match e with
                    | EvAnalyzeVibe ctx _ _ => [ctx]
                    | _ => []
                    end).

(** A content part that is an image. *)
Definition is_image (p : Part) : bool :=
  match p with PImage _ => true | PText _ => false end.

(** The status code of an HTTP error; [0] for any other exception. *)
Definition http_status (e : exn) : Z :=
  match e with HTTPException c _ => c | _ => 0%Z end.

(** [ends P m]: [m] always comes to an end, and an exception it ends with
    satisfies [P]. *)
Definition ends {A} (P : exn -> Prop) (m : M A) : Prop :=
  forall tr,
    match fst (m tr) with
    | Returned _ => True
    | Raised e => P e
    | Unfinished => False
    end.

(** [quiet f m]: [m] adds no event that [f] reads. *)
Definition quiet {A B} (f : Event -> list A) (m : M B) : Prop :=
  forall tr, collect f (snd (m tr)) = collect f tr.

End Readers.

(** ** The runs of the fix pipeline up to the analysis *)

Module PipelineRuns.
Import Py World Analyze.

Section WithEnv.
Variable env : Env.
Variable b64decode_utf8 : string -> option string.
Variable prompts : GeminiService.Prompts.
Variable json : GeminiService.JsonReader.


End WithEnv.
End PipelineRuns.

(** ** Scenarios: scripted worlds *)

Module Scenarios.
Import Py World.

(** What the outside answers in a scenario; the answers about CI, the
    failed checks and the model may change with time. *)
Record Script : Type := {
  ci_state : nat -> string;
  check_runs : nat -> list CheckRun;
  model_reply : nat -> option string;
  collaborator : gw_error + bool;
  pull : gw_error + string;
  created_ref : gw_error + unit;
  file_text : string
}.

Definition play (s : Script) : Env :=
  fun T tick c =>
    match c in Call T return gw_error + T with
    | Github_get_user _ => inr "octocat"
    | Github_get_repo _ => inr tt
    | Repo_has_in_collaborators _ => collaborator s
    | Repo_get_git_tree _ =>
        inr [ {| item_path := "src"; item_type := "tree";
                 item_size := None; item_sha := "t0" |};
              {| item_path := "src/App.tsx"; item_type := "blob";
                 item_size := Some 120%Z; item_sha := "b0" |};
              {| item_path := "README.md"; item_type := "blob";
                 item_size := Some 40%Z; item_sha := "b1" |} ]
    | Repo_get_contents _ _ => inr (ContentFile "utf-8" (file_text s) "b0")
    | Repo_get_git_ref _ => inr "c0ffee"
    | Repo_create_git_ref _ _ => created_ref s
    | Repo_update_file _ _ _ _ _ => inr {| commit_sha := "c1" |}
    | Repo_create_file _ _ _ _ => inr {| commit_sha := "c2" |}
    | Repo_create_pull _ _ _ _ =>
        inr {| html_url := "https://github.com/acme/shop/pull/7"; number := 7 |}
    | Repo_get_pull _ => pull s
    | Commit_get_status _ => inr {| cs_state := ci_state s tick; cs_statuses := [] |}
    | Commit_get_check_runs _ => inr (check_runs s tick)
    | Model_generate_content _ => inr (model_reply s tick)
    | Get_gemini_service => inr tt
    | Capture_visual_context _ => inr ["/tmp/shot_0.png"]
    | Uuid4 => inr "0f8fad5b-d9cb-469f-a165-70867728950e"
    | Mkdtemp prefix => inr ("/tmp/" ++ prefix)
    | Save_upload _ => inr tt
    | Encode_image _ => inr {| mime_type := "image/png"; data := "iVBORw0KGgo=" |}
    | Rmtree _ => inr tt
    | Datetime_now => inr (60 * Z.of_nat tick)%Z
    | Time_sleep _ => inr tt
    | Asyncio_sleep _ => inr tt
    end.

Definition failed_build : CheckRun :=
  {| run_name := "build";
     run_conclusion := Some "failure";
     run_output := Some {| out_title := Some "tsc"; out_summary := Some "TS2304" |};
     run_html_url := "https://github.com/acme/shop/runs/1" |}.

(** CI is green, every call answers. *)
Definition green : Script :=
  {| ci_state := fun _ => "success";
     check_runs := fun _ => [];
     model_reply := fun _ => Some "fixed";
     collaborator := inr true;
     pull := inr "head0";
     created_ref := inr tt;
     file_text := "export default App" |}.

(** The pull request cannot be read. *)
Definition gateway_down : Script :=
  {| ci_state := fun _ => "success";
     check_runs := fun _ => [];
     model_reply := fun _ => Some "fixed";
     collaborator := inr true;
     pull := inl (GwGithub "502 Bad Gateway");
     created_ref := inr tt;
     file_text := "export default App" |}.

(** CI never leaves [pending]. *)
Definition stuck_pending : Script :=
  {| ci_state := fun _ => "pending";
     check_runs := fun _ => [];
     model_reply := fun _ => Some "fixed";
     collaborator := inr true;
     pull := inr "head0";
     created_ref := inr tt;
     file_text := "export default App" |}.

(** The build fails until the correction is committed, then passes. *)
Definition red_then_green (reply : string) : Script :=
  {| ci_state := fun tick => if (tick <? 20)%nat then "failure" else "success";
     check_runs := fun _ => [failed_build];
     model_reply := fun _ => Some reply;
     collaborator := inr true;
     pull := inr "head0";
     created_ref := inr tt;
     file_text := "export default App" |}.

(** Creating a reference is forbidden. *)
Definition forbidden : Script :=
  {| ci_state := fun _ => "success";
     check_runs := fun _ => [];
     model_reply := fun _ => Some "fixed";
     collaborator := inr true;
     pull := inr "head0";
     created_ref := inl (GwGithub "403 {message: Resource not accessible by integration}");
     file_text := "export default App" |}.

(** The collaborator lookup fails on the server's side. *)
Definition collaborator_lookup_fails : Script :=
  {| ci_state := fun _ => "success";
     check_runs := fun _ => [];
     model_reply := fun _ => Some "fixed";
     collaborator := inl (GwGithub "500 Internal Server Error");
     pull := inr "head0";
     created_ref := inr tt;
     file_text := "export default App" |}.



Fixpoint replicate (n : nat) (c : ascii) : string :=
  match n with
  | O => EmptyString
  | S n' => String c (replicate n' c)
  end.

(** The relevant file is 2001 characters long. *)
Definition long_file : Script :=
  {| ci_state := fun _ => "success";
     check_runs := fun _ => [];
     model_reply := fun _ => Some "fixed";
     collaborator := inr true;
     pull := inr "head0";
     created_ref := inr tt;
     file_text := replicate 2001 "x" |}.

Definition prompts : GeminiService.Prompts :=
  {| GeminiService.SYSTEM_PROMPT_SENTINEL := "You are The Sentinel.";
     GeminiService.SYSTEM_PROMPT_SELF_CORRECT := "You are The Sentinel in Self-Correction Mode.";
     GeminiService.SYSTEM_PROMPT_SCOUT := "You are The Sentinel in Scout Mode." |}.

(** [str(v)] for the values of the scenarios. *)
Definition str_of (v : Json) : string :=
  match v with
  | JNull => "None"
  | JBool true => "True"
  | JBool false => "False"
  | JNumber literal => literal
  | JString s => s
  | JArray [] => "[]"
  | JArray (_ :: _) => "[...]"
  | JObject [] => "{}"
  | JObject (_ :: _) => "{...}"
  end.

(** A reader of the model's replies: the reply [omitted] is a correction
    without [corrected_code], the reply [no-fix] an analysis without a
    fix, the reply [no-severity] an analysis without a fix whose severity
    is [null]; any other reply is its own corrected code. *)
Definition reader : GeminiService.JsonReader :=
  {| GeminiService.loads_scout :=
       fun _ => Some {| GeminiService.relevant_files := Some ["src/App.tsx"] |};
     GeminiService.loads_analysis :=
       fun text =>
         if String.eqb text "no-severity" then
           Some {| GeminiService.ad_analysis := Some (JString "The page matches the code");
                   GeminiService.ad_severity := Some JNull;
                   GeminiService.ad_fix := None |}
         else if String.eqb text "no-fix" then
           Some {| GeminiService.ad_analysis := Some (JString "The page matches the code");
                   GeminiService.ad_severity := Some (JString "Low");
                   GeminiService.ad_fix := None |}
         else
           Some {| GeminiService.ad_analysis := Some (JString "Button overflows its card");
                   GeminiService.ad_severity := Some (JString "Medium");
                   GeminiService.ad_fix :=
                     Some (GeminiService.FixDict
                             (<["file_path" := "src/App.tsx"]>
                                (<["code" := "export default Fixed"]> ∅))) |};
     GeminiService.loads_correction :=
       fun text =>
         if String.eqb text "omitted" then Some (<["error_analysis" := "types"]> ∅)
         else Some (<["corrected_code" := text]> ∅);
     GeminiService.decode_error := fun _ => "Expecting value";
     GeminiService.str_of_value := str_of;
     GeminiService.subscript_error := fun _ => "object is not subscriptable";
     GeminiService.validation_error :=
       fun _ _ => "1 validation error for AnalysisResult" |}.

Definition b64decode_utf8 (s : string) : option string := Some s.

(** The value a computation returned, [d] when it did not return. *)
Definition returned {A} (d : A) (r : Outcome A * Trace) : A :=
  match fst r with
  | Returned a => a
  | _ => d
  end.

Definition no_status : GitHubService.PrStatus :=
  {| GitHubService.state := empty; GitHubService.statuses := [];
     GitHubService.total_count := 0 |}.

Definition no_log : CheckLog :=
  {| log_name := empty; log_conclusion := empty; log_output_title := empty;
     log_output_summary := empty; log_html_url := empty |}.

Definition repo : string := "https://github.com/acme/shop".

(** A request with one uploaded image and a description. *)
Definition form : Analyze.Form :=
  {| Analyze.form_repo_url :=
       {| text_head := "h"; text_tail := "ttps://github.com/acme/shop" |};
     Analyze.form_deployed_url := None;
     Analyze.form_bug_description := bound "The buy button overflows";
     Analyze.form_github_token := bound "ghp_token";
     Analyze.video := None;
     Analyze.images := [ {| Analyze.filename := Some "bug.png" |} ] |}.

Definition ambient : Analyze.Ambient :=
  {| Analyze.user_github_access_token := None;
     Analyze.settings_GITHUB_TOKEN := empty |}.

(** The verification loop on pull request 7 of the repository. *)
Definition verify (s : Script) (rounds : nat) (original_code : string)
    : M VerificationLoopService.VerificationResult :=
  VerificationLoopService.run_verification_loop (play s) prompts reader
    VerificationLoopService.init rounds repo 7%Z "fix-vibe-0f8fad5b" "src/App.tsx"
    original_code.

(** The fix pipeline on the request above. *)
Definition submit (s : Script) : M Analyze.AnalyzeResponse :=
  Analyze.analyze_vibe (play s) b64decode_utf8 prompts reader form ambient.

End Scenarios.

(** ** More requests and settings for the scenarios *)

Module Cases.
Import Py World Scenarios.

(** A verification loop without any budget. *)
Definition no_budget : VerificationLoopService.t :=
  {| VerificationLoopService.max_iterations := 0;
     VerificationLoopService.poll_timeout := 300;
     VerificationLoopService.poll_interval := 15 |}.

(** A request without a video, an image or a deployed URL. *)
Definition blank_form : Analyze.Form :=
  {| Analyze.form_repo_url :=
       {| text_head := "h"; text_tail := "ttps://github.com/acme/shop" |};
     Analyze.form_deployed_url := None;
     Analyze.form_bug_description := bound "The buy button overflows";
     Analyze.form_github_token := bound "ghp_token";
     Analyze.video := None;
     Analyze.images := [] |}.

(** A request with a deployed URL and one image that has no file name. *)
Definition url_form : Analyze.Form :=
  {| Analyze.form_repo_url :=
       {| text_head := "h"; text_tail := "ttps://github.com/acme/shop" |};
     Analyze.form_deployed_url := bound "https://shop.example.org";
     Analyze.form_bug_description := bound "The buy button overflows";
     Analyze.form_github_token := bound "ghp_token";
     Analyze.video := None;
     Analyze.images := [ {| Analyze.filename := None |} ] |}.

(** The world of the script [green] without a browser: no capture of a
    page succeeds. *)
Definition without_browser : Env :=
  fun T tick c =>
    match c in Call T0 return (gw_error + T0) -> gw_error + T0 with
    | Capture_visual_context _ => fun _ => inl (GwOther "Executable doesn't exist")
    | _ => fun answer => answer
    end (play green tick c).

(** A check run that timed out. *)
Definition timed_out_build : CheckRun :=
  {| run_name := "build";
     run_conclusion := Some "timed_out";
     run_output := None;
     run_html_url := "https://github.com/acme/shop/runs/2" |}.

(** The build timed out after the lint failed. *)
Definition build_timed_out : Script :=
  {| ci_state := fun _ => "failure";
     check_runs :=
       fun _ =>
         [ {| run_name := "lint";
              run_conclusion := Some "failure";
              run_output := None;
              run_html_url := "https://github.com/acme/shop/runs/1" |};
           timed_out_build ];
     model_reply := fun _ => Some "fixed";
     collaborator := inr true;
     pull := inr "head0";
     created_ref := inr tt;
     file_text := "export default App" |}.

(** What a request with a screenshot and a video has gathered. *)
Definition with_video : Analyze.Gathered :=
  {| Analyze.g_github :=
       {| GitHubService.token := "ghp_token"; GitHubService.user_login := "octocat" |};
     Analyze.g_screenshots_captured := Some ["/tmp/shot_0.png"];
     Analyze.g_image_paths := ["/tmp/shot_0.png"];
     Analyze.g_video_path := Some "/tmp/job/video_bug.mp4";
     Analyze.g_code_context := [("src/App.tsx", "export default App")] |}.

(** A parsed reply of the model that names an issue and no fix. *)
Definition reply_without_fix : GeminiService.AnalysisDict :=
  {| GeminiService.ad_analysis := Some (JString "The page matches the code");
     GeminiService.ad_severity := None;
     GeminiService.ad_fix := None |}.

(** A parsed reply of the model that names an issue and no fix, with
    [null] for the severity. *)
Definition reply_with_null_severity : GeminiService.AnalysisDict :=
  {| GeminiService.ad_analysis := Some (JString "The page matches the code");
     GeminiService.ad_severity := Some JNull;
     GeminiService.ad_fix := None |}.

(** The file tree of the scenarios, as [get_file_tree] returns it. *)
Definition tree : list GitHubService.FileInfo :=
  [ {| GitHubService.fi_path := "src"; GitHubService.fi_type := "tree";
       GitHubService.fi_size := None; GitHubService.fi_sha := "t0" |};
    {| GitHubService.fi_path := "src/App.tsx"; GitHubService.fi_type := "blob";
       GitHubService.fi_size := Some 120%Z; GitHubService.fi_sha := "b0" |};
    {| GitHubService.fi_path := "README.md"; GitHubService.fi_type := "blob";
       GitHubService.fi_size := Some 40%Z; GitHubService.fi_sha := "b1" |} ].

End Cases.

(** ** Five sentences of the specification, as they are written *)

Module AsStated.
Import Py World Observe.

Section WithEnv.
Variable env : Env.
Variable b64decode_utf8 : string -> option string.
Variable prompts : GeminiService.Prompts.
Variable json : GeminiService.JsonReader.
Variable self : VerificationLoopService.t.
Variable rounds : nat.
Variables (repo_url : string) (pr_number : Z) (branch file_path : string).

(** The iteration count of a returned result is at most the budget and
    equals the number of calls to the correction capability. *)
Definition iterations_count_corrections : Prop :=
  forall original_code tr r tr',
    VerificationLoopService.run_verification_loop env prompts json self rounds
      repo_url pr_number branch file_path original_code tr = (Returned r, tr') ->
    (VerificationLoopService.iterations r <= VerificationLoopService.max_iterations self)%Z
    /\ VerificationLoopService.iterations r = calls_during TSelfCorrect tr tr'.

(** No exception leaves the loop. *)
Definition no_exception_escapes : Prop :=
  forall original_code tr e tr',
    VerificationLoopService.run_verification_loop env prompts json self rounds
      repo_url pr_number branch file_path original_code tr <> (Raised e, tr').

(** Logs are not fetched after a poll whose state is neither [failure]
    nor [error]. *)
Definition logs_only_after_failure : Prop :=
  forall iteration current_code tr status tr1,
    GitHubService.wait_for_ci_completion env rounds repo_url pr_number
      (VerificationLoopService.poll_timeout self)
      (VerificationLoopService.poll_interval self) tr = (Returned status, tr1) ->
    GitHubService.state status <> "failure" ->
    GitHubService.state status <> "error" ->
    count TGetCheckLogs
      (snd (VerificationLoopService.pass env prompts json self rounds repo_url
              pr_number branch file_path iteration current_code tr))
    = count TGetCheckLogs tr.

(** Every code context handed to the analysis entry point has at most
    10 files of at most 2000 characters. *)
Definition context_capped_before_handoff : Prop :=
  forall form amb,
    forallb within_caps
      (contexts_handed
         (snd (Analyze.analyze_vibe env b64decode_utf8 prompts json form amb [])))
    = true.


End WithEnv.
End AsStated.
(** * Properties *)

Local Open Scope list_scope.

(** ** How computations extend the trace *)

Section Emits.
Import Py World Observe.

(** A sequence goes on with the value its first part returned. *)
Lemma bind_returned {A B} {m : M A} (k : A -> M B) {tr a tr'} :
  m tr = (Returned a, tr') -> bind m k tr = k a tr'.
Proof. intros H. unfold bind. rewrite H. reflexivity. Qed.

Lemma bind_inv {A B} (m : M A) (k : A -> M B) tr b tr' :
  bind m k tr = (Returned b, tr') ->
  exists a tr1, m tr = (Returned a, tr1) /\ k a tr1 = (Returned b, tr').
Proof.
  unfold bind. destruct (m tr) as [[a|e|] tr1]; try discriminate. eauto.
Qed.

Lemma mem_subset ts ts' t : subset ts ts' = true -> mem t ts = true -> mem t ts' = true.
Proof.
  unfold subset, mem. intros Hs Ht.
  apply existsb_exists in Ht as [u [Hu Heq]].
  rewrite forallb_forall in Hs. specialize (Hs u Hu).
  destruct t, u; try discriminate; exact Hs.
Qed.

Lemma emits_sub {A} ts ts' (m : M A) :
  emits ts m -> subset ts ts' = true -> emits ts' m.
Proof.
  intros Hm Hs tr. destruct (Hm tr) as [evs [E F]].
  exists evs. split; [exact E|].
  eapply List.Forall_impl; [|exact F]. intros e He. eapply mem_subset; eauto.
Qed.

Lemma emits_ret {A} ts (a : A) : emits ts (ret a).
Proof. intros tr. exists []. split; [reflexivity | constructor]. Qed.

Lemma emits_raise {A} ts e : emits ts (@raise A e).
Proof. intros tr. exists []. split; [reflexivity | constructor]. Qed.

Lemma emits_unfinished {A} ts : emits ts (@unfinished A).
Proof. intros tr. exists []. split; [reflexivity | constructor]. Qed.

Lemma emits_enter ts e : mem (tag e) ts = true -> emits ts (enter e).
Proof.
  intros H tr. exists [e]. split; [reflexivity | constructor; [exact H | constructor]].
Qed.

Lemma emits_call env ts {T} (c : Call T) :
  mem (tag (EvCall c)) ts = true -> emits ts (call env c).
Proof.
  intros H tr. exists [EvCall c]. unfold call.
  split; [destruct (env T (List.length tr) c); reflexivity|].
  constructor; [exact H | constructor].
Qed.

Lemma emits_bind {A B} ts (m : M A) (k : A -> M B) :
  emits ts m -> (forall a, emits ts (k a)) -> emits ts (bind m k).
Proof.
  intros Hm Hk tr. unfold bind.
  destruct (Hm tr) as [evs [E F]].
  destruct (m tr) as [[a|e|] tr1]; simpl in E; subst tr1.
  - destruct (Hk a (evs ++ tr)%list) as [evs' [E' F']].
    exists (evs' ++ evs)%list. rewrite E', app_assoc.
    split; [reflexivity | apply Forall_app; split; assumption].
  - exists evs. split; [reflexivity | assumption].
  - exists evs. split; [reflexivity | assumption].
Qed.

Lemma emits_try_except {A} ts (m : M A) catches h :
  emits ts m -> (forall e, emits ts (h e)) -> emits ts (try_except m catches h).
Proof.
  intros Hm Hh tr. unfold try_except.
  destruct (Hm tr) as [evs [E F]].
  destruct (m tr) as [[a|e|] tr1]; simpl in E; subst tr1.
  - exists evs. split; [reflexivity | assumption].
  - destruct (catches e).
    + destruct (Hh e (evs ++ tr)%list) as [evs' [E' F']].
      exists (evs' ++ evs)%list. rewrite E', app_assoc.
      split; [reflexivity | apply Forall_app; split; assumption].
    + exists evs. split; [reflexivity | assumption].
  - exists evs. split; [reflexivity | assumption].
Qed.

Lemma emits_try_finally {A} ts (m : M A) f :
  emits ts m -> emits ts f -> emits ts (try_finally m f).
Proof.
  intros Hm Hf tr. unfold try_finally.
  destruct (Hm tr) as [evs [E F]].
  destruct (m tr) as [o tr1]; simpl in E; subst tr1. simpl.
  destruct (Hf (evs ++ tr)%list) as [evs' [E' F']].
  exists (evs' ++ evs)%list. rewrite E', app_assoc.
  split; [reflexivity | apply Forall_app; split; assumption].
Qed.

(** Events of a capability outside [ts] are not added. *)
Lemma count_app t (evs tr : Trace) : count t (evs ++ tr) = (count t evs + count t tr)%nat.
Proof. unfold count. rewrite List.filter_app, List.length_app. reflexivity. Qed.

Lemma count_outside t ts (evs : Trace) :
  mem t ts = false -> Forall (fun e => mem (tag e) ts = true) evs -> count t evs = 0%nat.
Proof.
  intros Hout F. unfold count. induction F as [|e evs He _ IH]; [reflexivity|].
  simpl. destruct (tag_eqb (tag e) t) eqn:Heq; [|exact IH].
  assert (tag e = t) by (destruct (tag e), t; try discriminate; reflexivity).
  congruence.
Qed.

Lemma emits_count {A} t ts (m : M A) tr :
  emits ts m -> mem t ts = false -> count t (snd (m tr)) = count t tr.
Proof.
  intros Hm Hout. destruct (Hm tr) as [evs [E F]].
  rewrite E, count_app. erewrite count_outside by eassumption. reflexivity.
Qed.

End Emits.

Ltac emits_step :=
  match goal with
  | |- Observe.emits _ (World.ret _) => apply emits_ret
  | |- Observe.emits _ (World.raise _) => apply emits_raise
  | |- Observe.emits _ World.unfinished => apply emits_unfinished
  | |- Observe.emits _ (World.enter _) => apply emits_enter; reflexivity
  | |- Observe.emits _ (World.call _ _) => apply emits_call; reflexivity
  | |- Observe.emits _ (World.bind _ _) => apply emits_bind; [|intros]
  | |- Observe.emits _ (World.try_except _ _ _) => apply emits_try_except; [|intros]
  | |- Observe.emits _ (World.try_finally _ _) => apply emits_try_finally
  | |- Observe.emits _ (if ?b then _ else _) => destruct b
  | |- Observe.emits _ (match ?x with _ => _ end) => destruct x
  end.

Ltac emits_known lem := eapply emits_sub; [apply lem | reflexivity].

(** ** The capabilities of the two services *)

Section GitHubFacts.
Import Py World Observe GitHubService.
Variable env : Env.
Variable b64 : string -> option string.

Lemma get_repository_emits url : emits [TCall] (get_repository env url).
Proof. unfold get_repository. emits_step. Qed.

Lemma check_write_access_emits self url :
  emits [TCall; TCheckWriteAccess] (check_write_access env self url).
Proof. unfold check_write_access, get_repository. repeat emits_step. Qed.

Lemma get_file_tree_emits url b : emits [TCall] (get_file_tree env url b).
Proof. unfold get_file_tree, get_repository. repeat emits_step. Qed.

Lemma get_file_content_emits url p b :
  emits [TCall; TGetFileContent] (get_file_content env b64 url p b).
Proof. unfold get_file_content, get_repository. repeat emits_step. Qed.

Lemma create_branch_emits url base name :
  emits [TCall; TWrite; TCreateBranch] (create_branch env url base name).
Proof. unfold create_branch, get_repository. repeat emits_step. Qed.

Lemma commit_file_changes_emits url br p c msg :
  emits [TCall; TWrite; TCommitFileChanges] (commit_file_changes env url br p c msg).
Proof. unfold commit_file_changes, get_repository. repeat emits_step. Qed.

Lemma create_pull_request_emits url t b h base :
  emits [TCall; TWrite; TCreatePullRequest] (create_pull_request env url t b h base).
Proof. unfold create_pull_request, get_repository. repeat emits_step. Qed.

Lemma get_pr_status_emits url pr : emits [TCall; TGetPrStatus] (get_pr_status env url pr).
Proof. unfold get_pr_status, get_repository. repeat emits_step. Qed.

Lemma wait_loop_emits rounds url pr start timeout interval :
  emits [TCall; TGetPrStatus] (wait_loop env rounds url pr start timeout interval).
Proof.
  induction rounds as [|n IH]; simpl.
  - repeat first [emits_step | emits_known get_pr_status_emits].
  - repeat first [exact IH | emits_known get_pr_status_emits | emits_step].
Qed.


Lemma get_check_logs_emits url pr : emits [TCall; TGetCheckLogs] (get_check_logs env url pr).
Proof. unfold get_check_logs, get_repository. repeat emits_step. Qed.

Lemma wait_for_ci_completion_emits rounds url pr timeout interval :
  emits [TCall; TGetPrStatus; TWaitForCi]
    (wait_for_ci_completion env rounds url pr timeout interval).
Proof.
  unfold wait_for_ci_completion.
  repeat first [emits_known wait_loop_emits | emits_step].
Qed.

End GitHubFacts.

Section GeminiFacts.
Import Py World Observe GeminiService.
Variable env : Env.
Variable prompts : Prompts.
Variable json : JsonReader.

Lemma _parse_json_response_emits {D} ts (loads : string -> option D) text :
  emits ts (_parse_json_response json loads text).
Proof. unfold _parse_json_response. repeat emits_step. Qed.

Lemma response_text_emits ts r : emits ts (response_text r).
Proof. unfold response_text. repeat emits_step. Qed.

Lemma scout_files_emits file_tree d :
  emits [TCall; TModel; TScoutFiles] (scout_files env prompts json file_tree d).
Proof.
  unfold scout_files.
  repeat first [apply _parse_json_response_emits | apply response_text_emits | emits_step].
Qed.

Lemma encode_images_emits paths : emits [TCall] (encode_images env paths).
Proof.
  induction paths as [|p rest IH]; simpl; repeat first [exact IH | emits_step].
Qed.

Lemma analyze_vibe_emits ctx d imgs :
  emits [TCall; TModel; TAnalyzeVibe] (analyze_vibe env prompts json ctx d imgs).
Proof.
  unfold analyze_vibe.
  repeat first [apply _parse_json_response_emits | apply response_text_emits
               | emits_known encode_images_emits | emits_step].
Qed.

Lemma self_correct_emits code logs path :
  emits [TCall; TModel; TSelfCorrect] (self_correct env prompts json code logs path).
Proof.
  unfold self_correct.
  repeat first [apply _parse_json_response_emits | apply response_text_emits | emits_step].
Qed.

End GeminiFacts.

Section CountFacts.
Import Py World Observe.

Lemma run_count {A} t ts (m : M A) tr o tr' :
  emits ts m -> mem t ts = false -> m tr = (o, tr') -> count t tr' = count t tr.
Proof.
  intros Hm Hout Hrun. pose proof (@emits_count _ t ts m tr Hm Hout) as H.
  rewrite Hrun in H. exact H.
Qed.

Lemma run_entered_count {A} t ts e (m : M A) tr o tr' :
  emits ts m -> mem t ts = false ->
  (enter e ;;; m) tr = (o, tr') -> count t tr' = count t (e :: tr).
Proof. intros Hm Hout Hrun. exact (@run_count _ t ts m (e :: tr) o tr' Hm Hout Hrun). Qed.

End CountFacts.

(** ** The verification loop *)

Section LoopFacts.
Import Py World Observe VerificationLoopService LoopRuns.
Variable env : Env.
Variable prompts : GeminiService.Prompts.
Variable json : GeminiService.JsonReader.
Variable self : t.
Variable rounds : nat.
Variables (repo_url : string) (pr_number : Z) (branch file_path : string).

Abbreviation wait := (GitHubService.wait_for_ci_completion env rounds repo_url pr_number
                    (poll_timeout self) (poll_interval self)).
Abbreviation logs_of := (GitHubService.get_check_logs env repo_url pr_number).
Abbreviation pass_ := (pass env prompts json self rounds repo_url pr_number branch file_path).
Abbreviation loop_ := (while_loop env prompts json self rounds repo_url pr_number branch file_path).

Lemma wait_count_other t tr o tr' :
  mem t [TCall; TGetPrStatus; TWaitForCi] = false ->
  wait tr = (o, tr') -> count t tr' = count t tr.
Proof. intros. eapply run_count; eauto. apply wait_for_ci_completion_emits. Qed.

Lemma wait_count_own tr o tr' :
  wait tr = (o, tr') -> count TWaitForCi tr' = S (count TWaitForCi tr).
Proof.
  intros H. unfold GitHubService.wait_for_ci_completion in H.
  eapply run_entered_count with (t := TWaitForCi) (ts := [TCall; TGetPrStatus]) in H;
    [exact H | | reflexivity].
  repeat first [emits_known wait_loop_emits | emits_step].
Qed.

Lemma logs_count_other t tr o tr' :
  mem t [TCall; TGetCheckLogs] = false ->
  logs_of tr = (o, tr') -> count t tr' = count t tr.
Proof. intros. eapply run_count; eauto. apply get_check_logs_emits. Qed.

Lemma logs_count_own tr o tr' :
  logs_of tr = (o, tr') -> count TGetCheckLogs tr' = S (count TGetCheckLogs tr).
Proof.
  intros H. unfold GitHubService.get_check_logs in H.
  eapply run_entered_count with (t := TGetCheckLogs) (ts := [TCall]) in H;
    [exact H | | reflexivity].
  unfold GitHubService.get_repository. repeat emits_step.
Qed.

Lemma self_correct_count_own code logs tr o tr' :
  GeminiService.self_correct env prompts json code logs file_path tr = (o, tr') ->
  count TSelfCorrect tr' = S (count TSelfCorrect tr).
Proof.
  intros H. unfold GeminiService.self_correct in H.
  eapply run_entered_count with (t := TSelfCorrect) (ts := [TCall; TModel]) in H;
    [exact H | | reflexivity].
  repeat first [apply _parse_json_response_emits | apply response_text_emits | emits_step].
Qed.

Abbreviation recommit := (recommit env repo_url branch file_path).

Lemma recommit_emits i code logs c :
  emits [TCall; TWrite; TCommitFileChanges] (recommit i code logs c).
Proof.
  unfold VerificationLoopService.recommit.
  repeat first [emits_known commit_file_changes_emits | emits_step].
Qed.

Abbreviation pass_run :=
  (LoopRuns.pass_run env prompts json self rounds repo_url pr_number branch file_path).

Lemma pass_inv iteration current_code tr :
  pass_run iteration current_code tr (fst (pass_ iteration current_code tr))
    (snd (pass_ iteration current_code tr)).
Proof.
  unfold pass, bind.
  destruct (wait tr) as [[status|e|] tr1] eqn:Ew.
  - destruct (String.eqb (GitHubService.state status) "success") eqn:Es.
    + simpl. eapply pass_success; eauto.
    + destruct (logs_of tr1) as [[[|l ls]|e|] tr2] eqn:El.
      * simpl. eapply pass_no_logs; eauto.
      * destruct (GeminiService.self_correct env prompts json current_code (l :: ls)
                    file_path tr2) as [[c|e|] tr3] eqn:Ec.
        -- destruct (recommit iteration current_code (l :: ls) c tr3) as [o tr4] eqn:Er.
           simpl. eapply pass_corrected; eauto.
        -- simpl. eapply pass_correct_fails with (o := Raised e); eauto; congruence.
        -- simpl. eapply pass_correct_fails with (o := Unfinished); eauto; congruence.
      * simpl. eapply pass_logs_fail with (o := Raised e); eauto; congruence.
      * simpl. eapply pass_logs_fail with (o := Unfinished); eauto; congruence.
  - simpl. eapply pass_wait_fails with (o := Raised e); eauto; congruence.
  - simpl. eapply pass_wait_fails with (o := Unfinished); eauto; congruence.
Qed.


Lemma recommit_returns i code logs correction tr p tr' :
  recommit i code logs correction tr = (Returned p, tr') ->
  p = Next (default code (correction !! "corrected_code")) logs.
Proof.
  unfold VerificationLoopService.recommit, bind.
  destruct (GitHubService.commit_file_changes _ _ _ _ _ _ tr) as [[?|?|] ?];
    try discriminate.
  destruct (call env (Asyncio_sleep 5) _) as [[?|?|] ?]; try discriminate.
  unfold ret. congruence.
Qed.

Lemma recommit_count t i code logs correction tr o tr' :
  mem t [TCall; TWrite; TCommitFileChanges] = false ->
  recommit i code logs correction tr = (o, tr') -> count t tr' = count t tr.
Proof. intros. eapply run_count; eauto. apply recommit_emits. Qed.

(** Collect, for a capability [t], what each step of a pass adds. *)
Ltac tally t :=
  repeat match goal with
  | H : GitHubService.wait_for_ci_completion _ _ _ _ _ _ ?tr = (_, ?tr') |- _ =>
      lazymatch goal with
      | _ : count t tr' = _ |- _ => fail
      | _ =>
          first [ pose proof (@wait_count_other t tr _ tr' eq_refl H)
                | pose proof (@wait_count_own tr _ tr' H) ]
      end
  | H : GitHubService.get_check_logs _ _ _ ?tr = (_, ?tr') |- _ =>
      lazymatch goal with
      | _ : count t tr' = _ |- _ => fail
      | _ =>
          first [ pose proof (@logs_count_other t tr _ tr' eq_refl H)
                | pose proof (@logs_count_own tr _ tr' H) ]
      end
  | H : GeminiService.self_correct _ _ _ ?c ?l _ ?tr = (_, ?tr') |- _ =>
      lazymatch goal with
      | _ : count t tr' = _ |- _ => fail
      | _ =>
          first [ pose proof (@run_count _ t _ _ tr _ tr'
                                (self_correct_emits env prompts json c l file_path)
                                eq_refl H)
                | pose proof (@self_correct_count_own c l tr _ tr' H) ]
      end
  | H : recommit ?i ?c ?l ?d ?tr = (_, ?tr') |- _ =>
      lazymatch goal with
      | _ : count t tr' = _ |- _ => fail
      | _ => pose proof (@recommit_count t i c l d tr _ tr' eq_refl H)
      end
  end.

Lemma pass_counts i code tr p tr' :
  pass_ i code tr = (Returned p, tr') ->
  count TWaitForCi tr' = S (count TWaitForCi tr) /\
  match p with
  | Return r =>
      iterations r = i /\ count TSelfCorrect tr' = count TSelfCorrect tr
      /\ budget_spent r = false
  | Next _ _ => count TSelfCorrect tr' = S (count TSelfCorrect tr)
  end.
Proof.
  intros Hrun. pose proof (pass_inv i code tr) as H. rewrite Hrun in H. simpl in H.
  inversion H; subst; clear H;
    try match goal with
        | E : match ?o with _ => _ end = Returned _ |- _ =>
            destruct o; discriminate
        end;
    try match goal with
        | E : recommit _ _ _ _ _ = (Returned _, _) |- _ =>
            pose proof (recommit_returns _ _ _ _ _ E); subst
        end;
    tally TWaitForCi; tally TSelfCorrect; simpl; repeat split; try reflexivity; lia.
Qed.


Lemma while_loop_counts fuel : forall i code logs tr r tr',
  loop_ fuel i code logs tr = (Returned r, tr') ->
  (i <= iterations r)%Z /\
  (iterations r <= Z.max i (max_iterations self))%Z /\
  calls_during TWaitForCi tr tr' = (iterations r - i)%Z /\
  calls_during TSelfCorrect tr tr'
    = (iterations r - i - (if budget_spent r then 0 else 1))%Z.
Proof.
  unfold calls_during.
  induction fuel as [|fuel IH]; intros i code logs tr r tr' Hrun; simpl in Hrun;
    destruct (i <? max_iterations self)%Z eqn:Hlt;
    try discriminate;
    try (injection Hrun as <- <-; simpl; unfold budget_spent; simpl; lia).
  unfold bind in Hrun.
  destruct (pass_ (i + 1)%Z code tr) as [[[r1|code1 logs1]|e|] tr1] eqn:Hp;
    try discriminate.
  - injection Hrun as <- <-.
    apply pass_counts in Hp as (Hw & Hi & Hc & Hb). rewrite Hb. lia.
  - apply pass_counts in Hp as (Hw & Hc).
    apply IH in Hrun as (H1 & H2 & H3 & H4).
    apply Z.ltb_lt in Hlt. lia.
Qed.

(** C1 (amended).  For every run of the verification loop that returns a
    result, with a budget [max_iterations >= 0]: the [iterations] field
    is at most [max_iterations] and equals the number of waits for CI
    the run started; the number of calls to the correction capability
    is [iterations] when the budget was spent and [iterations - 1] when
    the run ended on success or on missing diagnostics. *)
Theorem C1_iterations_count_polls original_code tr r tr' :
  (0 <= max_iterations self)%Z ->
  run_verification_loop env prompts json self rounds repo_url pr_number branch file_path
    original_code tr = (Returned r, tr') ->
  (iterations r <= max_iterations self)%Z /\
  iterations r = calls_during TWaitForCi tr tr' /\
  calls_during TSelfCorrect tr tr'
    = (if budget_spent r then iterations r else iterations r - 1)%Z.
Proof.
  intros Hmax Hrun. unfold run_verification_loop in Hrun.
  apply while_loop_counts in Hrun as (H1 & H2 & H3 & H4).
  destruct (budget_spent r); lia.
Qed.


(** C6 (amended).  In every pass of the verification loop whose wait for
    CI returns a status, the failed-check logs are fetched exactly once
    when the polled state is anything but [success] (failure, error, or
    still pending after the poll timeout), and not at all when it is
    [success]. *)
Theorem C6_logs_fetched_unless_success i code tr status tr1 :
  wait tr = (Returned status, tr1) ->
  count TGetCheckLogs (snd (pass_ i code tr))
  = ((if String.eqb (GitHubService.state status) "success" then 0 else 1)
     + count TGetCheckLogs tr)%nat.
Proof.
  intros Hw. pose proof (pass_inv i code tr) as H.
  destruct (pass_ i code tr) as [o tr']. simpl in *.
  inversion H; subst; clear H;
    match goal with
    | E : wait tr = _ |- _ => rewrite Hw in E; inversion E; subst; clear E
    end;
    try match goal with
        | E : forall s, Returned ?x <> Returned s |- _ => exfalso; apply (E x); reflexivity
        end;
    match goal with
    | E : String.eqb _ _ = _ |- _ => rewrite E
    end;
    tally TGetCheckLogs; lia.
Qed.

Lemma pass_next i code tr status tr1 l ls tr2 correction tr3 commit tr4 tr5 :
  wait tr = (Returned status, tr1) ->
  String.eqb (GitHubService.state status) "success" = false ->
  logs_of tr1 = (Returned (l :: ls), tr2) ->
  GeminiService.self_correct env prompts json code (l :: ls) file_path tr2
    = (Returned correction, tr3) ->
  GitHubService.commit_file_changes env repo_url branch file_path
    (default code (correction !! "corrected_code")) (commit_message i correction) tr3
    = (Returned commit, tr4) ->
  call env (Asyncio_sleep 5) tr4 = (Returned tt, tr5) ->
  pass_ i code tr
  = (Returned (Next (default code (correction !! "corrected_code")) (l :: ls)), tr5).
Proof.
  intros Hw Hs Hl Hc Hm Hz.
  unfold pass, VerificationLoopService.recommit, bind.
  rewrite Hw, Hs, Hl, Hc, Hm, Hz. reflexivity.
Qed.

(** C9.  Whenever an iteration of the verification loop adopts the
    [corrected_code] of a correction as its working code (CI not
    successful, logs found, correction returned and committed) and the
    next wait for CI reports [success], the loop returns a result with
    [success = true] whose [corrected_code] is the adopted value. *)
Theorem C9_adopted_code_is_returned fuel i code logs tr status tr1 l ls tr2
    correction adopted tr3 commit tr4 tr5 status' tr6 :
  (i + 1 < max_iterations self)%Z ->
  wait tr = (Returned status, tr1) ->
  String.eqb (GitHubService.state status) "success" = false ->
  logs_of tr1 = (Returned (l :: ls), tr2) ->
  GeminiService.self_correct env prompts json code (l :: ls) file_path tr2
    = (Returned correction, tr3) ->
  correction !! "corrected_code" = Some adopted ->
  GitHubService.commit_file_changes env repo_url branch file_path adopted
    (commit_message (i + 1) correction) tr3 = (Returned commit, tr4) ->
  call env (Asyncio_sleep 5) tr4 = (Returned tt, tr5) ->
  wait tr5 = (Returned status', tr6) ->
  String.eqb (GitHubService.state status') "success" = true ->
  loop_ (S (S fuel)) i code logs tr
  = (Returned {| success := true;
                 iterations := i + 1 + 1;
                 final_status := "success";
                 error_logs := CheckLogs [];
                 corrected_code := Some adopted;
                 error_message := None |}, tr6).
Proof.
  intros Hlt Hw Hs Hl Hc Hk Hm Hz Hw' Hs'.
  assert (Hp : pass_ (i + 1)%Z code tr = (Returned (Next adopted (l :: ls)), tr5)).
  { erewrite pass_next; eauto; rewrite Hk; simpl; eauto. }
  cbn [while_loop].
  replace (i <? max_iterations self)%Z with true by (symmetry; apply Z.ltb_lt; lia).
  unfold bind at 1. rewrite Hp.
  replace (i + 1 <? max_iterations self)%Z with true by (symmetry; apply Z.ltb_lt; lia).
  unfold bind at 1. unfold pass at 1. unfold bind at 1. rewrite Hw', Hs'. reflexivity.
Qed.


Lemma fill_correction_code (parsed : gmap string string) :
  GeminiService.fill_correction parsed !! "corrected_code"
  = Some (default empty (parsed !! "corrected_code")).
Proof.
  unfold GeminiService.fill_correction, GeminiService.correction_fields.
  cbn [fold_left String.eqb Ascii.eqb Bool.eqb negb].
  repeat case_match; simplify_map_eq; reflexivity.
Qed.

Lemma self_correct_inv code logs tr correction tr' :
  GeminiService.self_correct env prompts json code logs file_path tr
    = (Returned correction, tr') ->
  exists text parsed,
    @env (option string) (S (List.length tr))
      (Model_generate_content
         [PText (GeminiService.correction_prompt prompts code logs file_path)])
    = inr (Some text)
    /\ GeminiService.loads_correction json text = Some parsed
    /\ correction = GeminiService.fill_correction parsed.
Proof.
  unfold GeminiService.self_correct, bind, enter, call. simpl.
  destruct (@env (option string) _ _) as [g|[text|]]; simpl; try discriminate.
  unfold GeminiService._parse_json_response.
  destruct (GeminiService.loads_correction json text) as [parsed|] eqn:Ep;
    simpl; try discriminate.
  intros H. injection H as <- <-. exists text, parsed. auto.
Qed.

Lemma recommit_trace i code logs correction tr :
  exists evs,
    snd (recommit i code logs correction tr)
    = evs ++ EvCommitFileChanges branch file_path
               (default code (correction !! "corrected_code"))
               (commit_message i correction) :: tr.
Proof.
  pose proof (recommit_emits i code logs correction) as H.
  unfold VerificationLoopService.recommit, GitHubService.commit_file_changes in *.
  match goal with
  | |- context [EvCommitFileChanges ?b ?p ?c ?m :: tr] =>
      set (e := EvCommitFileChanges b p c m)
  end.
  match type of H with
  | emits _ (bind (bind (enter _) ?k1) ?k2) =>
      change (exists evs, snd (bind (k1 tt) k2 (e :: tr)) = evs ++ e :: tr);
      assert (Hk : emits [TCall; TWrite; TCommitFileChanges] (bind (k1 tt) k2))
  end.
  { unfold GitHubService.get_repository. repeat emits_step. }
  destruct (Hk (e :: tr)) as [evs [E _]]. exists evs. exact E.
Qed.

(** *** When every gateway answers *)

Section Answering.
Hypothesis Hgw : gateways_answer env.
Hypothesis Hparse : replies_parse env json.

Lemma call_returns {T} (c : Call T) tr :
  exists v, call env c tr = (Returned v, EvCall c :: tr).
Proof.
  destruct Hgw as [H _]. destruct (H T (List.length tr) c) as [v Hv].
  exists v. unfold call. rewrite Hv. reflexivity.
Qed.

Lemma now_returns tr :
  call env Datetime_now tr
  = (Returned (clock env (List.length tr)), EvCall Datetime_now :: tr).
Proof.
  destruct Hgw as [H _]. destruct (H Z (List.length tr) Datetime_now) as [v Hv].
  unfold call, clock. rewrite Hv. reflexivity.
Qed.

Lemma get_pr_status_returns tr :
  exists status tr',
    GitHubService.get_pr_status env repo_url pr_number tr = (Returned status, tr')
    /\ List.length tr' = (5 + List.length tr)%nat.
Proof.
  unfold GitHubService.get_pr_status, GitHubService.get_repository.
  set (tr0 := EvGetPrStatus pr_number :: tr).
  destruct (call_returns (Github_get_repo repo_url) tr0) as [u H1].
  destruct (call_returns (Repo_get_pull pr_number) (EvCall (Github_get_repo repo_url) :: tr0))
    as [sha H2].
  destruct (call_returns (Commit_get_status sha) (EvCall (Repo_get_pull pr_number)
              :: EvCall (Github_get_repo repo_url) :: tr0)) as [cs H3].
  destruct (call_returns (Commit_get_check_runs sha) (EvCall (Commit_get_status sha)
              :: EvCall (Repo_get_pull pr_number)
              :: EvCall (Github_get_repo repo_url) :: tr0)) as [runs H4].
  eexists _, _. split.
  - erewrite bind_returned by reflexivity.
    erewrite bind_returned by exact H1.
    erewrite bind_returned by exact H2.
    erewrite bind_returned by exact H3.
    erewrite bind_returned by exact H4.
    reflexivity.
  - reflexivity.
Qed.

Lemma wait_loop_returns n : forall tr start,
  (poll_timeout self
   <= GitHubService.timedelta_seconds (clock env (List.length tr + 7 * n)) start)%Z ->
  exists status tr',
    GitHubService.wait_loop env n repo_url pr_number start (poll_timeout self)
      (poll_interval self) tr = (Returned status, tr').
Proof.
  induction n as [|n IH]; intros tr start Hdead; simpl.
  - rewrite (bind_returned _ (now_returns tr)).
    replace (List.length tr + 7 * 0)%nat with (List.length tr) in Hdead by lia.
    apply Z.ltb_ge in Hdead. rewrite Hdead.
    destruct (get_pr_status_returns (EvCall Datetime_now :: tr)) as (s & tr' & H & _).
    eauto.
  - rewrite (bind_returned _ (now_returns tr)).
    destruct (get_pr_status_returns (EvCall Datetime_now :: tr)) as (s & tr1 & H & Hlen).
    destruct (_ <? _)%Z; [|eauto].
    rewrite (bind_returned _ H).
    destruct (negb _); [unfold ret; eauto|].
    destruct (call_returns (Time_sleep (poll_interval self)) tr1) as [u Hz].
    rewrite (bind_returned _ Hz).
    apply IH. simpl List.length. rewrite Hlen. simpl List.length.
    replace (S (5 + S (List.length tr)) + 7 * n)%nat
      with (List.length tr + 7 * S n)%nat by lia.
    exact Hdead.
Qed.

Hypothesis Hclock : polls_outlast_timeout env rounds (poll_timeout self).

Lemma wait_returns tr : exists status tr', wait tr = (Returned status, tr').
Proof.
  unfold GitHubService.wait_for_ci_completion.
  erewrite bind_returned by reflexivity.
  rewrite (bind_returned _ (now_returns _)).
  apply wait_loop_returns. simpl List.length.
  specialize (Hclock (S (List.length tr))).
  replace (S (S (List.length tr)) + 7 * rounds)%nat
    with (S (List.length tr) + 1 + 7 * rounds)%nat by lia.
  exact Hclock.
Qed.

Ltac step_call :=
  match goal with
  | |- context [bind (call env ?c) ?k ?t] =>
      let v := fresh "v" in
      let H := fresh "H" in
      destruct (call_returns c t) as [v H]; rewrite (bind_returned k H)
  | |- context [call env ?c ?t] =>
      let v := fresh "v" in
      let H := fresh "H" in
      destruct (call_returns c t) as [v H]; rewrite H
  end.

Lemma get_check_logs_returns tr : exists logs tr', logs_of tr = (Returned logs, tr').
Proof.
  unfold GitHubService.get_check_logs, GitHubService.get_repository.
  erewrite bind_returned by reflexivity.
  repeat step_call. unfold ret. eauto.
Qed.

Lemma generate_returns parts tr :
  exists text,
    call env (Model_generate_content parts) tr
    = (Returned (Some text), EvCall (Model_generate_content parts) :: tr)
    /\ is_Some (GeminiService.loads_correction json text).
Proof.
  destruct Hgw as [_ Hm]. destruct (Hm (List.length tr) parts) as [text Ht].
  exists text. unfold call. rewrite Ht. split; [reflexivity|].
  eapply Hparse. exact Ht.
Qed.

Lemma self_correct_returns code logs tr :
  exists correction tr',
    GeminiService.self_correct env prompts json code logs file_path tr
    = (Returned correction, tr').
Proof.
  unfold GeminiService.self_correct.
  erewrite bind_returned by reflexivity.
  match goal with
  | |- context [bind (call env (Model_generate_content ?p)) ?k ?t] =>
      destruct (generate_returns p t) as (text & Hc & Hparsed);
      rewrite (bind_returned k Hc)
  end.
  unfold GeminiService.response_text.
  erewrite bind_returned by reflexivity.
  unfold GeminiService._parse_json_response.
  destruct Hparsed as [parsed Hp]. rewrite Hp.
  erewrite bind_returned by reflexivity.
  unfold ret. eauto.
Qed.

Lemma commit_file_changes_returns p content msg tr :
  exists commit tr',
    GitHubService.commit_file_changes env repo_url branch p content msg tr
    = (Returned commit, tr').
Proof.
  unfold GitHubService.commit_file_changes, GitHubService.get_repository.
  erewrite bind_returned by reflexivity.
  step_call. unfold try_except. step_call.
  destruct v0 as [| |enc text sha]; simpl; step_call; eauto.
Qed.

Lemma pass_returns i code tr : exists p tr', pass_ i code tr = (Returned p, tr').
Proof.
  unfold pass.
  destruct (wait_returns tr) as (status & tr1 & Hw). rewrite (bind_returned _ Hw).
  destruct (String.eqb _ _); [unfold ret; eauto|].
  destruct (get_check_logs_returns tr1) as (logs & tr2 & Hl). rewrite (bind_returned _ Hl).
  destruct logs as [|l ls]; [unfold ret; eauto|].
  destruct (self_correct_returns code (l :: ls) tr2) as (c & tr3 & Hc).
  rewrite (bind_returned _ Hc). unfold VerificationLoopService.recommit.
  match goal with
  | |- context [GitHubService.commit_file_changes env repo_url branch ?p ?c ?m] =>
      destruct (commit_file_changes_returns p c m tr3) as (k & tr4 & Hk)
  end.
  rewrite (bind_returned _ Hk).
  destruct (call_returns (Asyncio_sleep 5) tr4) as [u Hz]. rewrite (bind_returned _ Hz).
  unfold ret. eauto.
Qed.

Lemma while_loop_returns fuel : forall i code logs tr,
  (max_iterations self - i <= Z.of_nat fuel)%Z ->
  exists r tr', loop_ fuel i code logs tr = (Returned r, tr').
Proof.
  induction fuel as [|fuel IH]; intros i code logs tr Hfuel; simpl;
    destruct (i <? max_iterations self)%Z eqn:Hlt;
    try (unfold ret; eauto; fail).
  - apply Z.ltb_lt in Hlt. lia.
  - destruct (pass_returns (i + 1)%Z code tr) as (p & tr1 & Hp).
    rewrite (bind_returned _ Hp).
    destruct p as [r|code1 logs1]; [unfold ret; eauto|].
    apply IH. lia.
Qed.

Lemma run_returns original_code tr :
  exists r tr',
    run_verification_loop env prompts json self rounds repo_url pr_number branch file_path
      original_code tr = (Returned r, tr').
Proof. unfold run_verification_loop. apply while_loop_returns. lia. Qed.

End Answering.

(** *** What a returned result stands for, and what is raised *)

Lemma while_loop_terminal fuel : forall i code logs tr r tr',
  loop_ fuel i code logs tr = (Returned r, tr') -> terminal_condition r.
Proof.
  induction fuel as [|fuel IH]; intros i code logs tr r tr' Hrun; simpl in Hrun;
    destruct (i <? max_iterations self)%Z eqn:Hlt;
    try discriminate;
    try (injection Hrun as <- <-; right; right; repeat split; reflexivity).
  unfold bind in Hrun.
  destruct (pass_ (i + 1)%Z code tr) as [[[r1|code1 logs1]|e|] tr1] eqn:Hp;
    try discriminate.
  - injection Hrun as <- <-.
    pose proof (pass_inv (i + 1)%Z code tr) as H. rewrite Hp in H. simpl in H.
    inversion H; subst; clear H;
      try match goal with
          | E : match ?o with _ => _ end = Returned _ |- _ =>
              destruct o; discriminate
          end;
      try match goal with
          | E : recommit _ _ _ _ _ = (Returned _, _) |- _ =>
              pose proof (recommit_returns _ _ _ _ _ E); discriminate
          end.
    + left. split; reflexivity.
    + right. left. split; reflexivity.
  - exact (IH _ _ _ _ _ _ Hrun).
Qed.

Lemma pass_raised_leaves i fuel code logs tr e tr' :
  (i < max_iterations self)%Z ->
  pass_ (i + 1)%Z code tr = (Raised e, tr') ->
  loop_ (S fuel) i code logs tr = (Raised e, tr').
Proof.
  intros Hlt Hp. apply Z.ltb_lt in Hlt. simpl. rewrite Hlt.
  unfold bind. rewrite Hp. reflexivity.
Qed.

(** C2 (amended).  The verification loop returns a result when nothing
    fails, and raises what fails.

    When no gateway call fails (every library call answers, the model's
    response has a text and the texts the model answers parse) and a
    wait for CI outlasts its timeout within the polls it is given, the
    loop returns a result, and the result stands for one of the
    terminal conditions: success, missing diagnostics, or exhaustion.

    The loop catches nothing.  In a pass that the budget allows, the
    exception raised by the wait for CI, by the fetch of the logs, by
    the correction capability or by the commit ends the loop with that
    very exception; and an exception that ends a later pass of the loop
    ends the whole loop.  A run is the loop started at iteration 0, so
    the exception is raised to the caller of [run_verification_loop]. *)
Theorem C2_loop_returns_or_raises :
  (gateways_answer env -> replies_parse env json ->
   polls_outlast_timeout env rounds (poll_timeout self) ->
   forall original_code tr,
   exists r tr',
     run_verification_loop env prompts json self rounds repo_url pr_number branch
       file_path original_code tr = (Returned r, tr')
     /\ terminal_condition r)
  /\ (forall fuel i code logs tr e,
        (i < max_iterations self)%Z ->
        (forall tr1,
           wait tr = (Raised e, tr1) ->
           loop_ (S fuel) i code logs tr = (Raised e, tr1))
        /\ (forall status tr1 tr2,
              wait tr = (Returned status, tr1) ->
              String.eqb (GitHubService.state status) "success" = false ->
              logs_of tr1 = (Raised e, tr2) ->
              loop_ (S fuel) i code logs tr = (Raised e, tr2))
        /\ (forall status tr1 l ls tr2 tr3,
              wait tr = (Returned status, tr1) ->
              String.eqb (GitHubService.state status) "success" = false ->
              logs_of tr1 = (Returned (l :: ls), tr2) ->
              GeminiService.self_correct env prompts json code (l :: ls) file_path tr2
              = (Raised e, tr3) ->
              loop_ (S fuel) i code logs tr = (Raised e, tr3))
        /\ (forall status tr1 l ls tr2 correction tr3 tr4,
              wait tr = (Returned status, tr1) ->
              String.eqb (GitHubService.state status) "success" = false ->
              logs_of tr1 = (Returned (l :: ls), tr2) ->
              GeminiService.self_correct env prompts json code (l :: ls) file_path tr2
              = (Returned correction, tr3) ->
              GitHubService.commit_file_changes env repo_url branch file_path
                (default code (correction !! "corrected_code"))
                (commit_message (i + 1) correction) tr3
              = (Raised e, tr4) ->
              loop_ (S fuel) i code logs tr = (Raised e, tr4))
        /\ (forall code1 logs1 tr1 tr2,
              pass_ (i + 1)%Z code tr = (Returned (Next code1 logs1), tr1) ->
              loop_ fuel (i + 1)%Z code1 logs1 tr1 = (Raised e, tr2) ->
              loop_ (S fuel) i code logs tr = (Raised e, tr2)))
  /\ (forall original_code tr,
        run_verification_loop env prompts json self rounds repo_url pr_number branch
          file_path original_code tr
        = loop_ (Z.to_nat (max_iterations self)) 0%Z original_code [] tr).
Proof.
  split; [|split; [|reflexivity]].
  - intros Hgw Hparse Hclock original_code tr.
    destruct (run_returns Hgw Hparse Hclock original_code tr) as (r & tr' & Hrun).
    exists r, tr'. split; [exact Hrun|].
    unfold run_verification_loop in Hrun. exact (while_loop_terminal _ _ _ _ _ Hrun).
  - intros fuel i code logs tr e Hlt. repeat split.
    + intros tr1 Hw. apply pass_raised_leaves; [exact Hlt|].
      unfold pass, bind. rewrite Hw. reflexivity.
    + intros status tr1 tr2 Hw Hs Hl. apply pass_raised_leaves; [exact Hlt|].
      unfold pass, bind. rewrite Hw, Hs, Hl. reflexivity.
    + intros status tr1 l ls tr2 tr3 Hw Hs Hl Hc.
      apply pass_raised_leaves; [exact Hlt|].
      unfold pass, bind. rewrite Hw, Hs, Hl, Hc. reflexivity.
    + intros status tr1 l ls tr2 correction tr3 tr4 Hw Hs Hl Hc Hk.
      apply pass_raised_leaves; [exact Hlt|].
      unfold pass, bind. rewrite Hw, Hs, Hl, Hc.
      unfold VerificationLoopService.recommit, bind. rewrite Hk. reflexivity.
    + intros code1 logs1 tr1 tr2 Hp Hrun. apply Z.ltb_lt in Hlt. simpl. rewrite Hlt.
      unfold bind. rewrite Hp. exact Hrun.
Qed.

End LoopFacts.

(** ** The fix pipeline *)

Section PipelineFacts.
Import Py World Observe Analyze PipelineRuns.
Variable env : Env.
Variable b64 : string -> option string.
Variable prompts : GeminiService.Prompts.
Variable json : GeminiService.JsonReader.

Lemma capture_emits form : emits [TCall] (capture env form).
Proof. unfold capture. repeat emits_step. Qed.

Lemma save_images_emits temp_dir images : forall i,
  emits [TCall] (save_images env temp_dir i images).
Proof.
  induction images as [|image rest IH]; intros i; simpl;
    repeat first [apply IH | emits_step].
Qed.

Lemma save_video_emits temp_dir form : emits [TCall] (save_video env temp_dir form).
Proof. unfold save_video. repeat emits_step. Qed.

Lemma init_github_emits form amb : emits [TCall] (init_github env form amb).
Proof. unfold init_github, GitHubService.init. repeat emits_step. Qed.

Lemma fetch_tree_emits form : emits [TCall] (fetch_tree env form).
Proof. unfold fetch_tree. repeat first [emits_known get_file_tree_emits | emits_step]. Qed.

Lemma verify_write_access_emits github form :
  emits [TCall; TCheckWriteAccess] (verify_write_access env github form).
Proof.
  unfold verify_write_access.
  repeat first [emits_known check_write_access_emits | emits_step].
Qed.

Lemma fetch_context_emits form paths : forall ctx,
  emits [TCall; TGetFileContent] (fetch_context env b64 form paths ctx).
Proof.
  induction paths as [|p rest IH]; intros ctx; simpl;
    repeat first [apply IH | emits_known get_file_content_emits | emits_step].
Qed.

Lemma scout_and_fetch_emits form file_tree :
  emits [TCall; TModel; TScoutFiles; TGetFileContent]
    (scout_and_fetch env b64 prompts json form file_tree).
Proof.
  unfold scout_and_fetch.
  repeat first [emits_known scout_files_emits | emits_known fetch_context_emits
               | emits_step].
Qed.

Lemma gather_emits form amb temp_dir :
  emits [TCall; TModel; TCheckWriteAccess; TScoutFiles; TGetFileContent]
    (gather env b64 prompts json form amb temp_dir).
Proof.
  unfold gather.
  repeat first [emits_known capture_emits | emits_known save_images_emits
               | emits_known save_video_emits | emits_known init_github_emits
               | emits_known fetch_tree_emits | emits_known verify_write_access_emits
               | emits_known scout_and_fetch_emits | emits_step].
Qed.

Lemma request_analysis_emits form g :
  emits [TCall; TModel; TAnalyzeVibe] (request_analysis env prompts json form g).
Proof.
  unfold request_analysis, GeminiService.analyze_video_frames.
  repeat first [emits_known analyze_vibe_emits | emits_step].
Qed.

Lemma cleanup_emits temp_dir : emits [TCall] (cleanup env temp_dir).
Proof. unfold cleanup. repeat emits_step. Qed.

(** *** The write-access check *)

(** [check_write_access] turns every failure of its library calls into
    [False]: it never raises. *)
Lemma check_write_access_returns github url tr :
  exists b, fst (GitHubService.check_write_access env github url tr) = Returned b.
Proof.
  unfold GitHubService.check_write_access, GitHubService.get_repository,
    bind, enter, try_except, call. simpl.
  destruct (@env unit _ (Github_get_repo url)) as [g|u]; simpl; [eauto|].
  destruct (@env bool _ (Repo_has_in_collaborators _)) as [g|b]; simpl; eauto.
Qed.

(** So the pipeline's check has two ends only: it goes on when the
    answer is [True] and raises the 403 response when it is [False];
    the branch that would log a warning and go on is never taken. *)
Lemma verify_write_access_cases github form tr :
  exists b,
    fst (GitHubService.check_write_access env github (repo_url form) tr) = Returned b
    /\ fst (verify_write_access env github form tr)
       = if b then Returned tt
         else Raised (HTTPException 403
                        (no_write_access (GitHubService.user_login github))).
Proof.
  destruct (check_write_access_returns github (repo_url form) tr) as [b Hb].
  exists b. split; [exact Hb|].
  unfold verify_write_access, try_except, bind.
  destruct (GitHubService.check_write_access env github (repo_url form) tr) as [o tr1].
  simpl in Hb. subst o. destruct b; reflexivity.
Qed.

(** *** The analysis without a fix *)




(** *** What a capability leaves in the trace *)

Lemma entered_trace {A} ts e (m : M A) tr :
  emits ts m ->
  exists evs, snd ((enter e ;;; m) tr) = evs ++ e :: tr
              /\ Forall (fun e => mem (tag e) ts = true) evs.
Proof. intros Hm. exact (Hm (e :: tr)). Qed.

Lemma create_branch_trace url base name tr :
  exists evs,
    snd (GitHubService.create_branch env url base name tr)
    = evs ++ EvCreateBranch base name :: tr
    /\ Forall (fun e => mem (tag e) [TCall; TWrite] = true) evs.
Proof.
  unfold GitHubService.create_branch. apply entered_trace.
  unfold GitHubService.get_repository. repeat emits_step.
Qed.

Lemma get_file_content_trace url p b tr :
  exists evs,
    snd (GitHubService.get_file_content env b64 url p b tr)
    = evs ++ EvGetFileContent p b :: tr
    /\ Forall (fun e => mem (tag e) [TCall] = true) evs.
Proof.
  unfold GitHubService.get_file_content. apply entered_trace.
  unfold GitHubService.get_repository. repeat emits_step.
Qed.

Lemma scout_files_trace file_tree d tr :
  exists evs,
    snd (GeminiService.scout_files env prompts json file_tree d tr)
    = evs ++ EvScoutFiles file_tree d :: tr
    /\ Forall (fun e => mem (tag e) [TCall; TModel] = true) evs.
Proof.
  unfold GeminiService.scout_files. apply entered_trace.
  repeat first [apply _parse_json_response_emits | apply response_text_emits | emits_step].
Qed.

Lemma attempted_bases_app evs tr :
  attempted_bases (evs ++ tr) = attempted_bases tr ++ attempted_bases evs.
Proof. unfold attempted_bases. rewrite flat_map_app, rev_app_distr. reflexivity. Qed.

Lemma attempted_bases_quiet ts evs :
  mem TCreateBranch ts = false ->
  Forall (fun e => mem (tag e) ts = true) evs -> attempted_bases evs = [].
Proof.
  intros Hout F. unfold attempted_bases.
  induction F as [|e evs He _ IH]; [reflexivity|].
  simpl. destruct e; simpl in *; try exact IH. congruence.
Qed.

Lemma create_branch_attempt url base name tr o tr' :
  GitHubService.create_branch env url base name tr = (o, tr') ->
  attempted_bases tr' = attempted_bases tr ++ [base].
Proof.
  intros H. destruct (create_branch_trace url base name tr) as [evs [E F]].
  rewrite H in E. simpl in E. subst tr'.
  rewrite attempted_bases_app.
  rewrite (attempted_bases_quiet [TCall; TWrite] eq_refl F), app_nil_r.
  reflexivity.
Qed.

Lemma fetched_paths_app evs tr :
  fetched_paths (evs ++ tr) = fetched_paths tr ++ fetched_paths evs.
Proof. unfold fetched_paths. rewrite flat_map_app, rev_app_distr. reflexivity. Qed.

Lemma fetched_paths_quiet ts evs :
  mem TGetFileContent ts = false ->
  Forall (fun e => mem (tag e) ts = true) evs -> fetched_paths evs = [].
Proof.
  intros Hout F. unfold fetched_paths.
  induction F as [|e evs He _ IH]; [reflexivity|].
  simpl. destruct e; simpl in *; try exact IH. congruence.
Qed.

Lemma get_file_content_fetch url p b tr o tr' :
  GitHubService.get_file_content env b64 url p b tr = (o, tr') ->
  fetched_paths tr' = fetched_paths tr ++ [p].
Proof.
  intros H. destruct (get_file_content_trace url p b tr) as [evs [E F]].
  rewrite H in E. simpl in E. subst tr'.
  rewrite fetched_paths_app.
  rewrite (fetched_paths_quiet [TCall] eq_refl F), app_nil_r.
  reflexivity.
Qed.


(** *** Step 8: the branch *)

Lemma adds_none {A} t ts (m : M A) :
  emits ts m -> mem t ts = false -> adds_at_most t 0 m.
Proof. intros Hm Hout tr. rewrite (@emits_count _ t ts m tr Hm Hout). lia. Qed.

Lemma adds_weaken {A} t n n' (m : M A) :
  adds_at_most t n m -> (n <= n')%nat -> adds_at_most t n' m.
Proof. intros Hm Hle tr. specialize (Hm tr). lia. Qed.

Lemma adds_bind {A B} t n k' (m : M A) (k : A -> M B) :
  adds_at_most t n m -> (forall a, adds_at_most t k' (k a)) ->
  adds_at_most t (n + k') (bind m k).
Proof.
  intros Hm Hk tr. specialize (Hm tr). unfold bind.
  destruct (m tr) as [[a|e|] tr1]; simpl in *; try lia.
  specialize (Hk a tr1). lia.
Qed.

Lemma adds_try_except {A} t n k' (m : M A) catches h :
  adds_at_most t n m -> (forall e, adds_at_most t k' (h e)) ->
  adds_at_most t (n + k') (try_except m catches h).
Proof.
  intros Hm Hh tr. specialize (Hm tr). unfold try_except.
  destruct (m tr) as [[a|e|] tr1]; simpl in *; try lia.
  destruct (catches e); simpl; [|lia].
  specialize (Hh e tr1). lia.
Qed.

Lemma adds_try_finally {A} t n k' (m : M A) f :
  adds_at_most t n m -> adds_at_most t k' f ->
  adds_at_most t (n + k') (try_finally m f).
Proof.
  intros Hm Hf tr. specialize (Hm tr). unfold try_finally.
  destruct (m tr) as [o tr1]; simpl in *. specialize (Hf tr1). lia.
Qed.

Lemma create_branch_adds url base name :
  adds_at_most TCreateBranch 1 (GitHubService.create_branch env url base name).
Proof.
  intros tr. destruct (create_branch_trace url base name tr) as [evs [E F]].
  rewrite E, count_app. rewrite (count_outside TCreateBranch [TCall; TWrite] eq_refl F).
  unfold count. simpl. lia.
Qed.

Lemma create_fix_branch_adds form branch_name :
  adds_at_most TCreateBranch 2 (create_fix_branch env form branch_name).
Proof.
  unfold create_fix_branch.
  apply (@adds_try_except _ TCreateBranch 1 1).
  - apply (@adds_bind _ _ TCreateBranch 1 0); [apply create_branch_adds|].
    intros a. apply adds_none with (ts := []); [apply emits_ret | reflexivity].
  - intros e. destruct (permission_signal e).
    + apply adds_weaken with (n := 0%nat); [|lia].
      apply adds_none with (ts := []); [apply emits_raise | reflexivity].
    + apply (@adds_try_except _ TCreateBranch 1 0).
      * apply (@adds_bind _ _ TCreateBranch 1 0); [apply create_branch_adds|].
        intros a. apply adds_none with (ts := []); [apply emits_ret | reflexivity].
      * intros e2. apply adds_none with (ts := []); [apply emits_raise | reflexivity].
Qed.

Lemma new_AnalysisResult_emits ts a s fx : emits ts (new_AnalysisResult json a s fx).
Proof.
  unfold new_AnalysisResult.
  destruct (str_field a); [destruct (str_field s)|]; emits_step.
Qed.

Lemma format_first_50_emits ts v : emits ts (format_first_50 json v).
Proof. unfold format_first_50. destruct v; emits_step. Qed.

Lemma no_fix_response_emits ts job_id g ar : emits ts (no_fix_response json job_id g ar).
Proof.
  unfold no_fix_response.
  repeat first [apply new_AnalysisResult_emits | emits_step].
Qed.

Lemma commit_fix_emits form branch_name ar fx :
  emits [TCall; TWrite; TCommitFileChanges] (commit_fix env json form branch_name ar fx).
Proof.
  unfold commit_fix.
  repeat first [emits_known commit_file_changes_emits | apply format_first_50_emits
               | emits_step].
Qed.

Lemma open_pull_request_emits form branch_name ar fx :
  emits [TCall; TWrite; TCreatePullRequest]
    (open_pull_request env json form branch_name ar fx).
Proof.
  unfold open_pull_request.
  repeat first [emits_known create_pull_request_emits | apply format_first_50_emits
               | emits_step].
Qed.

Lemma deliver_adds form job_id g ar :
  adds_at_most TCreateBranch 2 (deliver env json form job_id g ar).
Proof.
  unfold deliver. destruct (fix_incomplete _).
  - apply adds_weaken with (n := 0%nat); [|lia].
    apply adds_none with (ts := []); [apply no_fix_response_emits | reflexivity].
  - apply (@adds_bind _ _ TCreateBranch 2 0); [apply create_fix_branch_adds|].
    intros _. apply adds_none with (ts := [TCall; TWrite; TCommitFileChanges;
                                           TCreatePullRequest]); [|reflexivity].
    repeat first [emits_known commit_fix_emits | emits_known open_pull_request_emits
                 | apply new_AnalysisResult_emits | emits_step].
Qed.

Lemma analyze_vibe_adds form amb :
  adds_at_most TCreateBranch 2 (analyze_vibe env b64 prompts json form amb).
Proof.
  unfold analyze_vibe, http_boundary.
  apply (@adds_bind _ _ TCreateBranch 0 2).
  { apply adds_none with (ts := [TCall]); [apply emits_call | ]; reflexivity. }
  intros job_id. apply (@adds_try_except _ TCreateBranch 2 0).
  2: { intros e. apply adds_none with (ts := []); [apply emits_raise | reflexivity]. }
  destruct (negb _).
  { apply adds_weaken with (n := 0%nat); [|lia].
    apply adds_none with (ts := []); [apply emits_raise | reflexivity]. }
  apply (@adds_bind _ _ TCreateBranch 0 2).
  { apply adds_none with (ts := [TCall]); [apply emits_call | ]; reflexivity. }
  intros temp_dir. apply (@adds_try_finally _ TCreateBranch 2 0).
  2: { apply adds_none with (ts := [TCall]); [apply cleanup_emits | reflexivity]. }
  apply (@adds_bind _ _ TCreateBranch 0 2).
  { eapply adds_none; [apply gather_emits | reflexivity]. }
  intros g. apply (@adds_bind _ _ TCreateBranch 0 2).
  { eapply adds_none; [apply request_analysis_emits | reflexivity]. }
  intros ar. apply deliver_adds.
Qed.

(** C4.  A run of the fix pipeline asks for a branch at most twice.  When
    the creation of the branch from [main] fails: if the failure
    carries a permission signal (403 or forbidden), the pipeline raises
    the 403 response at once and [main] is the only base asked for;
    otherwise the creation is tried once more, from [master], and
    [main] and [master] are the two bases asked for, whatever the
    second attempt gives. *)
Theorem C4_branch_fallback form amb tr0 branch_name tr e tr1 :
  GitHubService.create_branch env (repo_url form) "main" branch_name tr = (Raised e, tr1) ->
  (count TCreateBranch (snd (analyze_vibe env b64 prompts json form amb tr0))
   <= 2 + count TCreateBranch tr0)%nat
  /\ if permission_signal e then
       create_fix_branch env form branch_name tr
       = (Raised (HTTPException 403 branch_forbidden), tr1)
       /\ attempted_bases tr1 = attempted_bases tr ++ ["main"]
     else
       exists o tr2,
         GitHubService.create_branch env (repo_url form) "master" branch_name tr1 = (o, tr2)
         /\ create_fix_branch env form branch_name tr
            = (match o with
               | Returned _ => Returned tt
               | Raised e2 =>
                   Raised (HTTPException 500 ("Failed to create branch: " ++ str e2)%string)
               | Unfinished => Unfinished
               end, tr2)
         /\ attempted_bases tr2 = attempted_bases tr ++ ["main"; "master"].
Proof.
  intros Hmain. split; [apply analyze_vibe_adds|].
  pose proof (create_branch_attempt _ _ _ _ Hmain) as Hb.
  unfold create_fix_branch, try_except, bind. rewrite Hmain. simpl.
  destruct (permission_signal e).
  - split; [reflexivity | exact Hb].
  - destruct (GitHubService.create_branch env (repo_url form) "master" branch_name tr1)
      as [o tr2] eqn:Hmaster.
    exists o, tr2. split; [reflexivity|]. split.
    + destruct o; reflexivity.
    + rewrite (create_branch_attempt _ _ _ _ Hmaster), Hb, <- app_assoc. reflexivity.
Qed.


(** *** Steps 5 and 6: scouting and fetching *)

Lemma fetch_context_fetched form paths : forall ctx tr,
  exists n,
    fetched_paths (snd (fetch_context env b64 form paths ctx tr))
    = fetched_paths tr ++ Py.take n paths
    /\ forall ctx' tr', fetch_context env b64 form paths ctx tr = (Returned ctx', tr') ->
                        n = List.length paths.
Proof.
  induction paths as [|p rest IH]; intros ctx tr; simpl.
  - exists 0%nat. split; [rewrite app_nil_r; reflexivity | reflexivity].
  - unfold bind.
    destruct (GitHubService.get_file_content env b64 (repo_url form) p "main" tr)
      as [[content|e|] tr1] eqn:Hc;
      pose proof (get_file_content_fetch _ _ _ _ Hc) as Hf.
    + match goal with
      | |- context [fetch_context env b64 form rest ?c tr1] =>
          destruct (IH c tr1) as [n [Hn Hall]]
      end.
      exists (S n). split.
      * rewrite Hn, Hf, <- app_assoc. reflexivity.
      * intros ctx' tr' Hr. f_equal. eapply Hall. exact Hr.
    + exists 1%nat. simpl. split; [rewrite Hf; destruct rest; reflexivity | discriminate].
    + exists 1%nat. simpl. split; [rewrite Hf; destruct rest; reflexivity | discriminate].
Qed.

Lemma take_all {A} (l : list A) : Py.take (List.length l) l = l.
Proof. apply firstn_all. Qed.

(** C5.  The scouting step hands the relevance-ranking capability a list
    of paths with the optional description, and does so once.  The list
    is the whole list of blob paths of the tree: the paths of the items
    of type [blob], each of them and nothing else, in the order of the
    tree.  The contents fetched afterwards are those of the first 10
    paths the capability returned, in order (of a prefix of them when a
    fetch raises). *)
Theorem C5_scout_full_list_fetch_first_ten form file_tree tr :
  exists paths evs,
    snd (scout_and_fetch env b64 prompts json form file_tree tr)
    = evs ++ EvScoutFiles paths (bug_description form) :: tr
    /\ count TScoutFiles evs = 0%nat
    /\ paths
       = map GitHubService.fi_path
           (List.filter (fun f => String.eqb (GitHubService.fi_type f) "blob") file_tree)
    /\ (forall p,
          In p paths
          <-> exists f, In f file_tree /\ GitHubService.fi_type f = "blob"
                        /\ GitHubService.fi_path f = p)
    /\ forall relevant_files tr1,
         GeminiService.scout_files env prompts json paths (bug_description form) tr
         = (Returned relevant_files, tr1) ->
         (exists n,
            fetched_paths (snd (scout_and_fetch env b64 prompts json form file_tree tr))
            = fetched_paths tr ++ Py.take n (Py.take 10 relevant_files))
         /\ (List.length (Py.take 10 relevant_files) <= 10)%nat
         /\ forall code_context tr',
              scout_and_fetch env b64 prompts json form file_tree tr
              = (Returned code_context, tr') ->
              fetched_paths tr' = fetched_paths tr ++ Py.take 10 relevant_files.
Proof.
  assert (Hev : exists evs,
             snd (scout_and_fetch env b64 prompts json form file_tree tr)
             = evs ++ EvScoutFiles (blob_paths file_tree) (bug_description form) :: tr
             /\ count TScoutFiles evs = 0%nat); [|destruct Hev as (evs0 & Hev1 & Hev2)].
  2: exists (blob_paths file_tree), evs0.
  2: split; [exact Hev1|split; [exact Hev2|split; [reflexivity|split]]].
  2: { intros p. unfold blob_paths. rewrite in_map_iff. split.
       - intros (f & Hp & Hf). apply filter_In in Hf. destruct Hf as [Hf Hb].
         apply String.eqb_eq in Hb. eauto.
       - intros (f & Hf & Hb & Hp). exists f. split; [exact Hp|].
         apply filter_In. split; [exact Hf|]. apply String.eqb_eq. exact Hb. }
  - destruct (scout_files_trace (blob_paths file_tree) (bug_description form) tr)
      as [evs [E F]].
    unfold scout_and_fetch, bind.
    destruct (GeminiService.scout_files env prompts json (blob_paths file_tree)
                (bug_description form) tr) as [[relevant|e|] tr1];
      simpl in E; subst tr1.
    + destruct (fetch_context_emits form (Py.take 10 relevant) []
                  (evs ++ EvScoutFiles (blob_paths file_tree) (bug_description form) :: tr))
        as [evs' [E' F']].
      exists (evs' ++ evs).
      destruct (fetch_context env b64 form (Py.take 10 relevant) [] _) as [[[|c cs]|e|] tr2];
        simpl in E' |- *; subst tr2; rewrite <- app_assoc;
        (split; [reflexivity|]); rewrite count_app;
        rewrite (count_outside TScoutFiles [TCall; TGetFileContent] eq_refl F'),
                (count_outside TScoutFiles [TCall; TModel] eq_refl F); reflexivity.
    + exists evs. split; [reflexivity|].
      apply (count_outside TScoutFiles [TCall; TModel] eq_refl F).
    + exists evs. split; [reflexivity|].
      apply (count_outside TScoutFiles [TCall; TModel] eq_refl F).
  - intros relevant tr1 Hs.
    assert (Hq : fetched_paths tr1 = fetched_paths tr).
    { destruct (scout_files_trace (blob_paths file_tree) (bug_description form) tr)
        as [evs [E F]].
      rewrite Hs in E. simpl in E. subst tr1.
      rewrite fetched_paths_app.
      rewrite (fetched_paths_quiet [TCall; TModel] eq_refl F), app_nil_r. reflexivity. }
    destruct (fetch_context_fetched form (Py.take 10 relevant) [] tr1) as [n [Hn Hall]].
    assert (Hrun : snd (scout_and_fetch env b64 prompts json form file_tree tr)
                   = snd (fetch_context env b64 form (Py.take 10 relevant) [] tr1)).
    { unfold scout_and_fetch. rewrite (bind_returned _ Hs). unfold bind.
      destruct (fetch_context env b64 form (Py.take 10 relevant) [] tr1)
        as [[[|c cs]|e|] tr2]; reflexivity. }
    split; [|split].
    + exists n. rewrite Hrun, Hn, Hq. reflexivity.
    + apply firstn_le_length.
    + intros ctx tr' Hr.
      assert (Hfc : exists ctx0, fetch_context env b64 form (Py.take 10 relevant) [] tr1
                                 = (Returned ctx0, tr')).
      { unfold scout_and_fetch in Hr. rewrite (bind_returned _ Hs) in Hr.
        unfold bind in Hr.
        destruct (fetch_context env b64 form (Py.take 10 relevant) [] tr1)
          as [[[|c cs]|e|] tr2]; try discriminate.
        injection Hr as <- <-. eauto. }
      destruct Hfc as [ctx0 Hfc].
      rewrite Hfc in Hn. simpl in Hn.
      rewrite Hn, Hq, (Hall _ _ Hfc), take_all. reflexivity.
Qed.


(** *** The code context and the analysis prompt *)

Lemma substring_length n : forall s, (String.length (String.substring 0 n s) <= n)%nat.
Proof.
  induction n as [|n IH]; intros s; destruct s as [|c s]; simpl; try lia.
  specialize (IH s). lia.
Qed.

Lemma substring_idem n : forall s,
  String.substring 0 n (String.substring 0 n s) = String.substring 0 n s.
Proof.
  induction n as [|n IH]; intros s; destruct s as [|c s]; simpl; try reflexivity.
  rewrite IH. reflexivity.
Qed.

Lemma capped_within ctx :
  forallb (fun entry => (String.length (snd entry) <=? 2000)%nat) (capped ctx) = true.
Proof.
  apply forallb_forall. intros entry Hin. unfold capped in Hin.
  apply in_map_iff in Hin as [e [<- _]]. simpl.
  apply Nat.leb_le. apply substring_length.
Qed.

Lemma analysis_prompt_capped ctx d :
  GeminiService.analysis_prompt prompts (capped ctx) d
  = GeminiService.analysis_prompt prompts ctx d.
Proof.
  unfold GeminiService.analysis_prompt, capped. rewrite map_map.
  assert (E : map (fun x : string * string =>
                     GeminiService.context_section (fst x, str_take 2000 (snd x))) ctx
              = map GeminiService.context_section ctx).
  { apply map_ext. intros [p c].
    unfold GeminiService.context_section, str_take. simpl.
    rewrite substring_idem. reflexivity. }
  rewrite E. reflexivity.
Qed.

Lemma odict_set_length {V} k (v : V) d :
  (List.length (odict_set k v d) <= S (List.length d))%nat.
Proof.
  induction d as [|[k' v'] d IH]; simpl; [lia|].
  destruct (String.eqb k k'); simpl; lia.
Qed.

Lemma fetch_context_length form paths : forall ctx tr ctx' tr',
  fetch_context env b64 form paths ctx tr = (Returned ctx', tr') ->
  (List.length ctx' <= List.length ctx + List.length paths)%nat.
Proof.
  induction paths as [|p rest IH]; intros ctx tr ctx' tr' H; simpl in H.
  - injection H as <- <-. lia.
  - apply bind_inv in H as (content & tr1 & _ & H).
    apply IH in H. simpl.
    destruct (truthy_opt content); [pose proof (odict_set_length p (default empty content) ctx)|];
      lia.
Qed.

Lemma scout_and_fetch_length form file_tree tr ctx tr' :
  scout_and_fetch env b64 prompts json form file_tree tr = (Returned ctx, tr') ->
  (1 <= List.length ctx <= 10)%nat.
Proof.
  unfold scout_and_fetch. intros H.
  apply bind_inv in H as (relevant & tr1 & _ & H).
  apply bind_inv in H as (ctx0 & tr2 & Hf & H).
  apply fetch_context_length in Hf.
  pose proof (firstn_le_length 10 relevant) as Hle. unfold Py.take in Hf.
  destruct ctx0 as [|c cs]; [discriminate|].
  injection H as <- <-. simpl in *. lia.
Qed.

Lemma gather_context_length form amb temp_dir tr g tr' :
  gather env b64 prompts json form amb temp_dir tr = (Returned g, tr') ->
  (1 <= List.length (g_code_context g) <= 10)%nat.
Proof.
  unfold gather. intros H.
  do 7 (apply bind_inv in H as (? & ? & _ & H)).
  apply bind_inv in H as (ctx & tr1 & Hs & H).
  injection H as <- <-. simpl. eapply scout_and_fetch_length. exact Hs.
Qed.

Lemma encode_images_trace paths : forall tr,
  exists images evs,
    GeminiService.encode_images env paths tr = (Returned images, evs ++ tr)
    /\ Forall (fun e => tag e = TCall) evs.
Proof.
  induction paths as [|p rest IH]; intros tr; simpl.
  - exists [], []. split; [reflexivity | constructor].
  - unfold bind, try_except, call, ret.
    destruct (@env ImageData (List.length tr) (Encode_image p)) as [g|img]; simpl.
    + destruct (IH (EvCall (Encode_image p) :: tr)) as (images & evs & E & F).
      rewrite E. exists images, (evs ++ [EvCall (Encode_image p)]).
      rewrite <- app_assoc. split; [reflexivity|].
      apply Forall_app. split; [exact F | repeat constructor].
    + destruct (IH (EvCall (Encode_image p) :: tr)) as (images & evs & E & F).
      rewrite E. exists (PImage img :: images), (evs ++ [EvCall (Encode_image p)]).
      rewrite <- app_assoc. split; [reflexivity|].
      apply Forall_app. split; [exact F | repeat constructor].
Qed.

Lemma analyze_vibe_trace ctx d imgs tr :
  exists images evs,
    snd (GeminiService.analyze_vibe env prompts json ctx d imgs tr)
    = EvCall (Model_generate_content
                (PText (GeminiService.analysis_prompt prompts ctx d) :: images))
      :: evs ++ EvAnalyzeVibe ctx d imgs :: tr
    /\ Forall (fun e => tag e = TCall) evs.
Proof.
  unfold GeminiService.analyze_vibe.
  erewrite bind_returned by reflexivity.
  assert (Himg : exists images evs,
             (match imgs with
              | Some paths => GeminiService.encode_images env paths
              | None => ret []
              end) (EvAnalyzeVibe ctx d imgs :: tr)
             = (Returned images, evs ++ EvAnalyzeVibe ctx d imgs :: tr)
             /\ Forall (fun e => tag e = TCall) evs).
  { destruct imgs as [paths|]; [apply encode_images_trace|].
    exists [], []. split; [reflexivity | constructor]. }
  destruct Himg as (images & evs & E & F).
  rewrite (bind_returned _ E).
  exists images, evs. split; [|exact F].
  unfold bind, call.
  destruct (@env (option string) _ _) as [g|[text|]]; simpl; try reflexivity.
  unfold GeminiService._parse_json_response.
  destruct (GeminiService.loads_analysis json text); reflexivity.
Qed.

(** C8 (amended).  The code context gathered by a run of the fix pipeline
    has at most 10 files and is handed whole to the analysis capability
    of the reasoning gateway; the cap of 2000 characters per file is
    applied by that capability when it builds the prompt for the model:
    the prompt is the one of the context with every content cut to its
    first 2000 characters. *)
Theorem C8_ten_files_prompt_capped form amb temp_dir tr g tr1 :
  gather env b64 prompts json form amb temp_dir tr = (Returned g, tr1) ->
  (List.length (g_code_context g) <= 10)%nat
  /\ within_caps (capped (g_code_context g)) = true
  /\ exists d imgs images evs,
       snd (request_analysis env prompts json form g tr1)
       = EvCall (Model_generate_content
                   (PText (GeminiService.analysis_prompt prompts
                             (capped (g_code_context g)) d) :: images))
         :: evs ++ EvAnalyzeVibe (g_code_context g) d imgs :: tr1
       /\ Forall (fun e => tag e = TCall) evs.
Proof.
  intros Hg. pose proof (gather_context_length _ _ _ _ Hg) as Hlen.
  split; [lia|]. split.
  - unfold within_caps. rewrite capped_within, andb_true_r.
    apply Nat.leb_le. unfold capped. rewrite length_map. lia.
  - assert (Hshape : forall d imgs,
              snd (request_analysis env prompts json form g tr1)
              = snd (GeminiService.analyze_vibe env prompts json (g_code_context g) d imgs tr1)
              -> exists d imgs images evs,
                snd (request_analysis env prompts json form g tr1)
                = EvCall (Model_generate_content
                            (PText (GeminiService.analysis_prompt prompts
                                      (capped (g_code_context g)) d) :: images))
                  :: evs ++ EvAnalyzeVibe (g_code_context g) d imgs :: tr1
                /\ Forall (fun e => tag e = TCall) evs).
    { intros d imgs E.
      destruct (analyze_vibe_trace (g_code_context g) d imgs tr1) as (images & evs & E' & F).
      exists d, imgs, images, evs. rewrite E, E', analysis_prompt_capped. auto. }
    unfold request_analysis, try_except, GeminiService.analyze_video_frames in *.
    destruct (g_video_path g) as [video_path|]; [destruct (truthy video_path)|];
      match goal with
      | |- context [GeminiService.analyze_vibe env prompts json ?c ?d ?i tr1] =>
          apply (Hshape d i);
          destruct (GeminiService.analyze_vibe env prompts json c d i tr1) as [[?|?|] ?];
          reflexivity
      end.
Qed.

End PipelineFacts.

(** ** The scenarios, run *)

Import Py World Observe Scenarios.

Lemma play_answers s :
  (exists b, collaborator s = inr b) -> (exists h, pull s = inr h) ->
  (exists u, created_ref s = inr u) -> (forall tick, exists text, model_reply s tick = Some text) ->
  gateways_answer (play s).
Proof.
  intros [b Hb] [h Hh] [u Hu] Hm. split.
  - intros T tick c. destruct c; simpl; rewrite ?Hb, ?Hh, ?Hu; eauto.
  - intros tick parts. destruct (Hm tick) as [text Ht]. exists text. simpl. rewrite Ht.
    reflexivity.
Qed.

Lemma reader_total text : is_Some (GeminiService.loads_correction reader text).
Proof. simpl. destruct (String.eqb text "omitted"); eauto. Qed.

Lemma play_outlasts s : polls_outlast_timeout (play s) 1 300.
Proof.
  intros t0. unfold clock, GitHubService.timedelta_seconds, play.
  match goal with
  | |- (_ <= ?x mod _)%Z => replace x with 480%Z by lia
  end.
  vm_compute. discriminate.
Qed.

(** ** Counterexamples and instances *)

(** C1, counterexample: with CI green at the first poll the loop returns
    [iterations = 1] although the correction capability was never
    called. *)
Lemma C1_counterexample :
  ~ AsStated.iterations_count_corrections (play green) prompts reader
      VerificationLoopService.init 1 repo 7 "fix-vibe-0f8fad5b" "src/App.tsx".
Proof.
  intros H.
  destruct (verify green 1 "v0" []) as [[r|e|] tr'] eqn:E;
    vm_compute in E; try discriminate.
  injection E as <- <-.
  specialize (H "v0" [] _ _ eq_refl) as [_ H]. vm_compute in H. discriminate.
Qed.

(** C1, witness: the run with CI green at the first poll. *)
Lemma C1_witness :
  exists r tr',
    verify green 1 "v0" [] = (Returned r, tr')
    /\ (VerificationLoopService.iterations r <= 3)%Z
    /\ VerificationLoopService.iterations r = calls_during TWaitForCi [] tr'
    /\ calls_during TSelfCorrect [] tr'
       = (if budget_spent r then VerificationLoopService.iterations r
          else VerificationLoopService.iterations r - 1)%Z.
Proof.
  destruct (verify green 1 "v0" []) as [[r|e|] tr'] eqn:E;
    [|vm_compute in E; discriminate..].
  exists r, tr'. split; [reflexivity|].
  apply (@C1_iterations_count_polls (play green) prompts reader
           VerificationLoopService.init 1 repo 7%Z "fix-vibe-0f8fad5b" "src/App.tsx"
           "v0" [] r tr'); [simpl; lia | exact E].
Defined.

(** C2, counterexample: the pull request cannot be read, and the
    [GithubException] leaves the loop. *)
Lemma C2_counterexample :
  ~ AsStated.no_exception_escapes (play gateway_down) prompts reader
      VerificationLoopService.init 1 repo 7 "fix-vibe-0f8fad5b" "src/App.tsx".
Proof.
  intros H.
  destruct (verify gateway_down 1 "v0" []) as [[r|e|] tr'] eqn:E;
    vm_compute in E; try discriminate.
  exact (H "v0" [] e tr' E).
Qed.

(** C2, witness: when every call answers the loop returns a result, which
    stands for a terminal condition; when the pull request cannot be
    read, the exception of the wait for CI ends the loop. *)
Lemma C2_witness :
  (exists r tr', verify green 1 "v0" [] = (Returned r, tr') /\ terminal_condition r)
  /\ exists e tr',
       GitHubService.wait_for_ci_completion (play gateway_down) 1 repo 7
         (VerificationLoopService.poll_timeout VerificationLoopService.init)
         (VerificationLoopService.poll_interval VerificationLoopService.init) []
       = (Raised e, tr')
       /\ verify gateway_down 1 "v0" [] = (Raised e, tr').
Proof.
  split.
  - apply (@C2_loop_returns_or_raises (play green) prompts reader
             VerificationLoopService.init 1 repo 7%Z "fix-vibe-0f8fad5b" "src/App.tsx").
    + apply play_answers; simpl; eauto.
    + intros tick parts text _. apply reader_total.
    + apply play_outlasts.
  - destruct (GitHubService.wait_for_ci_completion (play gateway_down) 1 repo 7
                (VerificationLoopService.poll_timeout VerificationLoopService.init)
                (VerificationLoopService.poll_interval VerificationLoopService.init) [])
      as [[status|e|] tr'] eqn:E;
      [vm_compute in E; discriminate| |vm_compute in E; discriminate].
    exists e, tr'. split; [reflexivity|].
    destruct (@C2_loop_returns_or_raises (play gateway_down) prompts reader
                VerificationLoopService.init 1 repo 7%Z "fix-vibe-0f8fad5b" "src/App.tsx")
      as (_ & H & Hrun).
    unfold verify. rewrite Hrun.
    destruct (H 2%nat 0%Z "v0" [] [] e) as [H1 _]; [reflexivity|].
    exact (H1 tr' E).
Defined.

(** C3 (the code departs from the claim).  The claim lets a run go on
    when the write-access check meets a gateway error.  Here the
    collaborator lookup fails with a server error for a valid token and
    an existing repository: [check_write_access] answers [False] and
    the run ends with the 403 response of a missing write access. *)
Theorem C3_failed_lookup_denies_access :
  fst (submit collaborator_lookup_fails [])
  = Raised (HTTPException 403 (Analyze.no_write_access "octocat")).
Proof. vm_compute. reflexivity. Qed.

(** C4, witness: creating the reference is forbidden, and [master] is
    not tried. *)
Lemma C4_witness :
  exists e tr1,
    GitHubService.create_branch (play forbidden) repo "main" "fix-vibe-0f8fad5b" []
    = (Raised e, tr1)
    /\ Analyze.permission_signal e = true
    /\ Analyze.create_fix_branch (play forbidden) form "fix-vibe-0f8fad5b" []
       = (Raised (HTTPException 403 Analyze.branch_forbidden), tr1)
    /\ attempted_bases tr1 = ["main"].
Proof.
  destruct (GitHubService.create_branch (play forbidden) repo "main" "fix-vibe-0f8fad5b" [])
    as [[b|e|] tr1] eqn:E; [vm_compute in E; discriminate| |vm_compute in E; discriminate].
  exists e, tr1. split; [reflexivity|].
  pose proof (@C4_branch_fallback (play forbidden) b64decode_utf8 prompts reader form
                ambient [] "fix-vibe-0f8fad5b" [] e tr1 E) as [_ H].
  assert (Hp : Analyze.permission_signal e = true).
  { vm_compute in E. injection E as <- _. reflexivity. }
  rewrite Hp in H. destruct H as [H1 H2]. auto.
Defined.

(** C5, witness: the scouting step of the green scenario. *)
Lemma C5_witness :
  exists relevant_files tr1,
    GeminiService.scout_files (play green) prompts reader
      ["src/App.tsx"; "README.md"] (Analyze.bug_description form) []
    = (Returned relevant_files, tr1)
    /\ exists n,
         fetched_paths
           (snd (Analyze.scout_and_fetch (play green) b64decode_utf8 prompts reader form
                   [ {| GitHubService.fi_path := "src"; GitHubService.fi_type := "tree";
                        GitHubService.fi_size := None; GitHubService.fi_sha := "t0" |};
                     {| GitHubService.fi_path := "src/App.tsx";
                        GitHubService.fi_type := "blob";
                        GitHubService.fi_size := None; GitHubService.fi_sha := "b0" |};
                     {| GitHubService.fi_path := "README.md";
                        GitHubService.fi_type := "blob";
                        GitHubService.fi_size := None; GitHubService.fi_sha := "b1" |} ]
                   []))
         = [] ++ Py.take n (Py.take 10 relevant_files).
Proof.
  destruct (GeminiService.scout_files (play green) prompts reader
              ["src/App.tsx"; "README.md"] (Analyze.bug_description form) [])
    as [[relevant|e|] tr1] eqn:E; [|vm_compute in E; discriminate..].
  exists relevant, tr1. split; [reflexivity|].
  match goal with
  | |- context [Analyze.scout_and_fetch _ _ _ _ _ ?tree []] =>
      destruct (@C5_scout_full_list_fetch_first_ten (play green) b64decode_utf8 prompts
                  reader form tree []) as (paths & evs & _ & _ & Hpaths & _ & H)
  end.
  subst paths. exact (proj1 (H relevant tr1 E)).
Defined.

(** C6, counterexample: CI is still [pending] when the poll times out,
    and the logs are fetched. *)
Lemma C6_counterexample :
  ~ AsStated.logs_only_after_failure (play stuck_pending) prompts reader
      VerificationLoopService.init 1 repo 7 "fix-vibe-0f8fad5b" "src/App.tsx".
Proof.
  intros H.
  destruct (GitHubService.wait_for_ci_completion (play stuck_pending) 1 repo 7 300 15 [])
    as [[status|e|] tr1] eqn:E; vm_compute in E; try discriminate.
  injection E as <- <-.
  specialize (H 1%Z "v0" [] _ _ eq_refl). vm_compute in H.
  assert (H1 : "pending" <> "failure") by discriminate.
  assert (H2 : "pending" <> "error") by discriminate.
  specialize (H H1 H2). discriminate.
Qed.

(** C6, witness: the same poll, with its one fetch of the logs. *)
Lemma C6_witness :
  count TGetCheckLogs
    (snd (VerificationLoopService.pass (play stuck_pending) prompts reader
            VerificationLoopService.init 1 repo 7 "fix-vibe-0f8fad5b" "src/App.tsx"
            1 "v0" []))
  = 1%nat.
Proof.
  destruct (GitHubService.wait_for_ci_completion (play stuck_pending) 1 repo 7 300 15 [])
    as [[status|e|] tr1] eqn:E; [|vm_compute in E; discriminate..].
  rewrite (@C6_logs_fetched_unless_success (play stuck_pending) prompts reader
             VerificationLoopService.init 1 repo 7%Z "fix-vibe-0f8fad5b" "src/App.tsx"
             1%Z "v0" [] status tr1 E).
  vm_compute in E. injection E as <- _. reflexivity.
Defined.




(** C8, counterexample: a relevant file of 2001 characters reaches the
    analysis entry point whole. *)
Lemma C8_counterexample :
  ~ AsStated.context_capped_before_handoff (play long_file) b64decode_utf8 prompts reader.
Proof.
  intros H. specialize (H form ambient). vm_compute in H. discriminate.
Qed.

(** C8, witness: what the green scenario gathers. *)
Lemma C8_witness :
  exists g tr1,
    Analyze.gather (play green) b64decode_utf8 prompts reader form ambient "/tmp/job" []
    = (Returned g, tr1)
    /\ (List.length (Analyze.g_code_context g) <= 10)%nat
    /\ within_caps (capped (Analyze.g_code_context g)) = true.
Proof.
  destruct (Analyze.gather (play green) b64decode_utf8 prompts reader form ambient
              "/tmp/job" []) as [[g|e|] tr1] eqn:E; [|vm_compute in E; discriminate..].
  exists g, tr1. split; [reflexivity|].
  destruct (@C8_ten_files_prompt_capped (play green) b64decode_utf8 prompts reader form
              ambient "/tmp/job" [] g tr1 E) as (H1 & H2 & _).
  auto.
Defined.

Lemma reader_omitted parsed :
  GeminiService.loads_correction reader "omitted" = Some parsed ->
  parsed !! "corrected_code" = None.
Proof.
  intros H.
  assert (E : Some (<["error_analysis" := "types"]> (∅ : gmap string string)) = Some parsed)
    by exact H.
  apply (f_equal (fun o : option (gmap string string) =>
                    match o with Some m => m !! "corrected_code" | None => None end)) in E.
  rewrite <- E. rewrite lookup_insert_ne by discriminate. apply lookup_empty.
Qed.

(** C9, witness: the build fails, the correction [fixed] is committed,
    the next poll is green, and [fixed] is the code returned. *)
Lemma C9_witness :
  exists tr',
    VerificationLoopService.while_loop (play (red_then_green "fixed")) prompts reader
      VerificationLoopService.init 1 repo 7 "fix-vibe-0f8fad5b" "src/App.tsx"
      3 0 "v0" [] []
    = (Returned {| VerificationLoopService.success := true;
                   VerificationLoopService.iterations := 0 + 1 + 1;
                   VerificationLoopService.final_status := "success";
                   VerificationLoopService.error_logs :=
                     VerificationLoopService.CheckLogs [];
                   VerificationLoopService.corrected_code := Some "fixed";
                   VerificationLoopService.error_message := None |}, tr').
Proof.
  pose (env := play (red_then_green "fixed")).
  pose (w1 := GitHubService.wait_for_ci_completion env 1 repo 7 300 15 []).
  pose (g1 := GitHubService.get_check_logs env repo 7 (snd w1)).
  pose (l := hd no_log (returned [] g1)).
  pose (ls := tl (returned [] g1)).
  pose (c1 := GeminiService.self_correct env prompts reader "v0" (l :: ls) "src/App.tsx"
                (snd g1)).
  pose (correction := returned ∅ c1).
  pose (m1 := GitHubService.commit_file_changes env repo "fix-vibe-0f8fad5b" "src/App.tsx"
                "fixed" (VerificationLoopService.commit_message (0 + 1) correction)
                (snd c1)).
  pose (z1 := call env (Asyncio_sleep 5) (snd m1)).
  pose (w2 := GitHubService.wait_for_ci_completion env 1 repo 7 300 15 (snd z1)).
  exists (snd w2).
  apply (@C9_adopted_code_is_returned env prompts reader
           VerificationLoopService.init 1 repo 7%Z "fix-vibe-0f8fad5b" "src/App.tsx"
           1 0%Z "v0" [] [] (returned no_status w1) (snd w1) l ls (snd g1)
           correction "fixed" (snd c1) (returned {| commit_sha := empty |} m1) (snd m1)
           (snd z1) (returned no_status w2) (snd w2)).
  - simpl. lia.
  - vm_compute. reflexivity.
  - vm_compute. reflexivity.
  - vm_compute. reflexivity.
  - vm_compute. reflexivity.
  - vm_compute. reflexivity.
  - vm_compute. reflexivity.
  - vm_compute. reflexivity.
  - vm_compute. reflexivity.
  - vm_compute. reflexivity.
Defined.

(** * Further properties of the services *)

(** ** Reading a trace, call by call *)

Section ReaderFacts.
Import Py World Observe Readers.

Lemma collect_app {A} (f : Event -> list A) evs tr :
  collect f (evs ++ tr) = collect f tr ++ collect f evs.
Proof. unfold collect. rewrite flat_map_app, rev_app_distr. reflexivity. Qed.

Lemma collect_cons {A} (f : Event -> list A) e tr :
  collect f (e :: tr) = collect f tr ++ rev (f e).
Proof. unfold collect. simpl. rewrite rev_app_distr. reflexivity. Qed.

Lemma bind_ext {A B} (m : M A) (k k' : A -> M B) tr :
  (forall a tr1, k a tr1 = k' a tr1) -> bind m k tr = bind m k' tr.
Proof. intros H. unfold bind. destruct (m tr) as [[a|e|] tr1]; auto. Qed.

Lemma quiet_ret {A B} (f : Event -> list A) (b : B) : quiet f (ret b).
Proof. intros tr. reflexivity. Qed.

Lemma quiet_raise {A B} (f : Event -> list A) e : quiet f (@raise B e).
Proof. intros tr. reflexivity. Qed.

Lemma quiet_unfinished {A B} (f : Event -> list A) : quiet f (@unfinished B).
Proof. intros tr. reflexivity. Qed.

Lemma quiet_enter {A} (f : Event -> list A) e : f e = [] -> quiet f (enter e).
Proof. intros H tr. simpl. rewrite collect_cons, H. apply app_nil_r. Qed.

Lemma quiet_call {A} (f : Event -> list A) env {T} (c : Call T) :
  f (EvCall c) = [] -> quiet f (call env c).
Proof.
  intros H tr. unfold call.
  destruct (env T (List.length tr) c); simpl; rewrite collect_cons, H; apply app_nil_r.
Qed.

Lemma quiet_bind {A B C} (f : Event -> list A) (m : M B) (k : B -> M C) :
  quiet f m -> (forall b, quiet f (k b)) -> quiet f (bind m k).
Proof.
  intros Hm Hk tr. specialize (Hm tr). unfold bind.
  destruct (m tr) as [[b|e|] tr1]; simpl in *; try exact Hm.
  rewrite (Hk b tr1). exact Hm.
Qed.

Lemma quiet_try_except {A B} (f : Event -> list A) (m : M B) catches h :
  quiet f m -> (forall e, quiet f (h e)) -> quiet f (try_except m catches h).
Proof.
  intros Hm Hh tr. specialize (Hm tr). unfold try_except.
  destruct (m tr) as [[b|e|] tr1]; simpl in *; try exact Hm.
  destruct (catches e); simpl; [|exact Hm].
  rewrite (Hh e tr1). exact Hm.
Qed.

Lemma quiet_try_finally {A B} (f : Event -> list A) (m : M B) g :
  quiet f m -> quiet f g -> quiet f (try_finally m g).
Proof.
  intros Hm Hg tr. specialize (Hm tr). unfold try_finally.
  destruct (m tr) as [o tr1]; simpl in *. rewrite (Hg tr1). exact Hm.
Qed.

Lemma quiet_run {A B} (f : Event -> list A) (m : M B) tr o tr' :
  quiet f m -> m tr = (o, tr') -> collect f tr' = collect f tr.
Proof. intros Hm Hrun. specialize (Hm tr). rewrite Hrun in Hm. exact Hm. Qed.

(** Events of a capability outside [ts] are not read by a reader of
    one capability. *)
Lemma emits_quiet {A B} (f : Event -> list A) ts (m : M B) :
  (forall e, mem (tag e) ts = true -> f e = []) -> emits ts m -> quiet f m.
Proof.
  intros Hf Hm tr. destruct (Hm tr) as [evs [E F]]. rewrite E, collect_app. clear E.
  assert (Hq : collect f evs = []).
  { unfold collect. induction F as [|e evs He _ IH]; [reflexivity|].
    simpl. rewrite (Hf e He). simpl. exact IH. }
  rewrite Hq. apply app_nil_r.
Qed.

(** How a computation that always ends goes on. *)
Lemma ends_ret {A} P (a : A) : ends P (ret a).
Proof. intros tr. exact I. Qed.

Lemma ends_raise {A} (P : exn -> Prop) e : P e -> ends P (@raise A e).
Proof. intros H tr. exact H. Qed.

Lemma ends_enter P e : ends P (enter e).
Proof. intros tr. exact I. Qed.

Lemma ends_call (P : exn -> Prop) env {T} (c : Call T) :
  (forall g, P (exn_of_gw g)) -> ends P (call env c).
Proof. intros H tr. unfold call. destruct (env T (List.length tr) c); simpl; auto. Qed.

Lemma ends_bind {A B} P (m : M A) (k : A -> M B) :
  ends P m -> (forall a, ends P (k a)) -> ends P (bind m k).
Proof.
  intros Hm Hk tr. specialize (Hm tr). unfold bind.
  destruct (m tr) as [[a|e|] tr1]; simpl in *; try assumption.
  apply (Hk a tr1).
Qed.

Lemma ends_try_except {A} (P Q : exn -> Prop) (m : M A) catches h :
  ends Q m -> (forall e, Q e -> catches e = false -> P e) ->
  (forall e, ends P (h e)) -> ends P (try_except m catches h).
Proof.
  intros Hm Hpass Hh tr. specialize (Hm tr). unfold try_except.
  destruct (m tr) as [[a|e|] tr1]; simpl in *; try assumption.
  destruct (catches e) eqn:Hc; simpl; [apply (Hh e tr1) | auto].
Qed.

Lemma ends_try_finally {A} P (m : M A) f : ends P m -> ends P (try_finally m f).
Proof.
  intros Hm tr. specialize (Hm tr). unfold try_finally.
  destruct (m tr) as [o tr1]; simpl in *. exact Hm.
Qed.

Lemma ends_weaken {A} (P Q : exn -> Prop) (m : M A) :
  ends P m -> (forall e, P e -> Q e) -> ends Q m.
Proof.
  intros Hm Hi tr. specialize (Hm tr). destruct (fst (m tr)); auto.
Qed.

End ReaderFacts.

(** ** Ordered dicts *)

Section OdictFacts.
Import Py.

Lemma odict_set_keys {V} k (v : V) d x :
  In x (map fst (odict_set k v d)) -> x = k \/ In x (map fst d).
Proof.
  induction d as [|[k' v'] d IH]; simpl.
  - intros [<-|[]]. auto.
  - destruct (String.eqb k k') eqn:E; simpl; [tauto|].
    intros [<-|H]; [tauto|]. apply IH in H. tauto.
Qed.

Lemma odict_set_NoDup {V} k (v : V) d :
  List.NoDup (map fst d) -> List.NoDup (map fst (odict_set k v d)).
Proof.
  induction d as [|[k' v'] d IH]; simpl; intros H.
  - apply List.NoDup_cons; [intros []|apply List.NoDup_nil].
  - destruct (String.eqb k k') eqn:E; simpl; [exact H|].
    inversion H as [|? ? Hnot Hd]; subst. apply List.NoDup_cons; [|apply IH; exact Hd].
    intros Hin. apply odict_set_keys in Hin as [->|Hin]; [|contradiction].
    rewrite String.eqb_refl in E. discriminate.
Qed.

Lemma odict_set_Forall {V} (Q : string -> Prop) (R : V -> Prop) k v d :
  Q k -> R v ->
  Forall (fun entry => Q (fst entry) /\ R (snd entry)) d ->
  Forall (fun entry => Q (fst entry) /\ R (snd entry)) (odict_set k v d).
Proof.
  intros Hk Hv. induction d as [|[k' v'] d IH]; simpl; intros H.
  - repeat constructor; assumption.
  - inversion H as [|? ? [Hq Hr] Hd]; subst. simpl in *.
    destruct (String.eqb k k') eqn:E.
    + constructor; [split; assumption | exact Hd].
    + constructor; [split; assumption | apply IH; exact Hd].
Qed.

End OdictFacts.

Ltac quiet_step :=
  match goal with
  | |- Readers.quiet _ (World.ret _) => apply quiet_ret
  | |- Readers.quiet _ (World.raise _) => apply quiet_raise
  | |- Readers.quiet _ World.unfinished => apply quiet_unfinished
  | |- Readers.quiet _ (World.enter _) => apply quiet_enter; reflexivity
  | |- Readers.quiet _ (World.call _ _) => apply quiet_call; reflexivity
  | |- Readers.quiet _ (World.bind _ _) => apply quiet_bind; [|intros]
  | |- Readers.quiet _ (World.try_except _ _ _) => apply quiet_try_except; [|intros]
  | |- Readers.quiet _ (World.try_finally _ _) => apply quiet_try_finally
  | |- Readers.quiet _ (if ?b then _ else _) => destruct b
  | |- Readers.quiet _ (match ?x with _ => _ end) => destruct x
  end.

Ltac ends_step :=
  match goal with
  | |- Readers.ends _ (World.ret _) => apply ends_ret
  | |- Readers.ends _ (World.raise _) =>
      apply ends_raise; cbv beta; simpl; intros; first [discriminate | auto 10]
  | |- Readers.ends _ (World.enter _) => apply ends_enter
  | |- Readers.ends _ (World.call _ _) =>
      apply ends_call; intros []; cbv beta; simpl; intros; first [discriminate | auto]
  | |- Readers.ends _ (World.bind _ _) => apply ends_bind; [|intros]
  | |- Readers.ends ?P (World.try_except _ _ _) =>
      apply (@ends_try_except _ P P); [|intros ? ? ?; assumption|intros]
  | |- Readers.ends _ (World.try_finally _ _) => apply ends_try_finally
  | |- Readers.ends _ (if ?b then _ else _) => destruct b
  | |- Readers.ends _ (match ?x with _ => _ end) => destruct x
  end.

(** Read the events a concrete run added. *)
Ltac read_off :=
  unfold Readers.refs_read, Readers.refs_created, Readers.file_writes,
    Readers.pulls_asked, Readers.model_calls, Readers.sleeps,
    Readers.corrections_asked, Readers.committed_contents, Readers.contexts_analysed;
  rewrite ?collect_cons; rewrite <- ?app_assoc; simpl; reflexivity.

(** ** [github_service.py]: what the methods ask of the repository *)

Section MoreGitHubFacts.
Import Py World Observe Readers GitHubService.
Variable env : Env.
Variable b64 : string -> option string.

(** X1.  [check_write_access] never raises and fails closed: it returns
    [True] only when the repository lookup answered and the collaborator
    lookup answered [True]; any failure of either lookup gives [False]. *)
Theorem X1_check_write_access_fails_closed self url tr :
  fst (check_write_access env self url tr)
  = Returned
      (match @env unit (S (List.length tr)) (Github_get_repo url) with
       | inl _ => false
       | inr _ =>
           match @env bool (S (S (List.length tr)))
                   (Repo_has_in_collaborators (user_login self)) with
           | inl _ => false
           | inr b => b
           end
       end).
Proof.
  unfold check_write_access, get_repository, bind, enter, try_except, call. simpl.
  destruct (@env unit _ (Github_get_repo url)) as [g|u]; simpl; [reflexivity|].
  destruct (@env bool _ (Repo_has_in_collaborators _)) as [g|b]; reflexivity.
Qed.

Lemma _map_conclusion_to_state_known c :
  In (_map_conclusion_to_state c) ["pending"; "success"; "failure"; "error"].
Proof.
  unfold _map_conclusion_to_state. destruct c as [c|]; [|simpl; auto].
  destruct (String.eqb c "success"); [simpl; auto|].
  destruct (String.eqb c "failure"); simpl; auto.
Qed.

(** X2.  A status returned by [get_pr_status] lists the statuses of the
    combined commit status followed by one entry per check run, and
    [total_count] is their number.  Its overall [state] is the state of
    the combined commit status alone, whatever the check runs concluded;
    the entry of a check run has one of the states [pending], [success],
    [failure], [error]. *)
Theorem X2_get_pr_status_lists_all_checks url pr tr status tr' :
  get_pr_status env url pr tr = (Returned status, tr') ->
  exists sha combined runs,
    @env _ (3 + List.length tr) (Commit_get_status sha) = inr combined
    /\ @env _ (4 + List.length tr) (Commit_get_check_runs sha) = inr runs
    /\ state status = cs_state combined
    /\ total_count status = (List.length (cs_statuses combined) + List.length runs)%nat
    /\ List.length (statuses status) = total_count status
    /\ firstn (List.length (cs_statuses combined)) (statuses status) = cs_statuses combined
    /\ map st_context (skipn (List.length (cs_statuses combined)) (statuses status))
       = map run_name runs
    /\ Forall (fun s => In (st_state s) ["pending"; "success"; "failure"; "error"])
         (skipn (List.length (cs_statuses combined)) (statuses status)).
Proof.
  unfold get_pr_status, get_repository, bind, enter, call. simpl.
  destruct (@env unit _ (Github_get_repo url)) as [g|u]; simpl; [discriminate|].
  destruct (@env string _ (Repo_get_pull pr)) as [g|sha]; simpl; [discriminate|].
  destruct (@env CombinedStatus _ (Commit_get_status sha)) as [g|combined] eqn:Ec;
    simpl; [discriminate|].
  destruct (@env (list CheckRun) _ (Commit_get_check_runs sha)) as [g|runs] eqn:Er;
    simpl; [discriminate|].
  unfold ret. intros H. injection H as <- <-. simpl.
  exists sha, combined, runs.
  repeat split; try assumption.
  - rewrite length_app, length_map. reflexivity.
  - rewrite firstn_app, Nat.sub_diag, firstn_all. simpl. apply app_nil_r.
  - rewrite skipn_app, Nat.sub_diag, skipn_all, skipn_O. simpl. clear.
    induction runs as [|run runs IH]; simpl; [reflexivity | f_equal; exact IH].
  - rewrite skipn_app, Nat.sub_diag, skipn_all, skipn_O. simpl.
    apply List.Forall_forall. intros s Hin. apply in_map_iff in Hin as [run [<- _]].
    apply _map_conclusion_to_state_known.
Qed.

(** X3.  The logs returned by [get_check_logs] are those of the check
    runs whose conclusion is [failure] or [error], one per run and in
    their order; every log carries one of these two conclusions. *)
Theorem X3_get_check_logs_only_failed_runs url pr tr logs tr' :
  get_check_logs env url pr tr = (Returned logs, tr') ->
  exists sha runs,
    @env _ (3 + List.length tr) (Commit_get_check_runs sha) = inr runs
    /\ map log_name logs
       = map run_name (List.filter (fun run => conclusion_failed (run_conclusion run)) runs)
    /\ Forall (fun log => log_conclusion log = "failure" \/ log_conclusion log = "error")
         logs.
Proof.
  unfold get_check_logs, get_repository, bind, enter, call. simpl.
  destruct (@env unit _ (Github_get_repo url)) as [g|u]; simpl; [discriminate|].
  destruct (@env string _ (Repo_get_pull pr)) as [g|sha]; simpl; [discriminate|].
  destruct (@env (list CheckRun) _ (Commit_get_check_runs sha)) as [g|runs] eqn:Er;
    simpl; [discriminate|].
  unfold ret. intros H. injection H as <- <-.
  exists sha, runs. split; [exact Er|]. clear Er.
  induction runs as [|run runs [IH1 IH2]]; simpl; [split; [reflexivity|constructor]|].
  destruct (conclusion_failed (run_conclusion run)) eqn:Hc; simpl; [|split; assumption].
  split; [f_equal; exact IH1|]. constructor; [|exact IH2]. simpl.
  unfold conclusion_failed in Hc. destruct (run_conclusion run) as [c|]; [|discriminate].
  apply orb_true_iff in Hc as [Hc|Hc]; apply String.eqb_eq in Hc; subst; simpl; auto.
Qed.

Lemma conclusion_failed_decides c :
  conclusion_failed c = bool_decide (c = Some "failure" \/ c = Some "error").
Proof.
  unfold conclusion_failed. destruct c as [s|].
  - destruct (String.eqb s "failure") eqn:Ef; simpl.
    + apply String.eqb_eq in Ef. subst s. symmetry. apply bool_decide_eq_true. auto.
    + destruct (String.eqb s "error") eqn:Ee.
      * apply String.eqb_eq in Ee. subst s. symmetry. apply bool_decide_eq_true. auto.
      * symmetry. apply bool_decide_eq_false. apply String.eqb_neq in Ef, Ee.
        intros [H|H]; injection H as ->; congruence.
  - symmetry. apply bool_decide_eq_false. intros [H|H]; discriminate.
Qed.

(** X4.  What [get_pr_status] and [get_check_logs] make of the check
    runs they are answered.  [get_pr_status] lists one entry per check
    run after the commit statuses, under the name of the run, and its
    state follows the conclusion of the run: [pending] without a
    conclusion, [success] and [failure] for these two conclusions, and
    [error] for every other conclusion (timed out, cancelled, ...).
    [get_check_logs] returns one log for each run whose conclusion is
    [failure] or [error], under the name and with the conclusion of the
    run, and no log for any other run: a run that timed out is listed
    with the state [error] and has no log. *)
Theorem X4_unlisted_conclusion_is_error_without_log url pr tr status tr1 tr2 logs tr3 :
  get_pr_status env url pr tr = (Returned status, tr1) ->
  get_check_logs env url pr tr2 = (Returned logs, tr3) ->
  exists sha combined runs sha' runs',
    @env _ (3 + List.length tr) (Commit_get_status sha) = inr combined
    /\ @env _ (4 + List.length tr) (Commit_get_check_runs sha) = inr runs
    /\ @env _ (3 + List.length tr2) (Commit_get_check_runs sha') = inr runs'
    /\ Forall2
         (fun run entry =>
            st_context entry = run_name run
            /\ match run_conclusion run with
               | None => st_state entry = "pending"
               | Some c =>
                   (c = "success" -> st_state entry = "success")
                   /\ (c = "failure" -> st_state entry = "failure")
                   /\ (c <> "success" -> c <> "failure" -> st_state entry = "error")
               end)
         runs (skipn (List.length (cs_statuses combined)) (statuses status))
    /\ Forall2
         (fun run log =>
            log_name log = run_name run
            /\ run_conclusion run = Some (log_conclusion log))
         (List.filter
            (fun run =>
               bool_decide (run_conclusion run = Some "failure"
                            \/ run_conclusion run = Some "error"))
            runs')
         logs.
Proof.
  intros Hs Hl.
  unfold get_pr_status, get_repository, bind, enter, call in Hs. simpl in Hs.
  destruct (@env unit _ (Github_get_repo url)) as [g|u]; simpl in Hs; [discriminate|].
  destruct (@env string _ (Repo_get_pull pr)) as [g|sha]; simpl in Hs; [discriminate|].
  destruct (@env CombinedStatus _ (Commit_get_status sha)) as [g|combined] eqn:Ec;
    simpl in Hs; [discriminate|].
  destruct (@env (list CheckRun) _ (Commit_get_check_runs sha)) as [g|runs] eqn:Er;
    simpl in Hs; [discriminate|].
  unfold ret in Hs. injection Hs as <- <-.
  unfold get_check_logs, get_repository, bind, enter, call in Hl. simpl in Hl.
  destruct (@env unit _ (Github_get_repo url)) as [g|u']; simpl in Hl; [discriminate|].
  destruct (@env string _ (Repo_get_pull pr)) as [g|sha']; simpl in Hl; [discriminate|].
  destruct (@env (list CheckRun) _ (Commit_get_check_runs sha')) as [g|runs'] eqn:Er';
    simpl in Hl; [discriminate|].
  unfold ret in Hl. injection Hl as <- <-.
  exists sha, combined, runs, sha', runs'.
  split; [exact Ec|split; [exact Er|split; [exact Er'|split]]].
  - simpl. rewrite skipn_app, Nat.sub_diag, skipn_all, skipn_O. simpl. clear.
    induction runs as [|run runs IH]; simpl; constructor; [|exact IH].
    simpl. split; [reflexivity|].
    unfold _map_conclusion_to_state. destruct (run_conclusion run) as [c|]; [|reflexivity].
    destruct (String.eqb c "success") eqn:E1.
    { apply String.eqb_eq in E1. subst c. repeat split; try reflexivity;
        intros; congruence. }
    destruct (String.eqb c "failure") eqn:E2.
    { apply String.eqb_eq in E2. subst c. repeat split; try reflexivity;
        intros; congruence. }
    apply String.eqb_neq in E1, E2. repeat split; intros; congruence.
  - clear. induction runs' as [|run runs' IH]; simpl; [constructor|].
    rewrite <- conclusion_failed_decides.
    destruct (conclusion_failed (run_conclusion run)) eqn:Hc; simpl; [|exact IH].
    constructor; [|exact IH]. simpl. split; [reflexivity|].
    destruct (run_conclusion run); [reflexivity|discriminate].
Qed.

(** *** Waiting for CI *)

Lemma get_pr_status_polls url pr tr o tr' :
  get_pr_status env url pr tr = (o, tr') ->
  count TGetPrStatus tr' = S (count TGetPrStatus tr) /\ sleeps tr' = sleeps tr.
Proof.
  intros H. split.
  - unfold get_pr_status in H.
    eapply run_entered_count with (t := TGetPrStatus) (ts := [TCall]) in H;
      [exact H | | reflexivity].
    unfold get_repository. repeat emits_step.
  - eapply quiet_run; [|exact H].
    unfold get_pr_status, get_repository. repeat quiet_step.
Qed.

Lemma get_pr_status_ends url pr : ends (fun _ => True) (get_pr_status env url pr).
Proof. unfold get_pr_status, get_repository. repeat ends_step. Qed.

Lemma now_quiet tr o tr' :
  call env Datetime_now tr = (o, tr') ->
  count TGetPrStatus tr' = count TGetPrStatus tr /\ sleeps tr' = sleeps tr.
Proof.
  intros H. split.
  - eapply run_count; [apply (emits_call env [TCall] Datetime_now); reflexivity
                      | reflexivity | exact H].
  - eapply quiet_run; [|exact H]. quiet_step.
Qed.

Lemma sleep_adds interval tr o tr' :
  call env (Time_sleep interval) tr = (o, tr') ->
  count TGetPrStatus tr' = count TGetPrStatus tr /\ sleeps tr' = sleeps tr ++ [interval].
Proof.
  unfold call. intros H.
  destruct (@env unit _ (Time_sleep interval)); injection H as <- <-; split; reflexivity.
Qed.

Lemma wait_loop_polls n url pr timeout interval : forall start tr status tr',
  wait_loop env n url pr start timeout interval tr = (Returned status, tr') ->
  exists k,
    (k <= n)%nat
    /\ sleeps tr' = sleeps tr ++ repeat interval k
    /\ count TGetPrStatus tr' = (S k + count TGetPrStatus tr)%nat.
Proof.
  induction n as [|n IH]; intros start tr status tr' H; simpl in H;
    apply bind_inv in H as (now & tr1 & Hn & H);
    apply now_quiet in Hn as [Hn1 Hn2];
    destruct (timedelta_seconds now start <? timeout)%Z.
  - discriminate.
  - apply get_pr_status_polls in H as [H1 H2].
    exists 0%nat. simpl. rewrite app_nil_r. repeat split; [lia | congruence | lia].
  - apply bind_inv in H as (status0 & tr2 & Hs & H).
    apply get_pr_status_polls in Hs as [Hs1 Hs2].
    destruct (negb (String.eqb (state status0) "pending")).
    + injection H as <- <-. exists 0%nat. simpl. rewrite app_nil_r.
      repeat split; [lia | congruence | lia].
    + apply bind_inv in H as (u & tr3 & Hz & H).
      apply sleep_adds in Hz as [Hz1 Hz2].
      apply IH in H as (k & Hk & Hsl & Hc).
      exists (S k). repeat split; [lia | | lia].
      rewrite Hsl, Hz2, Hs2, Hn2, <- app_assoc. reflexivity.
  - apply get_pr_status_polls in H as [H1 H2].
    exists 0%nat. simpl. rewrite app_nil_r. repeat split; [lia | congruence | lia].
Qed.

(** X5.  When [wait_for_ci_completion] returns a status it has polled
    once more than it has slept: every sleep lasts [poll_interval]
    seconds and is followed by another poll. *)
Theorem X5_wait_sleeps_between_polls rounds url pr timeout interval tr status tr' :
  wait_for_ci_completion env rounds url pr timeout interval tr = (Returned status, tr') ->
  exists k,
    sleeps tr' = sleeps tr ++ repeat interval k
    /\ count TGetPrStatus tr' = (S k + count TGetPrStatus tr)%nat.
Proof.
  unfold wait_for_ci_completion. intros H.
  apply bind_inv in H as (u & tr0 & He & H). injection He as <- <-.
  apply bind_inv in H as (start & tr1 & Hn & H).
  apply now_quiet in Hn as [Hn1 Hn2].
  apply wait_loop_polls in H as (k & _ & Hsl & Hc).
  exists k. split; [rewrite Hsl, Hn2; reflexivity|].
  rewrite Hc, Hn1. reflexivity.
Qed.

Lemma wait_loop_day_timeout n url pr timeout interval : forall start tr status tr',
  (86400 <= timeout)%Z ->
  wait_loop env n url pr start timeout interval tr = (Returned status, tr') ->
  String.eqb (state status) "pending" = false.
Proof.
  induction n as [|n IH]; intros start tr status tr' Hday H; simpl in H;
    apply bind_inv in H as (now & tr1 & Hn & H);
    assert (Hlt : (timedelta_seconds now start <? timeout)%Z = true)
      by (apply Z.ltb_lt; unfold timedelta_seconds;
          pose proof (Z.mod_pos_bound (now - start) 86400); lia);
    rewrite Hlt in H.
  - discriminate.
  - apply bind_inv in H as (status0 & tr2 & Hs & H).
    destruct (String.eqb (state status0) "pending") eqn:Hp; simpl in H.
    + apply bind_inv in H as (u & tr3 & Hz & H). eapply IH; eauto.
    + injection H as <- <-. exact Hp.
Qed.

(** X6.  The elapsed time is read as [timedelta.seconds], the seconds
    within the day, so it never reaches a timeout of a day or more: with
    [timeout_seconds >= 86400] the deadline never fires, and a status
    returned by [wait_for_ci_completion] is never [pending]. *)
Theorem X6_wait_day_timeout_never_pending rounds url pr timeout interval tr status tr' :
  (86400 <= timeout)%Z ->
  wait_for_ci_completion env rounds url pr timeout interval tr = (Returned status, tr') ->
  state status <> "pending".
Proof.
  unfold wait_for_ci_completion. intros Hday H.
  apply bind_inv in H as (u & tr0 & _ & H).
  apply bind_inv in H as (start & tr1 & _ & H).
  apply wait_loop_day_timeout in H; [|exact Hday].
  apply String.eqb_neq. exact H.
Qed.

(** X7.  With [timeout_seconds <= 0] the loop of [wait_for_ci_completion]
    is never entered: the status is polled at most once, at the
    deadline, without any sleep, and the wait comes to an end whatever
    the number of polls it is allowed. *)
Theorem X7_wait_without_timeout_polls_once rounds url pr timeout interval tr :
  (timeout <= 0)%Z ->
  wait_for_ci_completion env rounds url pr timeout interval tr
  = wait_for_ci_completion env 0 url pr timeout interval tr
  /\ sleeps (snd (wait_for_ci_completion env rounds url pr timeout interval tr)) = sleeps tr
  /\ (count TGetPrStatus (snd (wait_for_ci_completion env rounds url pr timeout interval tr))
      <= 1 + count TGetPrStatus tr)%nat
  /\ match fst (wait_for_ci_completion env rounds url pr timeout interval tr) with
     | Unfinished => False
     | _ => True
     end.
Proof.
  intros Hz.
  assert (Hloop : forall n start tr0,
             wait_loop env n url pr start timeout interval tr0
             = bind (call env Datetime_now) (fun _ => get_pr_status env url pr) tr0).
  { intros n start tr0. destruct n; simpl; unfold bind;
      destruct (call env Datetime_now tr0) as [[now|e|] tr1]; try reflexivity;
      (assert (Hge : (timedelta_seconds now start <? timeout)%Z = false)
        by (apply Z.ltb_ge; unfold timedelta_seconds;
            pose proof (Z.mod_pos_bound (now - start) 86400); lia));
      rewrite Hge; reflexivity. }
  assert (Hsame : forall n,
             wait_for_ci_completion env n url pr timeout interval tr
             = (enter (EvWaitForCi pr) ;;;
                call env Datetime_now ;;; call env Datetime_now ;;;
                get_pr_status env url pr) tr).
  { intros n. unfold wait_for_ci_completion.
    apply bind_ext. intros _ tr0. apply bind_ext. intros start tr1. apply Hloop. }
  split; [rewrite (Hsame rounds), (Hsame 0%nat); reflexivity|].
  rewrite (Hsame rounds). split; [|split].
  - match goal with |- sleeps (snd (?m tr)) = _ => assert (Hq : quiet
        (fun e => match e with EvCall c => is_sleep c | _ => [] end) m) end.
    { unfold get_pr_status, get_repository. repeat quiet_step. }
    apply Hq.
  - match goal with |- (count _ (snd (?m tr)) <= _)%nat =>
        assert (Ha : adds_at_most TGetPrStatus 1 m) end.
    { apply (@adds_bind _ _ TGetPrStatus 0 1).
      { apply adds_none with (ts := [TWaitForCi]); [apply emits_enter|]; reflexivity. }
      intros _. apply (@adds_bind _ _ TGetPrStatus 0 1).
      { apply adds_none with (ts := [TCall]); [apply emits_call|]; reflexivity. }
      intros _. apply (@adds_bind _ _ TGetPrStatus 0 1).
      { apply adds_none with (ts := [TCall]); [apply emits_call|]; reflexivity. }
      intros _ tr0. destruct (get_pr_status env url pr tr0) as [o tr1] eqn:E.
      apply get_pr_status_polls in E as [E _]. simpl. lia. }
    apply Ha.
  - match goal with |- match fst (?m tr) with _ => _ end =>
        assert (He : ends (fun _ => True) m) end.
    { repeat first [apply get_pr_status_ends | ends_step]. }
    specialize (He tr). destruct (fst _); auto.
Qed.

(** *** Writing to the repository *)

(** X8.  What [create_branch] asks of the repository, by the answers it
    gets.  It looks up [heads/<base>]; it looks up [heads/master] after
    that when, and only when, the first lookup fails with a
    [GithubException]: any other failure of the first lookup is raised
    at once.  With the commit a lookup answered it asks for one
    reference to be created, [refs/heads/<new_branch_name>] at that
    commit, and returns the name it was given; a failure of the
    repository lookup, of the second reference lookup or of the creation
    is raised, and nothing is created without a commit to point to. *)
Theorem X8_create_branch_asks_for_one_ref url base name tr :
  exists reads created,
    refs_read (snd (create_branch env url base name tr)) = refs_read tr ++ reads
    /\ refs_created (snd (create_branch env url base name tr)) = refs_created tr ++ created
    /\ match @env unit (1 + List.length tr) (Github_get_repo url) with
       | inl g =>
           reads = [] /\ created = []
           /\ fst (create_branch env url base name tr) = Raised (exn_of_gw g)
       | inr _ =>
           match @env string (2 + List.length tr)
                   (Repo_get_git_ref ("heads/" ++ base)) with
           | inr sha =>
               reads = [("heads/" ++ base)%string]
               /\ created = [(("refs/heads/" ++ name)%string, sha)]
               /\ fst (create_branch env url base name tr)
                  = match @env unit (3 + List.length tr)
                            (Repo_create_git_ref ("refs/heads/" ++ name) sha) with
                    | inr _ => Returned name
                    | inl g => Raised (exn_of_gw g)
                    end
           | inl (GwGithub _) =>
               match @env string (3 + List.length tr) (Repo_get_git_ref "heads/master") with
               | inr sha =>
                   reads = [("heads/" ++ base)%string; "heads/master"]
                   /\ created = [(("refs/heads/" ++ name)%string, sha)]
                   /\ fst (create_branch env url base name tr)
                      = match @env unit (4 + List.length tr)
                                (Repo_create_git_ref ("refs/heads/" ++ name) sha) with
                        | inr _ => Returned name
                        | inl g => Raised (exn_of_gw g)
                        end
               | inl g =>
                   reads = [("heads/" ++ base)%string; "heads/master"]
                   /\ created = []
                   /\ fst (create_branch env url base name tr) = Raised (exn_of_gw g)
               end
           | inl (GwOther m) =>
               reads = [("heads/" ++ base)%string] /\ created = []
               /\ fst (create_branch env url base name tr) = Raised (exn_of_gw (GwOther m))
           end
       end.
Proof.
  unfold create_branch, get_repository, bind, enter, try_except, call. simpl.
  destruct (@env unit _ (Github_get_repo url)) as [g|u]; simpl.
  { exists [], []. repeat split; try read_off; auto. }
  destruct (@env string _ (Repo_get_git_ref _)) as [[m|m]|sha]; simpl.
  - destruct (@env string _ (Repo_get_git_ref _)) as [g|sha]; simpl.
    + eexists _, []. repeat split; try read_off; auto.
    + destruct (@env unit _ (Repo_create_git_ref _ _)) as [g|u']; simpl;
        eexists _, _; repeat split; try read_off; auto.
  - eexists _, []. repeat split; try read_off; auto.
  - destruct (@env unit _ (Repo_create_git_ref _ _)) as [g|u']; simpl;
      eexists _, _; repeat split; try read_off; auto.
Qed.

Lemma commit_file_changes_asks url branch path content message tr :
  exists ws,
    file_writes (snd (commit_file_changes env url branch path content message tr))
    = file_writes tr ++ ws
    /\ Forall (fun w => write_target w = (path, message, content, branch)) ws
    /\ match fst (commit_file_changes env url branch path content message tr) with
       | Returned _ => (1 <= List.length ws)%nat
       | _ => True
       end.
Proof.
  unfold commit_file_changes, get_repository, bind, enter, try_except, call. simpl.
  destruct (@env unit _ (Github_get_repo url)) as [g|u]; simpl.
  { exists []. repeat split; try read_off; auto. }
  destruct (@env Contents _ (Repo_get_contents _ _)) as [[m|m]|[| |enc text sha]]; simpl;
    repeat match goal with
           | |- context [@env ?T ?n ?c] => destruct (@env T n c) as [[?|?]|?]; simpl
           end;
    eexists; repeat split; try read_off; repeat constructor; auto.
Qed.

(** X9.  Every write [commit_file_changes] asks for carries the path,
    the message, the content and the branch it was given.  It writes at
    most twice, and then with an update of the existing file followed
    by the creation of the file; when it returns it has written. *)
Theorem X9_commit_file_changes_writes_what_it_is_given url branch path content message tr :
  exists ws,
    file_writes (snd (commit_file_changes env url branch path content message tr))
    = file_writes tr ++ ws
    /\ Forall (fun w => write_target w = (path, message, content, branch)) ws
    /\ match ws with
       | [] | [_] | [Updated _ _ _ _ _; Created _ _ _ _] => True
       | _ => False
       end
    /\ match fst (commit_file_changes env url branch path content message tr) with
       | Returned _ => (1 <= List.length ws)%nat
       | _ => True
       end.
Proof.
  unfold commit_file_changes, get_repository, bind, enter, try_except, call. simpl.
  destruct (@env unit _ (Github_get_repo url)) as [g|u]; simpl.
  { exists []. repeat split; try read_off; auto. }
  destruct (@env Contents _ (Repo_get_contents _ _)) as [[m|m]|[| |enc text sha]]; simpl;
    repeat match goal with
           | |- context [@env ?T ?n ?c] => destruct (@env T n c) as [[?|?]|?]; simpl
           end;
    eexists; repeat split; try read_off; repeat constructor; auto.
Qed.

(** X10.  What [create_pull_request] asks of the repository, by the
    answers it gets.  It asks for the pull request with the base it was
    given and returns the pull request it is answered.  It asks once
    more, with the base [master] and the same title, body and head,
    when, and only when, the first request fails with a
    [GithubException], and then returns or raises what the second
    request gives; any other failure of the first request is raised at
    once, without a second request. *)
Theorem X10_create_pull_request_retries_on_master url title body head base tr :
  exists asked,
    pulls_asked (snd (create_pull_request env url title body head base tr))
    = pulls_asked tr ++ asked
    /\ match @env unit (1 + List.length tr) (Github_get_repo url) with
       | inl g =>
           asked = []
           /\ fst (create_pull_request env url title body head base tr)
              = Raised (exn_of_gw g)
       | inr _ =>
           match @env PullRequest (2 + List.length tr)
                   (Repo_create_pull title body head base) with
           | inr pr =>
               asked = [(title, body, head, base)]
               /\ fst (create_pull_request env url title body head base tr) = Returned pr
           | inl (GwGithub _) =>
               asked = [(title, body, head, base); (title, body, head, "master")]
               /\ fst (create_pull_request env url title body head base tr)
                  = match @env PullRequest (3 + List.length tr)
                            (Repo_create_pull title body head "master") with
                    | inr pr => Returned pr
                    | inl g => Raised (exn_of_gw g)
                    end
           | inl (GwOther m) =>
               asked = [(title, body, head, base)]
               /\ fst (create_pull_request env url title body head base tr)
                  = Raised (exn_of_gw (GwOther m))
           end
       end.
Proof.
  unfold create_pull_request, get_repository, bind, enter, try_except, call. simpl.
  destruct (@env unit _ (Github_get_repo url)) as [g|u]; simpl.
  { exists []. repeat split; try read_off; auto. }
  destruct (@env PullRequest _ (Repo_create_pull _ _ _ base)) as [[m|m]|p]; simpl.
  - destruct (@env PullRequest _ (Repo_create_pull _ _ _ "master")) as [g|p]; simpl;
      eexists; repeat split; try read_off; auto.
  - eexists; repeat split; try read_off; auto.
  - eexists; repeat split; try read_off; auto.
Qed.
End MoreGitHubFacts.

(** ** [github_service.py]: [get_files_by_extensions] *)

Section FilesFacts.
Import Py World Observe Readers GitHubService GitHubServiceFiles.
Variable env : Env.
Variable b64 : string -> option string.

Lemma collect_files_result url exts max_files branch tree :
  forall fc tr files tr',
    collect_files env b64 url exts max_files branch tree fc tr = (Returned files, tr') ->
    (Z.of_nat (List.length fc) <= Z.max 0 (max_files - 1))%Z ->
    List.NoDup (map fst fc) ->
    Forall (fun entry => existsb (endswith (fst entry)) exts = true
                         /\ truthy (snd entry) = true) fc ->
    (Z.of_nat (List.length files) <= Z.max 1 max_files)%Z
    /\ List.NoDup (map fst files)
    /\ Forall (fun entry => existsb (endswith (fst entry)) exts = true
                            /\ truthy (snd entry) = true) files.
Proof.
  induction tree as [|item rest IH]; intros fc tr files tr' H Hlen Hnd Hall; simpl in H.
  - unfold ret in H. injection H as <- <-. split; [lia | split; assumption].
  - destruct (String.eqb (fi_type item) "blob"); [|eapply IH; eauto].
    destruct (existsb _ exts) eqn:Hext; [|eapply IH; eauto].
    apply bind_inv in H as (content & tr1 & _ & H).
    set (fc' := if truthy_opt content
                then odict_set (fi_path item) (default empty content) fc else fc) in *.
    assert (Hlen' : (List.length fc' <= S (List.length fc))%nat).
    { subst fc'. destruct (truthy_opt content); [apply odict_set_length | lia]. }
    assert (Hnd' : List.NoDup (map fst fc')).
    { subst fc'. destruct (truthy_opt content); [apply odict_set_NoDup|]; assumption. }
    assert (Hall' : Forall (fun entry => existsb (endswith (fst entry)) exts = true
                                         /\ truthy (snd entry) = true) fc').
    { subst fc'. destruct content as [s|]; simpl; [|assumption].
      destruct (truthy s) eqn:Ht; [|assumption].
      apply (@odict_set_Forall _ (fun k => existsb (endswith k) exts = true)
               (fun v => truthy v = true)); assumption. }
    destruct (max_files <=? Z.of_nat (List.length fc'))%Z eqn:Hfull.
    + unfold ret in H. injection H as <- <-. split; [lia | split; assumption].
    + apply Z.leb_gt in Hfull. eapply IH; eauto. lia.
Qed.

(** X11.  The dict returned by [get_files_by_extensions] has at most
    [max_files] entries, and at most one when [max_files] is zero or
    negative (the size is compared only after a file was fetched); its
    keys are distinct paths that end with one of the extensions, and
    no content in it is empty. *)
Theorem X11_get_files_by_extensions_bounded url exts max_files branch tr files tr' :
  get_files_by_extensions env b64 url exts max_files branch tr = (Returned files, tr') ->
  (Z.of_nat (List.length files) <= Z.max 1 max_files)%Z
  /\ List.NoDup (map fst files)
  /\ Forall (fun entry => existsb (endswith (fst entry)) exts = true
                          /\ truthy (snd entry) = true) files.
Proof.
  unfold get_files_by_extensions. intros H.
  apply bind_inv in H as (tree & tr1 & _ & H).
  eapply collect_files_result; [exact H | simpl; lia | apply List.NoDup_nil | constructor].
Qed.

End FilesFacts.

(** ** [gemini_service.py]: scouting, analysis and correction *)

Section MoreGeminiFacts.
Import Py World Observe Readers GeminiService.
Variable env : Env.
Variable prompts : Prompts.
Variable json : JsonReader.

Lemma filter_sublist {A} (f : A -> bool) (l : list A) : sublist (List.filter f l) l.
Proof.
  induction l as [|x l IH]; simpl; [constructor|].
  destruct (f x); [apply sublist_skip | apply sublist_cons]; exact IH.
Qed.

(** X12.  The fallback list of [scout_files] has at most 10 paths; they
    are paths of the file tree, in the order of the tree; none of them
    holds [node_modules], and each of them holds, in lower case, one of
    the markers of a web source file. *)
Theorem X12_scout_fallback_is_a_short_selection file_tree :
  (List.length (scout_fallback file_tree) <= 10)%nat
  /\ sublist (scout_fallback file_tree) file_tree
  /\ Forall (fun path =>
               contains "node_modules" path = false
               /\ existsb (fun ext => contains ext (lower path)) web_markers = true)
       (scout_fallback file_tree).
Proof.
  unfold scout_fallback, Py.take. split; [apply firstn_le_length|]. split.
  - etransitivity; [apply sublist_take | apply filter_sublist].
  - apply Forall_take. apply List.Forall_forall. intros path Hin.
    apply List.filter_In in Hin as [_ Hin]. apply andb_true_iff in Hin as [H1 H2].
    apply negb_true_iff in H2. split; assumption.
Qed.

Lemma scout_prompt_first_paths file_tree d :
  scout_prompt prompts file_tree d = scout_prompt prompts (Py.take 100 file_tree) d.
Proof.
  unfold scout_prompt, Py.take. rewrite firstn_firstn. reflexivity.
Qed.

(** X13.  [scout_files] asks the model once, with a prompt that lists
    the first 100 paths of the file tree only, and it raises only when
    that call raises.  When the model answers, it returns the
    [relevant_files] of the parsed reply (the empty list when the key
    is missing), and the fallback list, drawn from the whole tree, when
    the response has no text or no JSON can be read from it. *)
Theorem X13_scout_files_absorbs_unreadable_replies file_tree d tr :
  fst (scout_files env prompts json file_tree d tr)
  = match @env _ (S (List.length tr))
            (Model_generate_content
               [PText (scout_prompt prompts (Py.take 100 file_tree) d)]) with
    | inl g => Raised (exn_of_gw g)
    | inr None => Returned (scout_fallback file_tree)
    | inr (Some text) =>
        Returned (match loads_scout json text with
                  | Some result => default [] (relevant_files result)
                  | None => scout_fallback file_tree
                  end)
    end
  /\ model_calls (snd (scout_files env prompts json file_tree d tr))
     = model_calls tr ++ [[PText (scout_prompt prompts (Py.take 100 file_tree) d)]].
Proof.
  rewrite <- scout_prompt_first_paths.
  unfold scout_files, bind, enter, try_except, call, response_text, _parse_json_response.
  simpl.
  destruct (@env (option string) _ _) as [g|[text|]]; simpl;
    try (split; [reflexivity | read_off]).
  destruct (loads_scout json text); split; try reflexivity; read_off.
Qed.

(** *** The analysis *)

Lemma encode_images_parts paths : forall tr,
  exists images,
    fst (encode_images env paths tr) = Returned images
    /\ model_calls (snd (encode_images env paths tr)) = model_calls tr
    /\ (List.length images <= List.length paths)%nat
    /\ forallb is_image images = true.
Proof.
  induction paths as [|p rest IH]; intros tr; simpl.
  - exists []. repeat split; auto.
  - unfold bind, try_except, call, ret.
    destruct (@env ImageData (List.length tr) (Encode_image p)) as [g|img]; simpl;
      destruct (IH (EvCall (Encode_image p) :: tr)) as (images & E & Q & L & F);
      destruct (encode_images env rest (EvCall (Encode_image p) :: tr)) as [o tr1];
      simpl in E, Q; subst o; simpl.
    + exists images. repeat split; [exact Q | lia | exact F].
    + exists (PImage img :: images). repeat split; [exact Q | simpl; lia | exact F].
Qed.

(** X14.  [analyze_vibe] asks the model exactly once, however it ends.
    The request holds the prompt followed by image parts only, at most
    one per image path: an image that cannot be encoded is left out and
    the analysis goes on without it. *)
Theorem X14_analyze_vibe_asks_model_once ctx d imgs tr :
  exists images,
    model_calls (snd (analyze_vibe env prompts json ctx d imgs tr))
    = model_calls tr ++ [PText (analysis_prompt prompts ctx d) :: images]
    /\ (List.length images <= List.length (default [] imgs))%nat
    /\ forallb is_image images = true.
Proof.
  unfold analyze_vibe.
  erewrite bind_returned by reflexivity.
  assert (Himg : exists images,
             fst ((match imgs with
                   | Some paths => encode_images env paths
                   | None => ret []
                   end) (EvAnalyzeVibe ctx d imgs :: tr)) = Returned images
             /\ model_calls (snd ((match imgs with
                                   | Some paths => encode_images env paths
                                   | None => ret []
                                   end) (EvAnalyzeVibe ctx d imgs :: tr)))
                = model_calls (EvAnalyzeVibe ctx d imgs :: tr)
             /\ (List.length images <= List.length (default [] imgs))%nat
             /\ forallb is_image images = true).
  { destruct imgs as [paths|]; [apply encode_images_parts|].
    exists []. repeat split; auto. }
  destruct Himg as (images & E & Q & L & F).
  exists images. split; [|split; assumption].
  unfold bind at 1.
  destruct ((match imgs with
             | Some paths => encode_images env paths
             | None => ret []
             end) (EvAnalyzeVibe ctx d imgs :: tr)) as [o tr1].
  simpl in E, Q. subst o.
  unfold bind, call, response_text, _parse_json_response.
  destruct (@env (option string) _ _) as [g|[text|]]; simpl;
    try destruct (loads_analysis json text); simpl;
    unfold model_calls in *; rewrite collect_cons, Q, collect_cons; simpl;
    rewrite app_nil_r; reflexivity.
Qed.

Lemma fill_correction_lookup (parsed : gmap string string) :
  fill_correction parsed !! "error_analysis"
  = Some (default "Unknown error" (parsed !! "error_analysis"))
  /\ fill_correction parsed !! "changes_made"
     = Some (default empty (parsed !! "changes_made")).
Proof.
  unfold fill_correction, correction_fields.
  cbn [fold_left String.eqb Ascii.eqb Bool.eqb negb].
  split; repeat case_match; simplify_map_eq; reflexivity.
Qed.

(** X15.  [self_correct] completes the parsed reply without changing
    it: every key of the reply keeps its value, a missing
    [error_analysis] reads [Unknown error] and a missing [changes_made]
    is the empty string.  So the commit message the verification loop
    builds from a correction never shows its own placeholder [N/A]. *)
Theorem X15_fill_correction_keeps_the_reply (parsed : gmap string string) :
  parsed ⊆ fill_correction parsed
  /\ fill_correction parsed !! "error_analysis"
     = Some (default "Unknown error" (parsed !! "error_analysis"))
  /\ fill_correction parsed !! "changes_made"
     = Some (default empty (parsed !! "changes_made"))
  /\ fill_correction (fill_correction parsed) = fill_correction parsed
  /\ forall iteration,
       VerificationLoopService.commit_message iteration (fill_correction parsed)
       = ("fix: Auto-correct CI errors (iteration " ++ str_of_Z iteration ++ ")"
          ++ nl ++ nl
          ++ "Error analysis: " ++ default "Unknown error" (parsed !! "error_analysis")
          ++ nl
          ++ "Changes: " ++ default empty (parsed !! "changes_made"))%string.
Proof.
  split; [|split; [apply fill_correction_lookup|split; [apply fill_correction_lookup|split]]].
  3: { intros iteration. unfold VerificationLoopService.commit_message.
       destruct (fill_correction_lookup parsed) as [-> ->]. reflexivity. }
  - unfold fill_correction, correction_fields.
    cbn [fold_left String.eqb Ascii.eqb Bool.eqb negb].
    repeat case_match; try reflexivity;
      repeat (etransitivity; [|apply insert_subseteq; eassumption]); reflexivity.
  - pose proof (fill_correction_lookup parsed) as [H1 H3].
    pose proof (fill_correction_code parsed) as H2.
    generalize dependent (fill_correction parsed). intros filled H1 H3 H2.
    unfold fill_correction, correction_fields.
    cbn [fold_left String.eqb Ascii.eqb Bool.eqb negb].
    rewrite H1, H2, H3. reflexivity.
Qed.

End MoreGeminiFacts.

(** ** [verification_service.py]: what a run of the loop leaves behind *)

Section MoreLoopFacts.
Import Py World Observe Readers VerificationLoopService LoopRuns.
Variable env : Env.
Variable prompts : GeminiService.Prompts.
Variable json : GeminiService.JsonReader.
Variable self : t.
Variable rounds : nat.
Variables (repo_url : string) (pr_number : Z) (branch file_path : string).

Abbreviation wait := (GitHubService.wait_for_ci_completion env rounds repo_url pr_number
                    (poll_timeout self) (poll_interval self)).
Abbreviation logs_of := (GitHubService.get_check_logs env repo_url pr_number).
Abbreviation correct := (GeminiService.self_correct env prompts json).
Abbreviation recommit := (recommit env repo_url branch file_path).
Abbreviation pass_ := (pass env prompts json self rounds repo_url pr_number branch file_path).
Abbreviation loop_ := (while_loop env prompts json self rounds repo_url pr_number branch file_path).
Abbreviation run_ :=
  (run_verification_loop env prompts json self rounds repo_url pr_number branch file_path).

(** X16.  With a budget [max_iterations <= 0] the loop body never runs:
    the result reports [timeout] after 0 iterations, with the original
    code and no logs, and nothing was asked of GitHub or of the model. *)
Theorem X16_loop_without_budget_does_nothing original_code tr :
  (max_iterations self <= 0)%Z ->
  run_ original_code tr = (Returned (exhausted self 0 original_code []), tr).
Proof.
  intros Hmax. unfold run_verification_loop.
  assert (Hc : (0 <? max_iterations self)%Z = false) by (apply Z.ltb_ge; exact Hmax).
  destruct (Z.to_nat (max_iterations self)); simpl; rewrite Hc; reflexivity.
Qed.

(** The readers of corrections and commits and the capabilities. *)
Lemma corrections_skip ts :
  mem TSelfCorrect ts = false ->
  forall e, mem (tag e) ts = true ->
            match e with
            | EvSelfCorrect code logs path => [(code, logs, path)]
            | _ => []
            end = [].
Proof. intros Hout e He. destruct e; try reflexivity. simpl in He. congruence. Qed.

Lemma commits_skip ts :
  mem TCommitFileChanges ts = false ->
  forall e, mem (tag e) ts = true ->
            match e with
            | EvCommitFileChanges _ _ content _ => [content]
            | _ => []
            end = [].
Proof. intros Hout e He. destruct e; try reflexivity. simpl in He. congruence. Qed.

Lemma wait_reads tr o tr' :
  wait tr = (o, tr') ->
  corrections_asked tr' = corrections_asked tr
  /\ committed_contents tr' = committed_contents tr
  /\ count TSelfCorrect tr' = count TSelfCorrect tr
  /\ count TCommitFileChanges tr' = count TCommitFileChanges tr.
Proof.
  intros H. pose proof (wait_for_ci_completion_emits env rounds repo_url pr_number
                          (poll_timeout self) (poll_interval self)) as He.
  repeat split.
  - eapply quiet_run; [|exact H]. eapply emits_quiet; [|exact He].
    apply corrections_skip. reflexivity.
  - eapply quiet_run; [|exact H]. eapply emits_quiet; [|exact He].
    apply commits_skip. reflexivity.
  - eapply run_count; [exact He | reflexivity | exact H].
  - eapply run_count; [exact He | reflexivity | exact H].
Qed.

Lemma logs_reads tr o tr' :
  logs_of tr = (o, tr') ->
  corrections_asked tr' = corrections_asked tr
  /\ committed_contents tr' = committed_contents tr
  /\ count TSelfCorrect tr' = count TSelfCorrect tr
  /\ count TCommitFileChanges tr' = count TCommitFileChanges tr.
Proof.
  intros H. pose proof (get_check_logs_emits env repo_url pr_number) as He.
  repeat split.
  - eapply quiet_run; [|exact H]. eapply emits_quiet; [|exact He].
    apply corrections_skip. reflexivity.
  - eapply quiet_run; [|exact H]. eapply emits_quiet; [|exact He].
    apply commits_skip. reflexivity.
  - eapply run_count; [exact He | reflexivity | exact H].
  - eapply run_count; [exact He | reflexivity | exact H].
Qed.

Lemma correct_reads code logs tr o tr' :
  correct code logs file_path tr = (o, tr') ->
  corrections_asked tr' = corrections_asked tr ++ [(code, logs, file_path)]
  /\ committed_contents tr' = committed_contents tr
  /\ count TSelfCorrect tr' = S (count TSelfCorrect tr)
  /\ count TCommitFileChanges tr' = count TCommitFileChanges tr.
Proof.
  intros H. pose proof (self_correct_emits env prompts json code logs file_path) as He.
  repeat split.
  - unfold GeminiService.self_correct in H.
    match type of H with
    | bind (enter ?ev) ?k tr = _ =>
        change (k tt (ev :: tr) = (o, tr')) in H;
        assert (Hq : quiet (fun e => match e with
                                     | EvSelfCorrect code logs path => [(code, logs, path)]
                                     | _ => []
                                     end) (k tt))
    end.
    { unfold GeminiService.response_text, GeminiService._parse_json_response.
      repeat quiet_step. }
    cbv beta in H, Hq. unfold corrections_asked.
    rewrite (@quiet_run _ _ _ _ _ _ _ Hq H), collect_cons. reflexivity.
  - eapply quiet_run; [|exact H]. eapply emits_quiet; [|exact He].
    apply commits_skip. reflexivity.
  - unfold GeminiService.self_correct in H.
    eapply run_entered_count with (t := TSelfCorrect) (ts := [TCall; TModel]) in H;
      [exact H | | reflexivity].
    repeat first [apply _parse_json_response_emits | apply response_text_emits | emits_step].
  - eapply run_count; [exact He | reflexivity | exact H].
Qed.

Lemma recommit_reads i code logs correction tr o tr' :
  recommit i code logs correction tr = (o, tr') ->
  corrections_asked tr' = corrections_asked tr
  /\ committed_contents tr'
     = committed_contents tr ++ [default code (correction !! "corrected_code")]
  /\ count TSelfCorrect tr' = count TSelfCorrect tr
  /\ count TCommitFileChanges tr' = S (count TCommitFileChanges tr).
Proof.
  intros H. pose proof (recommit_emits env repo_url branch file_path i code logs correction)
    as He.
  repeat split.
  - eapply quiet_run; [|exact H]. eapply emits_quiet; [|exact He].
    apply corrections_skip. reflexivity.
  - unfold VerificationLoopService.recommit, GitHubService.commit_file_changes in H.
    match type of H with
    | bind (bind (enter ?ev) ?k1) ?k2 tr = _ =>
        change (bind (k1 tt) k2 (ev :: tr) = (o, tr')) in H;
        assert (Hq : quiet (fun e => match e with
                                     | EvCommitFileChanges _ _ content _ => [content]
                                     | _ => []
                                     end) (bind (k1 tt) k2))
    end.
    { unfold GitHubService.get_repository. repeat quiet_step. }
    cbv beta in H, Hq. unfold committed_contents.
    rewrite (@quiet_run _ _ _ _ _ _ _ Hq H), collect_cons. reflexivity.
  - eapply run_count; [exact He | reflexivity | exact H].
  - unfold VerificationLoopService.recommit, GitHubService.commit_file_changes in H.
    match type of H with
    | bind (bind (enter ?ev) ?k1) ?k2 tr = _ =>
        change (bind (k1 tt) k2 (ev :: tr) = (o, tr')) in H;
        assert (Hk : emits [TCall; TWrite] (bind (k1 tt) k2))
    end.
    { unfold GitHubService.get_repository. repeat emits_step. }
    cbv beta in H, Hk.
    rewrite (@run_count _ TCommitFileChanges _ _ _ _ _ Hk eq_refl H). reflexivity.
Qed.

Abbreviation pass_run :=
  (LoopRuns.pass_run env prompts json self rounds repo_url pr_number branch file_path).

(** Collect what each step of a pass leaves in the trace. *)
Ltac reads :=
  repeat match goal with
  | H : GitHubService.wait_for_ci_completion _ _ _ _ _ _ _ = _ |- _ =>
      apply wait_reads in H; destruct H as (? & ? & ? & ?)
  | H : GitHubService.get_check_logs _ _ _ _ = _ |- _ =>
      apply logs_reads in H; destruct H as (? & ? & ? & ?)
  | H : GeminiService.self_correct _ _ _ _ _ _ _ = _ |- _ =>
      apply correct_reads in H; destruct H as (? & ? & ? & ?)
  | H : VerificationLoopService.recommit _ _ _ _ _ _ _ _ _ = _ |- _ =>
      apply recommit_reads in H; destruct H as (? & ? & ? & ?)
  end.

Lemma pass_asks i code tr :
  exists asked,
    corrections_asked (snd (pass_ i code tr)) = corrections_asked tr ++ asked
    /\ Forall (fun c => (exists l ls, snd (fst c) = l :: ls) /\ snd c = file_path) asked.
Proof.
  pose proof (pass_inv env prompts json self rounds repo_url pr_number branch file_path
                i code tr) as H.
  destruct (pass_ i code tr) as [o tr']. simpl in *.
  inversion H; subst; clear H; reads;
    first [ exists []; split; [rewrite app_nil_r; congruence | constructor]
          | exists [(code, l :: ls, file_path)]; split;
            [congruence | repeat constructor; simpl; eauto] ].
Qed.

Lemma loop_asks fuel : forall i code logs tr,
  exists asked,
    corrections_asked (snd (loop_ fuel i code logs tr)) = corrections_asked tr ++ asked
    /\ Forall (fun c => (exists l ls, snd (fst c) = l :: ls) /\ snd c = file_path) asked.
Proof.
  induction fuel as [|fuel IH]; intros i code logs tr; simpl;
    destruct (i <? max_iterations self)%Z;
    try (exists []; split; [symmetry; apply app_nil_r | constructor]; fail).
  destruct (pass_asks (i + 1)%Z code tr) as (asked & E & F).
  unfold bind.
  destruct (pass_ (i + 1)%Z code tr) as [[[r|code1 logs1]|e|] tr1]; simpl in E;
    try (exists asked; split; assumption).
  destruct (IH (i + 1)%Z code1 logs1 tr1) as (asked' & E' & F').
  exists (asked ++ asked'). split.
  - rewrite E', E, app_assoc. reflexivity.
  - apply Forall_app. split; assumption.
Qed.

(** X17.  The verification loop never asks for a correction without
    diagnostics: every correction request of a run, however the run
    ends, carries at least one failed-check log, and is about the file
    the loop was started for. *)
Theorem X17_loop_corrects_only_with_logs original_code tr :
  exists asked,
    corrections_asked (snd (run_ original_code tr)) = corrections_asked tr ++ asked
    /\ Forall (fun c => (exists l ls, snd (fst c) = l :: ls) /\ snd c = file_path) asked.
Proof. unfold run_verification_loop. apply loop_asks. Qed.

Lemma pass_returned i code tr p tr' :
  pass_ i code tr = (Returned p, tr') ->
  match p with
  | Return r =>
      committed_contents tr' = committed_contents tr
      /\ count TSelfCorrect tr' = count TSelfCorrect tr
      /\ count TCommitFileChanges tr' = count TCommitFileChanges tr
      /\ corrected_code r = Some code
      /\ success r = String.eqb (final_status r) "success"
      /\ is_Some_bool (error_message r) = negb (success r)
      /\ (if success r then error_logs r = CheckLogs [] else True)
  | Next code' _ =>
      committed_contents tr' = committed_contents tr ++ [code']
      /\ count TSelfCorrect tr' = S (count TSelfCorrect tr)
      /\ count TCommitFileChanges tr' = S (count TCommitFileChanges tr)
  end.
Proof.
  intros Hrun.
  pose proof (pass_inv env prompts json self rounds repo_url pr_number branch file_path
                i code tr) as H.
  rewrite Hrun in H. simpl in H.
  inversion H; subst; clear H;
    try match goal with
        | E : match ?o with _ => _ end = Returned _ |- _ => destruct o; discriminate
        end;
    try match goal with
        | E : VerificationLoopService.recommit _ _ _ _ _ _ _ _ _ = (Returned _, _) |- _ =>
            pose proof (recommit_returns _ _ _ _ _ _ _ _ _ E); subst
        end;
    reads; simpl;
    try match goal with
        | E : String.eqb _ "success" = false |- _ => rewrite E
        end;
    repeat split; congruence.
Qed.

Lemma last_cons {A} (a d : A) l : List.last (a :: l) d = List.last l a.
Proof.
  revert a d. induction l as [|b l IH]; intros a d; [reflexivity|].
  change (List.last (a :: b :: l) d) with (List.last (b :: l) d).
  rewrite (IH b d), (IH b a). reflexivity.
Qed.

Lemma loop_returned fuel : forall i code logs tr r tr',
  loop_ fuel i code logs tr = (Returned r, tr') ->
  (exists cs,
     committed_contents tr' = committed_contents tr ++ cs
     /\ corrected_code r = Some (List.last cs code)
     /\ (count TSelfCorrect tr' = List.length cs + count TSelfCorrect tr)%nat
     /\ (count TCommitFileChanges tr' = List.length cs + count TCommitFileChanges tr)%nat)
  /\ success r = String.eqb (final_status r) "success"
  /\ is_Some_bool (error_message r) = negb (success r)
  /\ (if success r then error_logs r = CheckLogs [] else True).
Proof.
  induction fuel as [|fuel IH]; intros i code logs tr r tr' Hrun; simpl in Hrun;
    destruct (i <? max_iterations self)%Z; try discriminate;
    try (injection Hrun as <- <-; simpl; split; [|auto];
         exists []; simpl; rewrite app_nil_r; auto).
  apply bind_inv in Hrun as (p & tr1 & Hp & Hrun).
  apply pass_returned in Hp.
  destruct p as [r1|code1 logs1].
  - injection Hrun as <- <-. destruct Hp as (H1 & H2 & H3 & H4 & H5 & H6 & H7).
    split; [|auto]. exists []. simpl. rewrite app_nil_r. auto.
  - destruct Hp as (H1 & H2 & H3).
    apply IH in Hrun as ((cs & E1 & E2 & E3 & E4) & Hs).
    split; [|exact Hs]. exists (code1 :: cs).
    rewrite last_cons. simpl.
    repeat split; [rewrite E1, H1, <- app_assoc; reflexivity | exact E2 | lia | lia].
Qed.

(** X18.  The code a returned result carries is the code on the branch:
    [corrected_code] is the content of the last commit the loop made,
    and the original code when it made none.  The run committed once
    for each correction it asked for. *)
Theorem X18_loop_returns_last_committed_code original_code tr r tr' :
  run_ original_code tr = (Returned r, tr') ->
  exists cs,
    committed_contents tr' = committed_contents tr ++ cs
    /\ corrected_code r = Some (List.last cs original_code)
    /\ calls_during TSelfCorrect tr tr' = Z.of_nat (List.length cs)
    /\ calls_during TCommitFileChanges tr tr' = Z.of_nat (List.length cs).
Proof.
  unfold run_verification_loop, calls_during. intros H.
  apply loop_returned in H as ((cs & E1 & E2 & E3 & E4) & _).
  exists cs. repeat split; [exact E1 | exact E2 | lia | lia].
Qed.

(** X19.  In every returned result the [success] flag goes with the
    final status [success], an error message is present exactly when
    the flag is off, and a successful result carries no error logs. *)
Theorem X19_loop_result_is_consistent original_code tr r tr' :
  run_ original_code tr = (Returned r, tr') ->
  success r = String.eqb (final_status r) "success"
  /\ is_Some_bool (error_message r) = negb (success r)
  /\ (if success r then error_logs r = CheckLogs [] else True).
Proof.
  unfold run_verification_loop. intros H.
  apply loop_returned in H as (_ & Hs). exact Hs.
Qed.

(** C10.  Whenever the correction capability returns in a pass of the
    verification loop, its result holds the key [corrected_code]: the
    value the model's parsed reply gave, or the empty string when the
    reply omitted the field.  So the working code adopted is that value,
    never the unchanged current code by way of a missing key, and it is
    the content handed to the commit and written to the repository:
    every [update_file] and [create_file] the pass asks for carries it
    as the content of [file_path] on the branch, and a pass that goes on
    to the next iteration has asked for such a write.  After an omission
    that content is the empty string. *)
Theorem C10_missing_code_becomes_empty i code tr status tr1 l ls tr2 correction tr3 :
  wait tr = (Returned status, tr1) ->
  String.eqb (GitHubService.state status) "success" = false ->
  logs_of tr1 = (Returned (l :: ls), tr2) ->
  GeminiService.self_correct env prompts json code (l :: ls) file_path tr2
    = (Returned correction, tr3) ->
  exists text parsed,
    @env (option string) (S (List.length tr2))
      (Model_generate_content
         [PText (GeminiService.correction_prompt prompts code (l :: ls) file_path)])
    = inr (Some text)
    /\ GeminiService.loads_correction json text = Some parsed
    /\ correction !! "corrected_code" = Some (default empty (parsed !! "corrected_code"))
    /\ (exists evs,
          snd (pass_ i code tr)
          = evs ++ EvCommitFileChanges branch file_path
                     (default empty (parsed !! "corrected_code"))
                     (commit_message i correction) :: tr3)
    /\ (exists ws,
          file_writes (snd (pass_ i code tr)) = file_writes tr3 ++ ws
          /\ Forall (fun w =>
                       write_target w
                       = (file_path, commit_message i correction,
                          default empty (parsed !! "corrected_code"), branch)) ws
          /\ forall c logs' tr4,
               pass_ i code tr = (Returned (Next c logs'), tr4) ->
               (1 <= List.length ws)%nat)
    /\ (forall c logs' tr4,
          pass_ i code tr = (Returned (Next c logs'), tr4) ->
          c = default empty (parsed !! "corrected_code")).
Proof.
  intros Hw Hs Hl Hc.
  destruct (@self_correct_inv env prompts json file_path _ _ _ _ _ Hc)
    as (text & parsed & Hg & Hp & ->).
  exists text, parsed.
  assert (Hpass : pass_ i code tr
                  = recommit i code (l :: ls) (GeminiService.fill_correction parsed) tr3).
  { unfold pass, bind. rewrite Hw, Hs, Hl, Hc. reflexivity. }
  repeat split; try assumption.
  - apply fill_correction_code.
  - rewrite Hpass.
    destruct (@recommit_trace env repo_url branch file_path i code (l :: ls)
                (GeminiService.fill_correction parsed) tr3) as [evs E].
    exists evs. rewrite E, fill_correction_code. reflexivity.
  - rewrite Hpass. unfold VerificationLoopService.recommit, bind.
    rewrite fill_correction_code. cbn [default from_option id].
    destruct (@commit_file_changes_asks env repo_url branch file_path
                (default empty (parsed !! "corrected_code"))
                (commit_message i (GeminiService.fill_correction parsed)) tr3)
      as (ws & Hws & Hall & Hone).
    exists ws.
    destruct (GitHubService.commit_file_changes env repo_url branch file_path
                (default empty (parsed !! "corrected_code"))
                (commit_message i (GeminiService.fill_correction parsed)) tr3)
      as [[k|e|] tr4]; simpl in Hws, Hone; (split; [|split; [exact Hall|]]).
    + unfold call. destruct (@env unit _ (Asyncio_sleep 5)) as [g|u]; simpl;
        rewrite <- Hws; unfold file_writes; rewrite collect_cons; simpl;
        apply app_nil_r.
    + intros _ _ _ _. exact Hone.
    + exact Hws.
    + intros c logs' tr5 H. discriminate H.
    + exact Hws.
    + intros c logs' tr5 H. discriminate H.
  - intros c logs' tr4 Hn. rewrite Hpass in Hn.
    apply (@recommit_returns env repo_url branch file_path) in Hn.
    rewrite fill_correction_code in Hn.
    simpl in Hn. congruence.
Qed.

End MoreLoopFacts.

(** ** [analyze.py]: the ends of a request *)

Section MorePipelineFacts.
Import Py World Observe Readers Analyze.
Variable env : Env.
Variable b64 : string -> option string.
Variable prompts : GeminiService.Prompts.
Variable json : GeminiService.JsonReader.

Lemma invalid_token_is_told s :
  contains "Invalid GitHub token" ("Invalid GitHub token: " ++ s)%string = true.
Proof. reflexivity. Qed.

(** X20.  The GitHub service of a request is built in one of three
    ways.  Without any token (form, OAuth, settings) the request is
    refused with status 400 before GitHub is contacted.  With a token,
    the user is looked up once: an answer gives the service, and any
    failure of the lookup is reported with status 401 as an expired or
    invalid token, never as a failed initialisation. *)
Theorem X20_init_github_outcomes form amb tr :
  init_github env form amb tr
  = if truthy (effective_github_token form amb) then
      match @env _ (List.length tr) (Github_get_user (effective_github_token form amb)) with
      | inr login =>
          (Returned {| GitHubService.token := effective_github_token form amb;
                       GitHubService.user_login := login |},
           EvCall (Github_get_user (effective_github_token form amb)) :: tr)
      | inl _ =>
          (Raised (HTTPException 401 token_expired),
           EvCall (Github_get_user (effective_github_token form amb)) :: tr)
      end
    else (Raised (HTTPException 400 no_token), tr).
Proof.
  unfold init_github, GitHubService.init.
  destruct (truthy (effective_github_token form amb)) eqn:Ht; [|reflexivity].
  assert (Hor : or_else (Some (effective_github_token form amb)) (settings_GITHUB_TOKEN amb)
                = effective_github_token form amb)
    by (unfold or_else at 1; rewrite Ht; reflexivity).
  rewrite Hor, Ht. cbn [negb].
  unfold try_except, bind, call.
  destruct (@env string _ (Github_get_user _)) as [g|login]; [|reflexivity].
  unfold raise. cbv beta iota. cbn [is_ValueError any_exception str].
  rewrite invalid_token_is_told. reflexivity.
Qed.

(** X21.  A request without a video, without images and without a
    deployed URL is refused with status 400 at once: the job id is
    drawn, and nothing else is asked of the outside: no temporary
    directory, no GitHub call, no model call. *)
Theorem X21_request_without_visual_input_is_refused form amb tr :
  has_visual_input form = false ->
  analyze_vibe env b64 prompts json form amb tr
  = (match @env _ (List.length tr) Uuid4 with
     | inr _ => Raised (HTTPException 400 no_visual_input)
     | inl g => Raised (exn_of_gw g)
     end, EvCall Uuid4 :: tr).
Proof.
  intros Hv. unfold analyze_vibe, bind, call, http_boundary, try_except.
  destruct (@env string _ Uuid4) as [g|job_id]; [reflexivity|].
  rewrite Hv. reflexivity.
Qed.

(** X22.  Once the temporary directory of a request exists, the last
    thing the request does, however it ends, is to remove it. *)
Theorem X22_temp_dir_is_removed_last form amb tr job_id temp_dir :
  has_visual_input form = true ->
  @env _ (List.length tr) Uuid4 = inr job_id ->
  @env _ (S (List.length tr)) (Mkdtemp ("vibe_check_" ++ job_id ++ "_")%string)
  = inr temp_dir ->
  exists rest,
    snd (analyze_vibe env b64 prompts json form amb tr) = EvCall (Rmtree temp_dir) :: rest.
Proof.
  intros Hv Hu Hm. unfold analyze_vibe, http_boundary.
  unfold bind at 1, call at 1. rewrite Hu, Hv. simpl negb. cbv iota.
  unfold try_except, bind at 1, call at 1. simpl List.length. rewrite Hm.
  unfold try_finally.
  match goal with
  | |- context [bind ?m ?k (EvCall ?c :: ?t)] => destruct (bind m k (EvCall c :: t)) as [o tr1]
  end.
  unfold cleanup, try_except, call.
  destruct (@env unit _ (Rmtree temp_dir)); destruct o as [r|e|]; simpl;
    try destruct (negb (is_HTTPException e)); simpl; eauto.
Qed.

(** *** The exceptions of a request *)

(** An exception under way inside the handler: when it is an HTTP error,
    its status is one of the four the handler uses. *)
Abbreviation listed :=
  (fun e : exn => is_HTTPException e = true -> In (http_status e) [400; 401; 403; 500]%Z).

Lemma save_images_ends temp_dir images : forall i,
  ends listed (save_images env temp_dir i images).
Proof.
  induction images as [|image rest IH]; intros i; simpl;
    repeat first [apply IH | ends_step].
Qed.

Lemma fetch_context_ends form paths : forall ctx,
  ends listed (fetch_context env b64 form paths ctx).
Proof.
  induction paths as [|p rest IH]; intros ctx; simpl.
  - ends_step.
  - apply ends_bind; [|intros; apply IH].
    unfold GitHubService.get_file_content, GitHubService.get_repository.
    repeat ends_step.
Qed.

Lemma encode_images_ends paths : ends listed (GeminiService.encode_images env paths).
Proof.
  induction paths as [|p rest IH]; simpl; repeat first [exact IH | ends_step].
Qed.

Lemma gather_ends form amb temp_dir :
  ends listed (gather env b64 prompts json form amb temp_dir).
Proof.
  unfold gather, capture, save_video, init_github, GitHubService.init, fetch_tree,
    GitHubService.get_file_tree, verify_write_access, GitHubService.check_write_access,
    scout_and_fetch, GeminiService.scout_files, GeminiService.response_text,
    GeminiService._parse_json_response, GitHubService.get_repository.
  repeat first [apply save_images_ends | apply fetch_context_ends | ends_step].
Qed.

Lemma request_analysis_ends form g :
  ends listed (request_analysis env prompts json form g).
Proof.
  unfold request_analysis, GeminiService.analyze_video_frames, GeminiService.analyze_vibe,
    GeminiService.response_text, GeminiService._parse_json_response.
  repeat first [apply encode_images_ends | ends_step].
Qed.

Lemma deliver_ends form job_id g ar :
  ends listed (deliver env json form job_id g ar).
Proof.
  unfold deliver, no_fix_response, new_AnalysisResult, create_fix_branch, commit_fix,
    open_pull_request, format_first_50,
    GitHubService.create_branch, GitHubService.commit_file_changes,
    GitHubService.create_pull_request, GitHubService.get_repository.
  repeat ends_step.
Qed.

(** X23.  Once its job id is drawn, a request ends with a response or
    with an HTTP error whose status is 400, 401, 403 or 500: no other
    exception leaves the handler. *)
Theorem X23_request_ends_with_listed_status form amb tr job_id :
  @env _ (List.length tr) Uuid4 = inr job_id ->
  match fst (analyze_vibe env b64 prompts json form amb tr) with
  | Returned _ => True
  | Raised e => is_HTTPException e = true /\ In (http_status e) [400; 401; 403; 500]%Z
  | Unfinished => False
  end.
Proof.
  intros Hu. unfold analyze_vibe. unfold bind at 1, call at 1. rewrite Hu.
  match goal with
  | |- match fst (http_boundary ?m ?t) with _ => _ end =>
      assert (He : ends (fun e => is_HTTPException e = true
                                  /\ In (http_status e) [400; 401; 403; 500]%Z)
                     (http_boundary m))
  end.
  { unfold http_boundary. apply (@ends_try_except _ _ listed).
    - repeat first [apply gather_ends | apply request_analysis_ends | apply deliver_ends
                   | ends_step].
    - intros e He Hc. apply negb_false_iff in Hc. auto.
    - intros e. apply ends_raise. simpl. auto 10. }
  apply He.
Qed.

(** *** The analysis and what is made of it *)

Lemma filled_fix_is_incomplete :
  fix_incomplete (GeminiService.FixDict GeminiService.empty_fix) = true.
Proof.
  unfold fix_incomplete, fix_get, GeminiService.empty_fix.
  rewrite lookup_insert_eq. simpl. apply orb_true_r.
Qed.

(** X24.  When the model's reply has no [fix], the fix the analysis
    capability fills in has an empty path and empty code, and nothing is
    asked of the repository.  When the reply gives strings for the
    analysis and the severity, or omits them, the request ends with the
    response without a pull request, which carries them, and [Unknown]
    where the reply omitted them: the defaults the handler holds for
    them are not used.  When the reply gives any other value for one of
    them ([null], a number, a list, ...), the response cannot be built:
    pydantic's validation error is raised, and the handler ends the
    request with HTTP 500. *)
Theorem X24_reply_without_fix_opens_no_pull_request form job_id g parsed tr :
  GeminiService.ad_fix parsed = None ->
  match default (JString "Unknown") (GeminiService.ad_analysis parsed),
        default (JString "Unknown") (GeminiService.ad_severity parsed) with
  | JString a, JString s =>
      deliver env json form job_id g (GeminiService.fill_analysis parsed) tr
      = (Returned {| status := "success";
                     job_id := job_id;
                     analysis_ :=
                       Some {| analysis := a; severity := s;
                               fix_ := {| file_path := empty; code := empty |} |};
                     pr_url := None;
                     screenshots_captured := g_screenshots_captured g;
                     error := None |}, tr)
  | a, s =>
      deliver env json form job_id g (GeminiService.fill_analysis parsed) tr
      = (Raised (ValueError (GeminiService.validation_error json a s)), tr)
      /\ http_boundary
           (deliver env json form job_id g (GeminiService.fill_analysis parsed)) tr
         = (Raised (HTTPException 500
                      ("An unexpected error occurred: "
                       ++ GeminiService.validation_error json a s)), tr)
  end.
Proof.
  intros Hfix.
  assert (E : get_fix (GeminiService.fill_analysis parsed)
              = GeminiService.FixDict GeminiService.empty_fix)
    by (unfold get_fix, GeminiService.fill_analysis; simpl; rewrite Hfix; reflexivity).
  unfold http_boundary, try_except, deliver. cbv zeta.
  rewrite E, filled_fix_is_incomplete.
  unfold no_fix_response, new_AnalysisResult, bind, ret, raise. simpl.
  destruct (default (JString "Unknown") (GeminiService.ad_analysis parsed));
    destruct (default (JString "Unknown") (GeminiService.ad_severity parsed));
    simpl; auto.
Qed.

Lemma try_except_raise_trace {A} (m : M A) catches (h : exn -> exn) tr :
  snd (try_except m catches (fun e => raise (h e)) tr) = snd (m tr).
Proof.
  unfold try_except. destruct (m tr) as [[a|e|] tr1]; try reflexivity.
  destruct (catches e); reflexivity.
Qed.

Lemma analyze_vibe_without_images ctx d tr :
  model_calls (snd (GeminiService.analyze_vibe env prompts json ctx d None tr))
  = model_calls tr ++ [[PText (GeminiService.analysis_prompt prompts ctx d)]].
Proof.
  unfold GeminiService.analyze_vibe, bind, enter, call, ret,
    GeminiService.response_text, GeminiService._parse_json_response. simpl.
  destruct (@env (option string) _ _) as [g|[text|]]; simpl; try read_off.
  destruct (GeminiService.loads_analysis json text); read_off.
Qed.

(** X25.  When a video was saved, the analysis is asked for the video
    alone: the request to the model holds the prompt and no image,
    whatever screenshots and images the request gathered, and the
    description handed over ends with the path of the video. *)
Theorem X25_video_analysis_sends_no_image form g video_path tr :
  g_video_path g = Some video_path ->
  truthy video_path = true ->
  model_calls (snd (request_analysis env prompts json form g tr))
  = model_calls tr
    ++ [[PText (GeminiService.analysis_prompt prompts (g_code_context g)
                  (Some (default empty (bug_description form)
                         ++ " (Video: " ++ video_path ++ ")")%string))]].
Proof.
  intros Hv Ht. unfold request_analysis. rewrite try_except_raise_trace.
  rewrite Hv, Ht. unfold GeminiService.analyze_video_frames.
  apply analyze_vibe_without_images.
Qed.

Lemma save_images_without_names temp_dir images : forall i tr,
  Forall (fun image => truthy_opt (filename image) = false) images ->
  save_images env temp_dir i images tr = (Returned [], tr).
Proof.
  induction images as [|image rest IH]; intros i tr H; simpl; [reflexivity|].
  inversion H as [|? ? Hn Hrest]; subst.
  assert (E : (match filename image with
               | Some name =>
                   if truthy name
                   then call env (Save_upload (temp_dir ++ "/upload_"
                                     ++ str_of_Z (Z.of_nat i) ++ "_" ++ name)%string) ;;;
                        ret [(temp_dir ++ "/upload_" ++ str_of_Z (Z.of_nat i)
                              ++ "_" ++ name)%string]
                   else ret []
               | None => ret []
               end) tr = (Returned ([] : list string), tr)).
  { destruct (filename image) as [name|]; [|reflexivity].
    simpl in Hn. rewrite Hn. reflexivity. }
  rewrite (bind_returned _ E). rewrite (bind_returned _ (IH (S i) tr Hrest)). reflexivity.
Qed.

(** X26.  The validation of the visual input looks at what was sent, not
    at what can be used.  A request without a video, whose images have
    no file name and whose deployed URL, when it has one, cannot be
    captured, passes the validation when an image or the URL is present;
    the failed capture is skipped, nothing is saved, and the analysis is
    then asked of the model with the prompt alone, without any image. *)
Theorem X26_unusable_visual_input_reaches_the_model form amb temp_dir tr g tr' :
  (forall url, deployed_url form = Some url ->
               exists failure,
                 @env _ (List.length tr) (Capture_visual_context url) = inl failure) ->
  Forall (fun image => truthy_opt (filename image) = false) (images form) ->
  video form = None ->
  has_visual_input form
  = (0 <? List.length (images form))%nat || is_Some_bool (deployed_url form)
  /\ (exists trc,
        capture env form tr = (Returned None, trc)
        /\ save_images env temp_dir 0 (images form) trc = (Returned [], trc)
        /\ save_video env temp_dir form trc = (Returned None, trc))
  /\ (gather env b64 prompts json form amb temp_dir tr = (Returned g, tr') ->
      g_screenshots_captured g = None
      /\ g_image_paths g = []
      /\ g_video_path g = None
      /\ model_calls (snd (request_analysis env prompts json form g tr'))
         = model_calls tr'
           ++ [[PText (GeminiService.analysis_prompt prompts (g_code_context g)
                         (bug_description form))]]).
Proof.
  intros Hurl Himg Hvid.
  split; [unfold has_visual_input; rewrite Hvid; reflexivity|].
  assert (Hcap : exists trc, capture env form tr = (Returned None, trc)).
  { unfold capture. destruct (deployed_url form) as [url|] eqn:Eu; [|eexists; reflexivity].
    assert (Ht : truthy url = true).
    { unfold deployed_url in Eu. destruct (form_deployed_url form) as [t|]; [|discriminate].
      injection Eu as <-. reflexivity. }
    rewrite Ht. destruct (Hurl url eq_refl) as [failure Hf].
    unfold try_except, bind, call. rewrite Hf. eexists. reflexivity. }
  destruct Hcap as [trc Hcap].
  assert (Hvideo : forall tr0, save_video env temp_dir form tr0 = (Returned None, tr0)).
  { intros tr0. unfold save_video. rewrite Hvid. reflexivity. }
  split.
  { exists trc. split; [exact Hcap|split; [|apply Hvideo]].
    apply save_images_without_names. exact Himg. }
  intros Hg.
  unfold gather in Hg.
  rewrite (bind_returned _ Hcap) in Hg.
  rewrite (bind_returned _ (save_images_without_names temp_dir 0 trc Himg)) in Hg.
  rewrite (bind_returned _ (Hvideo trc)) in Hg.
  do 5 (apply bind_inv in Hg as (? & ? & _ & Hg)).
  injection Hg as <- <-. simpl.
  repeat split.
  unfold request_analysis. rewrite try_except_raise_trace. simpl.
  apply analyze_vibe_without_images.
Qed.

(** *** The code context *)

Lemma fetch_context_result form (all : list string) paths : forall ctx tr ctx' tr',
  fetch_context env b64 form paths ctx tr = (Returned ctx', tr') ->
  incl paths all ->
  List.NoDup (map fst ctx) ->
  Forall (fun entry => In (fst entry) all /\ truthy (snd entry) = true) ctx ->
  List.NoDup (map fst ctx')
  /\ Forall (fun entry => In (fst entry) all /\ truthy (snd entry) = true) ctx'.
Proof.
  induction paths as [|p rest IH]; intros ctx tr ctx' tr' H Hincl Hnd Hall; simpl in H.
  - injection H as <- <-. split; assumption.
  - apply bind_inv in H as (content & tr1 & _ & H).
    apply IH in H; [exact H | intros x Hx; apply Hincl; right; exact Hx | |].
    + destruct (truthy_opt content); [apply odict_set_NoDup|]; exact Hnd.
    + destruct content as [s|]; simpl; [|exact Hall].
      destruct (truthy s) eqn:Ht; [|exact Hall].
      apply (@odict_set_Forall _ (fun k => In k all) (fun v => truthy v = true));
        [apply Hincl; left; reflexivity | exact Ht | exact Hall].
Qed.

(** X27.  The code context a request gathers is a dict in good order:
    between 1 and 10 files, no path twice, no empty content, and each
    path is one of the first 10 the scouting returned. *)
Theorem X27_code_context_is_well_formed form file_tree tr ctx tr' :
  scout_and_fetch env b64 prompts json form file_tree tr = (Returned ctx, tr') ->
  exists relevant tr1,
    GeminiService.scout_files env prompts json (blob_paths file_tree)
      (bug_description form) tr = (Returned relevant, tr1)
    /\ List.NoDup (map fst ctx)
    /\ Forall (fun entry => In (fst entry) (Py.take 10 relevant)
                            /\ truthy (snd entry) = true) ctx
    /\ (1 <= List.length ctx <= 10)%nat.
Proof.
  intros H. pose proof (scout_and_fetch_length _ _ _ _ _ _ _ H) as Hlen.
  unfold scout_and_fetch in H.
  apply bind_inv in H as (relevant & tr1 & Hs & H).
  apply bind_inv in H as (ctx0 & tr2 & Hf & H).
  exists relevant, tr1. split; [exact Hs|].
  eapply fetch_context_result with (all := Py.take 10 relevant) in Hf;
    [ | intros x Hx; exact Hx | apply List.NoDup_nil | constructor ].
  destruct ctx0 as [|c cs]; [discriminate|]. injection H as <- <-.
  destruct Hf as [Hnd Hall]. repeat split; try assumption; lia.
Qed.

Lemma bind_trace {A B} (m : M A) (k : A -> M B) tr :
  (exists a tr1, m tr = (Returned a, tr1) /\ snd (bind m k tr) = snd (k a tr1))
  \/ ((forall a tr1, m tr <> (Returned a, tr1)) /\ snd (bind m k tr) = snd (m tr)).
Proof.
  unfold bind. destruct (m tr) as [[a|e|] tr1].
  - left. eauto.
  - right. split; [congruence | reflexivity].
  - right. split; [congruence | reflexivity].
Qed.

Lemma analysis_skip ts :
  mem TAnalyzeVibe ts = false ->
  forall e, mem (tag e) ts = true ->
            match e with
            | EvAnalyzeVibe ctx _ _ => [ctx]
            | _ => []
            end = [].
Proof. intros Hout e He. destruct e; try reflexivity. simpl in He. congruence. Qed.

Lemma gemini_analysis_context ctx d imgs tr :
  contexts_analysed (snd (GeminiService.analyze_vibe env prompts json ctx d imgs tr))
  = contexts_analysed tr ++ [ctx].
Proof.
  unfold GeminiService.analyze_vibe.
  match goal with
  | |- contexts_analysed (snd (bind (enter ?ev) ?k tr)) = _ =>
      change (contexts_analysed (snd (k tt (ev :: tr))) = contexts_analysed tr ++ [ctx]);
      assert (Hq : quiet (fun e => match e with
                                   | EvAnalyzeVibe ctx _ _ => [ctx]
                                   | _ => []
                                   end) (k tt))
  end.
  { unfold GeminiService.response_text, GeminiService._parse_json_response.
    repeat first [ eapply emits_quiet;
                     [apply (@analysis_skip [TCall]); reflexivity | apply encode_images_emits]
                 | quiet_step ]. }
  cbv beta in Hq |- *. unfold contexts_analysed. rewrite Hq, collect_cons. reflexivity.
Qed.

Lemma request_analysis_context form g tr :
  contexts_analysed (snd (request_analysis env prompts json form g tr))
  = contexts_analysed tr ++ [g_code_context g].
Proof.
  unfold request_analysis. rewrite try_except_raise_trace.
  unfold GeminiService.analyze_video_frames.
  destruct (g_video_path g) as [v|]; [destruct (truthy v)|];
    apply gemini_analysis_context.
Qed.

Lemma deliver_emits form job_id g ar :
  emits [TCall; TWrite; TCreateBranch; TCommitFileChanges; TCreatePullRequest]
    (deliver env json form job_id g ar).
Proof.
  unfold deliver, create_fix_branch.
  repeat first [ emits_known create_branch_emits | emits_known commit_fix_emits
               | emits_known open_pull_request_emits | apply no_fix_response_emits
               | apply new_AnalysisResult_emits | emits_step ].
Qed.

(** X28.  Whenever a request asks for an analysis, it hands over a code
    context of between 1 and 10 files, and it asks at most once: the
    model is never asked to fix code it was shown nothing of. *)
Theorem X28_analysis_is_given_a_context form amb tr :
  exists ctxs,
    contexts_analysed (snd (analyze_vibe env b64 prompts json form amb tr))
    = contexts_analysed tr ++ ctxs
    /\ (List.length ctxs <= 1)%nat
    /\ Forall (fun ctx => (1 <= List.length ctx <= 10)%nat) ctxs.
Proof.
  assert (Hnone : forall tr',
             contexts_analysed tr' = contexts_analysed tr ->
             exists ctxs, contexts_analysed tr' = contexts_analysed tr ++ ctxs
                          /\ (List.length ctxs <= 1)%nat
                          /\ Forall (fun ctx => (1 <= List.length ctx <= 10)%nat) ctxs).
  { intros tr' E. exists []. rewrite app_nil_r. repeat split; [exact E | simpl; lia | constructor]. }
  assert (Hcall : forall T (c : Call T) tr0 o tr1,
             call env c tr0 = (o, tr1) -> tag (EvCall c) = TCall ->
             contexts_analysed tr1 = contexts_analysed tr0).
  { intros T c tr0 o tr1 H Ht. eapply quiet_run; [|exact H].
    apply quiet_call. destruct c; try reflexivity; discriminate Ht. }
  unfold analyze_vibe.
  destruct (bind_trace (call env Uuid4)
              (fun job_id =>
                 http_boundary
                   (if negb (has_visual_input form)
                    then raise (HTTPException 400 no_visual_input)
                    else
                      let! temp_dir := call env (Mkdtemp ("vibe_check_" ++ job_id ++ "_")%string) in
                      try_finally
                        (let! g := gather env b64 prompts json form amb temp_dir in
                         let! analysis_result := request_analysis env prompts json form g in
                         deliver env json form job_id g analysis_result)
                        (cleanup env temp_dir))) tr)
    as [(job_id & tr0 & Hu & ->)|[_ ->]].
  2: { apply Hnone. destruct (call env Uuid4 tr) as [o tr0] eqn:Hu. simpl.
       eapply Hcall; [exact Hu | reflexivity]. }
  pose proof (Hcall _ _ _ _ _ Hu eq_refl) as E0.
  unfold http_boundary. rewrite try_except_raise_trace.
  destruct (negb (has_visual_input form)); [apply Hnone; exact E0|].
  match goal with
  | |- context [snd (bind ?m ?k tr0)] =>
      destruct (bind_trace m k tr0) as [(temp_dir & tr1 & Hm & ->)|[_ ->]]
  end.
  2: { apply Hnone.
       destruct (call env (Mkdtemp ("vibe_check_" ++ job_id ++ "_")%string) tr0) as [o tr1] eqn:Hm.
       simpl. rewrite <- E0. eapply Hcall; [exact Hm | reflexivity]. }
  pose proof (Hcall _ _ _ _ _ Hm eq_refl) as E1.
  unfold try_finally.
  match goal with
  | |- context [bind ?m ?k tr1] => destruct (bind m k tr1) as [o tr4] eqn:Hin
  end.
  simpl snd.
  assert (Hclean : contexts_analysed (snd (cleanup env temp_dir tr4)) = contexts_analysed tr4).
  { apply (@emits_quiet _ _ _ _ _ (@analysis_skip [TCall] eq_refl) (cleanup_emits env temp_dir)). }
  rewrite Hclean.
  assert (Hsnd : tr4 = snd ((let! g := gather env b64 prompts json form amb temp_dir in
                             let! analysis_result := request_analysis env prompts json form g in
                             deliver env json form job_id g analysis_result) tr1))
    by (rewrite Hin; reflexivity).
  clear Hin. subst tr4.
  match goal with
  | |- context [snd (bind ?m ?k tr1)] =>
      destruct (bind_trace m k tr1) as [(g & tr2 & Hg & ->)|[_ ->]]
  end.
  2: { apply Hnone. rewrite <- E0, <- E1.
       apply (@emits_quiet _ _ _ _ _ (@analysis_skip [TCall; TModel; TCheckWriteAccess; TScoutFiles; TGetFileContent] eq_refl)
                (gather_emits env b64 prompts json form amb temp_dir)). }
  assert (E2 : contexts_analysed tr2 = contexts_analysed tr1).
  { eapply quiet_run; [|exact Hg].
    apply (@emits_quiet _ _ _ _ _ (@analysis_skip [TCall; TModel; TCheckWriteAccess; TScoutFiles; TGetFileContent] eq_refl)
             (gather_emits env b64 prompts json form amb temp_dir)). }
  pose proof (gather_context_length _ _ _ _ _ _ _ _ Hg) as Hlen.
  exists [g_code_context g]. split; [|split; [simpl; lia | constructor; [exact Hlen | constructor]]].
  rewrite <- E0, <- E1, <- E2.
  match goal with
  | |- context [snd (bind ?m ?k tr2)] =>
      destruct (bind_trace m k tr2) as [(ar & tr3 & Hr & ->)|[_ ->]]
  end.
  2: { apply request_analysis_context. }
  pose proof (request_analysis_context form g tr2) as E3. rewrite Hr in E3.
  unfold contexts_analysed in *.
  rewrite (@emits_quiet _ _ _ _ _
             (@analysis_skip [TCall; TWrite; TCreateBranch; TCommitFileChanges;
                              TCreatePullRequest] eq_refl)
             (deliver_emits form job_id g ar) tr3).
  exact E3.
Qed.

(** *** What a request asks of the repository and of the model *)

Lemma adds_call1 t {T} (c : Call T) : adds_at_most t 1 (call env c).
Proof.
  intros tr. unfold call. destruct (@env T (List.length tr) c); simpl;
    unfold count; simpl; destruct (tag_eqb _ t); simpl; lia.
Qed.

Lemma adds_enter1 t e : adds_at_most t 1 (enter e).
Proof. intros tr. simpl. unfold count. simpl. destruct (tag_eqb _ t); simpl; lia. Qed.

Ltac adds0 tags :=
  apply (@adds_none _ _ tags);
  [ unfold GitHubService.get_repository; repeat emits_step | reflexivity ].

Lemma create_branch_writes url base name :
  adds_at_most TWrite 1 (GitHubService.create_branch env url base name).
Proof.
  unfold GitHubService.create_branch.
  apply adds_weaken with (n := (0 + (0 + (0 + (1 + 0))))%nat); [|lia].
  apply adds_bind; [adds0 [TCreateBranch] | intros _].
  apply adds_bind; [adds0 [TCall] | intros _].
  apply adds_bind; [adds0 [TCall] | intros sha].
  apply adds_bind; [apply adds_call1 | intros _; adds0 (@nil Tag)].
Qed.

Lemma commit_file_changes_writes url br p c msg :
  adds_at_most TWrite 2 (GitHubService.commit_file_changes env url br p c msg)
  /\ adds_at_most TCommitFileChanges 1 (GitHubService.commit_file_changes env url br p c msg).
Proof.
  unfold GitHubService.commit_file_changes. split.
  - apply adds_weaken with (n := (0 + (0 + ((0 + 1) + 1)))%nat); [|lia].
    apply adds_bind; [adds0 [TCommitFileChanges] | intros _].
    apply adds_bind; [adds0 [TCall] | intros _].
    apply adds_try_except; [|intros e; apply adds_call1].
    apply adds_bind; [adds0 [TCall] | intros contents].
    destruct contents; try apply adds_call1;
      (apply adds_weaken with (n := 0%nat); [adds0 (@nil Tag) | lia]).
  - apply adds_weaken with (n := (1 + 0)%nat); [|lia].
    apply adds_bind; [apply adds_enter1 | intros _; adds0 [TCall; TWrite]].
Qed.

Lemma create_pull_request_writes url t b h base :
  adds_at_most TWrite 2 (GitHubService.create_pull_request env url t b h base)
  /\ adds_at_most TCreatePullRequest 1
       (GitHubService.create_pull_request env url t b h base).
Proof.
  unfold GitHubService.create_pull_request. split.
  - apply adds_weaken with (n := (0 + (0 + (1 + 1)))%nat); [|lia].
    apply adds_bind; [adds0 [TCreatePullRequest] | intros _].
    apply adds_bind; [adds0 [TCall] | intros _].
    apply adds_try_except; [apply adds_call1 | intros e; apply adds_call1].
  - apply adds_weaken with (n := (1 + 0)%nat); [|lia].
    apply adds_bind; [apply adds_enter1 | intros _; adds0 [TCall; TWrite]].
Qed.

Lemma create_fix_branch_emits form branch_name :
  emits [TCall; TWrite; TCreateBranch] (create_fix_branch env form branch_name).
Proof.
  unfold create_fix_branch. repeat first [emits_known create_branch_emits | emits_step].
Qed.

Lemma create_fix_branch_writes form branch_name :
  adds_at_most TWrite 2 (create_fix_branch env form branch_name).
Proof.
  unfold create_fix_branch.
  apply (@adds_try_except _ TWrite 1 1).
  - apply (@adds_bind _ _ TWrite 1 0); [apply create_branch_writes|].
    intros a. adds0 (@nil Tag).
  - intros e. destruct (permission_signal e).
    + apply adds_weaken with (n := 0%nat); [adds0 (@nil Tag) | lia].
    + apply (@adds_try_except _ TWrite 1 0).
      * apply (@adds_bind _ _ TWrite 1 0); [apply create_branch_writes|].
        intros a. adds0 (@nil Tag).
      * intros e2. adds0 (@nil Tag).
Qed.

Lemma commit_fix_writes form branch_name ar fx :
  adds_at_most TWrite 2 (commit_fix env json form branch_name ar fx)
  /\ adds_at_most TCommitFileChanges 1 (commit_fix env json form branch_name ar fx).
Proof.
  unfold commit_fix. split.
  - apply (@adds_bind _ _ TWrite 0 2);
      [apply (@adds_none _ _ (@nil Tag)); [apply format_first_50_emits | reflexivity]
      | intros headline].
    apply (@adds_try_except _ TWrite 2 0); [|intros e; adds0 (@nil Tag)].
    apply (@adds_bind _ _ TWrite 2 0); [apply commit_file_changes_writes|].
    intros a. adds0 (@nil Tag).
  - apply (@adds_bind _ _ TCommitFileChanges 0 1);
      [apply (@adds_none _ _ (@nil Tag)); [apply format_first_50_emits | reflexivity]
      | intros headline].
    apply (@adds_try_except _ TCommitFileChanges 1 0); [|intros e; adds0 (@nil Tag)].
    apply (@adds_bind _ _ TCommitFileChanges 1 0); [apply commit_file_changes_writes|].
    intros a. adds0 (@nil Tag).
Qed.

Lemma open_pull_request_writes form branch_name ar fx :
  adds_at_most TWrite 2 (open_pull_request env json form branch_name ar fx)
  /\ adds_at_most TCreatePullRequest 1 (open_pull_request env json form branch_name ar fx).
Proof.
  unfold open_pull_request. cbv zeta. split.
  - apply (@adds_try_except _ TWrite 2 0); [|intros e; adds0 (@nil Tag)].
    apply (@adds_bind _ _ TWrite 0 2);
      [apply (@adds_none _ _ (@nil Tag)); [apply format_first_50_emits | reflexivity]
      | intros headline].
    apply create_pull_request_writes.
  - apply (@adds_try_except _ TCreatePullRequest 1 0); [|intros e; adds0 (@nil Tag)].
    apply (@adds_bind _ _ TCreatePullRequest 0 1);
      [apply (@adds_none _ _ (@nil Tag)); [apply format_first_50_emits | reflexivity]
      | intros headline].
    apply create_pull_request_writes.
Qed.

Lemma deliver_bounds form job_id g ar :
  adds_at_most TWrite 6 (deliver env json form job_id g ar)
  /\ adds_at_most TCommitFileChanges 1 (deliver env json form job_id g ar)
  /\ adds_at_most TCreatePullRequest 1 (deliver env json form job_id g ar)
  /\ adds_at_most TModel 0 (deliver env json form job_id g ar).
Proof.
  split; [|split; [|split]].
  - unfold deliver. destruct (fix_incomplete _).
    { apply adds_weaken with (n := 0%nat); [|lia].
      apply (@adds_none _ _ (@nil Tag)); [apply no_fix_response_emits | reflexivity]. }
    apply (@adds_bind _ _ TWrite 2 4); [apply create_fix_branch_writes | intros _].
    apply (@adds_bind _ _ TWrite 2 2); [apply commit_fix_writes | intros _].
    apply (@adds_bind _ _ TWrite 2 0); [apply open_pull_request_writes | intros pr].
    apply (@adds_none _ _ (@nil Tag)); [|reflexivity].
    repeat first [apply new_AnalysisResult_emits | emits_step].
  - unfold deliver. destruct (fix_incomplete _).
    { apply adds_weaken with (n := 0%nat); [|lia].
      apply (@adds_none _ _ (@nil Tag)); [apply no_fix_response_emits | reflexivity]. }
    apply (@adds_bind _ _ TCommitFileChanges 0 1);
      [eapply adds_none; [apply create_fix_branch_emits | reflexivity] | intros _].
    apply (@adds_bind _ _ TCommitFileChanges 1 0); [apply commit_fix_writes | intros _].
    apply (@adds_bind _ _ TCommitFileChanges 0 0);
      [eapply adds_none; [apply open_pull_request_emits | reflexivity] | intros pr].
    apply (@adds_none _ _ (@nil Tag)); [|reflexivity].
    repeat first [apply new_AnalysisResult_emits | emits_step].
  - unfold deliver. destruct (fix_incomplete _).
    { apply adds_weaken with (n := 0%nat); [|lia].
      apply (@adds_none _ _ (@nil Tag)); [apply no_fix_response_emits | reflexivity]. }
    apply (@adds_bind _ _ TCreatePullRequest 0 1);
      [eapply adds_none; [apply create_fix_branch_emits | reflexivity] | intros _].
    apply (@adds_bind _ _ TCreatePullRequest 0 1);
      [eapply adds_none; [apply commit_fix_emits | reflexivity] | intros _].
    apply (@adds_bind _ _ TCreatePullRequest 1 0);
      [apply open_pull_request_writes | intros pr].
    apply (@adds_none _ _ (@nil Tag)); [|reflexivity].
    repeat first [apply new_AnalysisResult_emits | emits_step].
  - eapply adds_none; [apply deliver_emits | reflexivity].
Qed.

Lemma gather_models form amb temp_dir :
  adds_at_most TModel 1 (gather env b64 prompts json form amb temp_dir).
Proof.
  unfold gather.
  apply (@adds_bind _ _ TModel 0 1);
    [eapply adds_none; [apply capture_emits | reflexivity] | intros shots].
  apply (@adds_bind _ _ TModel 0 1);
    [eapply adds_none; [apply save_images_emits | reflexivity] | intros uploaded].
  apply (@adds_bind _ _ TModel 0 1);
    [eapply adds_none; [apply save_video_emits | reflexivity] | intros video_path].
  apply (@adds_bind _ _ TModel 0 1);
    [eapply adds_none; [apply init_github_emits | reflexivity] | intros github].
  apply (@adds_bind _ _ TModel 0 1); [adds0 [TCall] | intros _].
  apply (@adds_bind _ _ TModel 0 1);
    [eapply adds_none; [apply fetch_tree_emits | reflexivity] | intros file_tree].
  apply (@adds_bind _ _ TModel 0 1);
    [eapply adds_none; [apply verify_write_access_emits | reflexivity] | intros _].
  apply (@adds_bind _ _ TModel 1 0); [|intros ctx; adds0 (@nil Tag)].
  unfold scout_and_fetch.
  apply (@adds_bind _ _ TModel 1 0).
  - unfold GeminiService.scout_files.
    apply (@adds_bind _ _ TModel 0 1); [adds0 [TScoutFiles] | intros _].
    apply (@adds_bind _ _ TModel 1 0); [apply adds_call1 | intros response].
    apply adds_none with (ts := @nil Tag); [|reflexivity].
    repeat first [apply _parse_json_response_emits | apply response_text_emits | emits_step].
  - intros relevant.
    apply (@adds_bind _ _ TModel 0 0);
      [eapply adds_none; [apply fetch_context_emits | reflexivity] | intros ctx].
    destruct ctx; adds0 (@nil Tag).
Qed.

Lemma request_analysis_models form g :
  adds_at_most TModel 1 (request_analysis env prompts json form g).
Proof.
  assert (H : forall ctx d imgs,
             adds_at_most TModel 1 (GeminiService.analyze_vibe env prompts json ctx d imgs)).
  { intros ctx d imgs. unfold GeminiService.analyze_vibe.
    apply (@adds_bind _ _ TModel 0 1); [adds0 [TAnalyzeVibe] | intros _].
    apply (@adds_bind _ _ TModel 0 1).
    { destruct imgs; [eapply adds_none; [apply encode_images_emits | reflexivity]
                     | adds0 (@nil Tag)]. }
    intros images.
    apply (@adds_bind _ _ TModel 1 0); [apply adds_call1 | intros response].
    apply adds_none with (ts := @nil Tag); [|reflexivity].
    repeat first [apply _parse_json_response_emits | apply response_text_emits | emits_step]. }
  unfold request_analysis, GeminiService.analyze_video_frames.
  apply (@adds_try_except _ TModel 1 0); [|intros e; adds0 (@nil Tag)].
  destruct (g_video_path g) as [v|]; [destruct (truthy v)|]; apply H.
Qed.

Lemma analyze_vibe_adds_by_stage t n1 n2 n3 form amb :
  mem t [TCall] = false ->
  (forall temp_dir, adds_at_most t n1 (gather env b64 prompts json form amb temp_dir)) ->
  (forall g, adds_at_most t n2 (request_analysis env prompts json form g)) ->
  (forall job_id g ar, adds_at_most t n3 (deliver env json form job_id g ar)) ->
  adds_at_most t (n1 + n2 + n3) (analyze_vibe env b64 prompts json form amb).
Proof.
  intros Ht H1 H2 H3. unfold analyze_vibe, http_boundary.
  apply adds_weaken with (n := (0 + ((0 + ((n1 + (n2 + n3)) + 0)) + 0))%nat); [|lia].
  apply adds_bind.
  { apply adds_none with (ts := [TCall]); [apply emits_call; reflexivity | exact Ht]. }
  intros job_id. apply adds_try_except.
  2: { intros e. apply adds_none with (ts := @nil Tag); [apply emits_raise | reflexivity]. }
  destruct (negb _).
  { apply adds_weaken with (n := 0%nat); [|lia].
    apply adds_none with (ts := @nil Tag); [apply emits_raise | reflexivity]. }
  apply adds_bind.
  { apply adds_none with (ts := [TCall]); [apply emits_call; reflexivity | exact Ht]. }
  intros temp_dir. apply adds_try_finally.
  2: { apply adds_none with (ts := [TCall]); [apply cleanup_emits | exact Ht]. }
  apply adds_bind; [apply H1 | intros g].
  apply adds_bind; [apply H2 | intros ar; apply H3].
Qed.

(** X29.  The effects of one request are bounded: it asks the model at
    most twice (scouting and analysis), asks for at most one commit and
    at most one pull request, and sends the repository at most 6 write
    calls (2 reference creations, 2 file writes, 2 pull requests),
    whatever fails and whatever is retried. *)
Theorem X29_request_effects_are_bounded form amb :
  adds_at_most TModel 2 (analyze_vibe env b64 prompts json form amb)
  /\ adds_at_most TCommitFileChanges 1 (analyze_vibe env b64 prompts json form amb)
  /\ adds_at_most TCreatePullRequest 1 (analyze_vibe env b64 prompts json form amb)
  /\ adds_at_most TWrite 6 (analyze_vibe env b64 prompts json form amb).
Proof.
  split; [|split; [|split]].
  - apply (@analyze_vibe_adds_by_stage TModel 1 1 0); [reflexivity | | |].
    + intros. apply gather_models.
    + intros. apply request_analysis_models.
    + intros. apply deliver_bounds.
  - apply (@analyze_vibe_adds_by_stage TCommitFileChanges 0 0 1); [reflexivity | | |].
    + intros. eapply adds_none; [apply gather_emits | reflexivity].
    + intros. eapply adds_none; [apply request_analysis_emits | reflexivity].
    + intros. apply deliver_bounds.
  - apply (@analyze_vibe_adds_by_stage TCreatePullRequest 0 0 1); [reflexivity | | |].
    + intros. eapply adds_none; [apply gather_emits | reflexivity].
    + intros. eapply adds_none; [apply request_analysis_emits | reflexivity].
    + intros. apply deliver_bounds.
  - apply (@analyze_vibe_adds_by_stage TWrite 0 0 6); [reflexivity | | |].
    + intros. eapply adds_none; [apply gather_emits | reflexivity].
    + intros. eapply adds_none; [apply request_analysis_emits | reflexivity].
    + intros. apply deliver_bounds.
Qed.

(** *** What a response tells *)

Lemma try_except_returned {A} (m : M A) catches (h : exn -> exn) tr a tr' :
  try_except m catches (fun e => raise (h e)) tr = (Returned a, tr') ->
  m tr = (Returned a, tr').
Proof.
  unfold try_except. destruct (m tr) as [[a0|e|] tr1]; try discriminate; [auto|].
  destruct (catches e); discriminate.
Qed.

Lemma analyze_vibe_returned form amb tr r tr' :
  analyze_vibe env b64 prompts json form amb tr = (Returned r, tr') ->
  exists job_id tr0 temp_dir tr1 g tr2 ar tr3 tr4,
    call env Uuid4 tr = (Returned job_id, tr0)
    /\ call env (Mkdtemp ("vibe_check_" ++ job_id ++ "_")%string) tr0
       = (Returned temp_dir, tr1)
    /\ gather env b64 prompts json form amb temp_dir tr1 = (Returned g, tr2)
    /\ request_analysis env prompts json form g tr2 = (Returned ar, tr3)
    /\ deliver env json form job_id g ar tr3 = (Returned r, tr4)
    /\ tr' = snd (cleanup env temp_dir tr4).
Proof.
  unfold analyze_vibe. intros H.
  apply bind_inv in H as (job_id & tr0 & Hu & H).
  unfold http_boundary in H. apply try_except_returned in H.
  destruct (negb (has_visual_input form)); [discriminate|].
  apply bind_inv in H as (temp_dir & tr1 & Hm & H).
  unfold try_finally in H.
  match type of H with
  | (let (o, tr') := ?m tr1 in _) = _ => destruct (m tr1) as [o tr4] eqn:Hin
  end.
  injection H as -> <-.
  apply bind_inv in Hin as (g & tr2 & Hg & Hin).
  apply bind_inv in Hin as (ar & tr3 & Hr & Hd).
  exists job_id, tr0, temp_dir, tr1, g, tr2, ar, tr3, tr4. auto 10.
Qed.

Lemma count_cons t e (tr : Trace) :
  count t (e :: tr) = ((if tag_eqb (tag e) t then 1 else 0) + count t tr)%nat.
Proof. unfold count. simpl. destruct (tag_eqb (tag e) t); reflexivity. Qed.

Lemma count_grows {A} t ts (m : M A) tr o tr' :
  emits ts m -> m tr = (o, tr') -> (count t tr <= count t tr')%nat.
Proof.
  intros Hm Hrun. destruct (Hm tr) as [evs [E _]]. rewrite Hrun in E. simpl in E.
  subst tr'. rewrite count_app. lia.
Qed.

Lemma create_fix_branch_asks form branch_name tr o tr' :
  create_fix_branch env form branch_name tr = (o, tr') ->
  (S (count TCreateBranch tr) <= count TCreateBranch tr' <= 2 + count TCreateBranch tr)%nat.
Proof.
  intros H. split.
  - unfold create_fix_branch in H.
    match type of H with
    | try_except ?m ?c ?h tr = _ =>
        assert (He : forall e, emits [TCall; TWrite; TCreateBranch] (h e));
        [ intros e; repeat first [emits_known create_branch_emits | emits_step]
        | set (handler := h) in *; set (m1 := m) in * ]
    end.
    unfold try_except in H. destruct (m1 tr) as [o1 tr1] eqn:H1.
    assert (Hc : (S (count TCreateBranch tr) <= count TCreateBranch tr1)%nat).
    { destruct (create_branch_trace env (repo_url form) "main" branch_name tr)
        as [evs [E _]].
      assert (Hs : tr1 = snd (GitHubService.create_branch env (repo_url form) "main"
                                branch_name tr)).
      { subst m1. unfold bind in H1.
        destruct (GitHubService.create_branch env (repo_url form) "main" branch_name tr)
          as [[b|e|] tr2]; injection H1 as _ <-; reflexivity. }
      rewrite Hs, E, count_app, count_cons. simpl. lia. }
    destruct o1 as [u|e|]; try (injection H as _ <-; exact Hc).
    unfold any_exception in H.
    pose proof (@count_grows _ TCreateBranch _ _ _ _ _ (He e) H). lia.
  - pose proof (create_fix_branch_adds env form branch_name tr) as Hb.
    rewrite H in Hb. exact Hb.
Qed.

Lemma format_first_50_run v tr o tr' : format_first_50 json v tr = (o, tr') -> tr' = tr.
Proof. unfold format_first_50. destruct v; intros H; injection H as _ <-; reflexivity. Qed.

Lemma new_AnalysisResult_run a s fx tr o tr' :
  new_AnalysisResult json a s fx tr = (o, tr') -> tr' = tr.
Proof.
  unfold new_AnalysisResult.
  destruct (str_field a); [destruct (str_field s)|]; intros H; injection H as _ <-;
    reflexivity.
Qed.

Lemma commit_fix_asks form branch_name ar fx tr u tr' :
  commit_fix env json form branch_name ar fx tr = (Returned u, tr') ->
  count TCommitFileChanges tr' = S (count TCommitFileChanges tr).
Proof.
  unfold commit_fix, GitHubService.commit_file_changes. intros H.
  apply bind_inv in H as (headline & tr0 & Hf & H).
  apply format_first_50_run in Hf. subst tr0.
  match type of H with
  | try_except (bind (bind (enter ?ev) ?k1) ?k2) ?c ?h tr = _ =>
      change (try_except (bind (k1 tt) k2) c h (ev :: tr) = (Returned u, tr')) in H;
      assert (He : emits [TCall; TWrite] (try_except (bind (k1 tt) k2) c h))
  end.
  { unfold GitHubService.get_repository. repeat emits_step. }
  rewrite (@run_count _ TCommitFileChanges _ _ _ _ _ He eq_refl H). reflexivity.
Qed.

Lemma open_pull_request_asks form branch_name ar fx tr pr tr' :
  open_pull_request env json form branch_name ar fx tr = (Returned pr, tr') ->
  count TCreatePullRequest tr' = S (count TCreatePullRequest tr).
Proof.
  unfold open_pull_request. cbv zeta. intros H.
  apply try_except_returned in H.
  apply bind_inv in H as (headline & tr0 & Hf & H).
  apply format_first_50_run in Hf. subst tr0.
  unfold GitHubService.create_pull_request in H.
  match type of H with
  | bind (enter ?ev) ?k1 tr = _ =>
      change (k1 tt (ev :: tr) = (Returned pr, tr')) in H;
      assert (He : emits [TCall; TWrite] (k1 tt))
  end.
  { unfold GitHubService.get_repository. repeat emits_step. }
  rewrite (@run_count _ TCreatePullRequest _ _ _ _ _ He eq_refl H). reflexivity.
Qed.

Lemma deliver_returned form job_id0 g ar tr r tr' :
  deliver env json form job_id0 g ar tr = (Returned r, tr') ->
  status r = "success" /\ job_id r = job_id0 /\ error r = None
  /\ screenshots_captured r = g_screenshots_captured g
  /\ match pr_url r with
     | None => tr' = tr
     | Some _ =>
         count TCommitFileChanges tr' = S (count TCommitFileChanges tr)
         /\ count TCreatePullRequest tr' = S (count TCreatePullRequest tr)
         /\ (S (count TCreateBranch tr) <= count TCreateBranch tr'
             <= 2 + count TCreateBranch tr)%nat
     end.
Proof.
  unfold deliver. destruct (fix_incomplete _).
  { unfold no_fix_response. intros H.
    apply bind_inv in H as (result & tr0 & Hn & H).
    apply new_AnalysisResult_run in Hn. subst tr0.
    injection H as <- <-. simpl. auto. }
  intros H.
  apply bind_inv in H as (u & tr1 & Hb & H).
  apply bind_inv in H as (u' & tr2 & Hc & H).
  apply bind_inv in H as (pr & tr3 & Hp & H).
  apply bind_inv in H as (result & tr3' & Hn & H).
  apply new_AnalysisResult_run in Hn. subst tr3'.
  injection H as <- <-. simpl.
  pose proof (create_fix_branch_emits form ("fix-vibe-" ++ str_take 8 job_id0)%string) as Eb.
  pose proof (commit_fix_emits env json form ("fix-vibe-" ++ str_take 8 job_id0)%string ar
                (get_fix ar)) as Ec.
  pose proof (open_pull_request_emits env json form ("fix-vibe-" ++ str_take 8 job_id0)%string ar
                (get_fix ar)) as Ep.
  pose proof (@run_count _ TCommitFileChanges _ _ _ _ _ Eb eq_refl Hb) as B1.
  pose proof (@run_count _ TCreatePullRequest _ _ _ _ _ Eb eq_refl Hb) as B2.
  pose proof (@run_count _ TCreatePullRequest _ _ _ _ _ Ec eq_refl Hc) as C1.
  pose proof (@run_count _ TCreateBranch _ _ _ _ _ Ec eq_refl Hc) as C2.
  pose proof (@run_count _ TCommitFileChanges _ _ _ _ _ Ep eq_refl Hp) as P1.
  pose proof (@run_count _ TCreateBranch _ _ _ _ _ Ep eq_refl Hp) as P2.
  apply create_fix_branch_asks in Hb. apply commit_fix_asks in Hc.
  apply open_pull_request_asks in Hp.
  repeat split; lia.
Qed.

(** X30.  A response tells what was done to the repository.  Every
    response has the status [success], the job id of the request and no
    error.  A response without a pull request URL means that no branch,
    no commit and no pull request was asked for and nothing was
    written; a response with one means that a branch was asked for once
    or twice, and a commit and a pull request exactly once each. *)
Theorem X30_response_tells_what_was_done form amb tr r tr' :
  analyze_vibe env b64 prompts json form amb tr = (Returned r, tr') ->
  status r = "success" /\ error r = None
  /\ call env Uuid4 tr = (Returned (job_id r), EvCall Uuid4 :: tr)
  /\ match pr_url r with
     | None =>
         count TWrite tr' = count TWrite tr
         /\ count TCreateBranch tr' = count TCreateBranch tr
         /\ count TCommitFileChanges tr' = count TCommitFileChanges tr
         /\ count TCreatePullRequest tr' = count TCreatePullRequest tr
     | Some _ =>
         count TCommitFileChanges tr' = S (count TCommitFileChanges tr)
         /\ count TCreatePullRequest tr' = S (count TCreatePullRequest tr)
         /\ (S (count TCreateBranch tr) <= count TCreateBranch tr'
             <= 2 + count TCreateBranch tr)%nat
     end.
Proof.
  intros H.
  apply analyze_vibe_returned in H
    as (job & tr0 & temp_dir & tr1 & g & tr2 & ar & tr3 & tr4
        & Hu & Hm & Hg & Hr & Hd & ->).
  apply deliver_returned in Hd as (Hs & Hj & He & _ & Hd).
  assert (Hq : forall t,
             mem t [TCall; TModel; TCheckWriteAccess; TScoutFiles; TGetFileContent;
                    TAnalyzeVibe] = false ->
             count t (snd (cleanup env temp_dir tr4)) = count t tr4
             /\ count t tr3 = count t tr).
  { intros t Ht.
    assert (Hout : forall ts, subset ts [TCall; TModel; TCheckWriteAccess; TScoutFiles;
                                          TGetFileContent; TAnalyzeVibe] = true ->
                              mem t ts = false).
    { intros ts Hsub. destruct (mem t ts) eqn:E; [|reflexivity].
      rewrite (mem_subset _ _ _ Hsub E) in Ht. discriminate. }
    split.
    - apply emits_count with (ts := [TCall]); [apply cleanup_emits | apply Hout; reflexivity].
    - rewrite (@run_count _ t _ _ _ _ _ (request_analysis_emits env prompts json form g)
                 (Hout [TCall; TModel; TAnalyzeVibe] eq_refl) Hr).
      rewrite (@run_count _ t _ _ _ _ _
                 (gather_emits env b64 prompts json form amb temp_dir)
                 (Hout [TCall; TModel; TCheckWriteAccess; TScoutFiles; TGetFileContent]
                    eq_refl) Hg).
      rewrite (@run_count _ t _ _ _ _ _ (emits_call env [TCall] (Mkdtemp _) eq_refl)
                 (Hout [TCall] eq_refl) Hm).
      rewrite (@run_count _ t _ _ _ _ _ (emits_call env [TCall] Uuid4 eq_refl)
                 (Hout [TCall] eq_refl) Hu).
      reflexivity. }
  split; [exact Hs|]. split; [exact He|]. split.
  { rewrite Hj. unfold call in Hu |- *.
    destruct (@env string _ Uuid4); injection Hu as <- <-; reflexivity. }
  destruct (pr_url r).
  - destruct Hd as (H1 & H2 & H3).
    destruct (Hq TCommitFileChanges eq_refl) as [-> <-].
    destruct (Hq TCreatePullRequest eq_refl) as [-> <-].
    destruct (Hq TCreateBranch eq_refl) as [-> <-].
    auto.
  - subst tr4.
    destruct (Hq TWrite eq_refl) as [-> <-].
    destruct (Hq TCommitFileChanges eq_refl) as [-> <-].
    destruct (Hq TCreatePullRequest eq_refl) as [-> <-].
    destruct (Hq TCreateBranch eq_refl) as [-> <-].
    auto.
Qed.

End MorePipelineFacts.

(** ** Instances of the further properties *)

Import Readers Cases.

(** X2, witness: the status of the pull request while the build fails. *)
Lemma X2_witness :
  exists status tr',
    GitHubService.get_pr_status (play (red_then_green "fixed")) repo 7 []
    = (Returned status, tr')
    /\ exists combined (runs : list CheckRun),
         GitHubService.state status = cs_state combined
         /\ GitHubService.total_count status
            = (List.length (cs_statuses combined) + List.length runs)%nat.
Proof.
  destruct (GitHubService.get_pr_status (play (red_then_green "fixed")) repo 7 [])
    as [[status|e|] tr'] eqn:E; [|vm_compute in E; discriminate..].
  exists status, tr'. split; [reflexivity|].
  destruct (@X2_get_pr_status_lists_all_checks (play (red_then_green "fixed")) repo 7%Z []
              status tr' E) as (sha & combined & runs & _ & _ & H1 & H2 & _).
  exists combined, runs. auto.
Defined.

(** X3, witness: the logs of the failed build. *)
Lemma X3_witness :
  exists logs tr',
    GitHubService.get_check_logs (play (red_then_green "fixed")) repo 7 []
    = (Returned logs, tr')
    /\ Forall (fun log => log_conclusion log = "failure" \/ log_conclusion log = "error")
         logs.
Proof.
  destruct (GitHubService.get_check_logs (play (red_then_green "fixed")) repo 7 [])
    as [[logs|e|] tr'] eqn:E; [|vm_compute in E; discriminate..].
  exists logs, tr'. split; [reflexivity|].
  destruct (@X3_get_check_logs_only_failed_runs (play (red_then_green "fixed")) repo 7%Z []
              logs tr' E) as (sha & runs & _ & _ & H).
  exact H.
Defined.

(** X4, witness: the lint failed and the build timed out; both runs are
    listed, and the lint alone has a log. *)
Lemma X4_witness :
  exists status tr1 logs tr3,
    GitHubService.get_pr_status (play build_timed_out) repo 7 [] = (Returned status, tr1)
    /\ GitHubService.get_check_logs (play build_timed_out) repo 7 [] = (Returned logs, tr3)
    /\ exists sha combined runs sha' runs',
         play build_timed_out 3 (Commit_get_status sha) = inr combined
         /\ play build_timed_out 4 (Commit_get_check_runs sha) = inr runs
         /\ play build_timed_out 3 (Commit_get_check_runs sha') = inr runs'
         /\ Forall2
              (fun run entry =>
                 st_context entry = run_name run
                 /\ match run_conclusion run with
                    | None => st_state entry = "pending"
                    | Some c =>
                        (c = "success" -> st_state entry = "success")
                        /\ (c = "failure" -> st_state entry = "failure")
                        /\ (c <> "success" -> c <> "failure" ->
                            st_state entry = "error")
                    end)
              runs
              (skipn (List.length (cs_statuses combined)) (GitHubService.statuses status))
         /\ Forall2
              (fun run log =>
                 log_name log = run_name run
                 /\ run_conclusion run = Some (log_conclusion log))
              (List.filter
                 (fun run =>
                    bool_decide (run_conclusion run = Some "failure"
                                 \/ run_conclusion run = Some "error"))
                 runs')
              logs.
Proof.
  destruct (GitHubService.get_pr_status (play build_timed_out) repo 7 [])
    as [[status|e|] tr1] eqn:E1; [|vm_compute in E1; discriminate..].
  destruct (GitHubService.get_check_logs (play build_timed_out) repo 7 [])
    as [[logs|e|] tr3] eqn:E2; [|vm_compute in E2; discriminate..].
  exists status, tr1, logs, tr3. split; [reflexivity|split; [reflexivity|]].
  exact (@X4_unlisted_conclusion_is_error_without_log (play build_timed_out) repo 7%Z
           [] status tr1 [] logs tr3 E1 E2).
Defined.

(** X5, witness: CI is green at the first poll, and the wait has not
    slept. *)
Lemma X5_witness :
  exists status tr' k,
    GitHubService.wait_for_ci_completion (play green) 1 repo 7 300 15 []
    = (Returned status, tr')
    /\ sleeps tr' = sleeps [] ++ repeat 15%Z k
    /\ count TGetPrStatus tr' = (S k + count TGetPrStatus [])%nat.
Proof.
  destruct (GitHubService.wait_for_ci_completion (play green) 1 repo 7 300 15 [])
    as [[status|e|] tr'] eqn:E; [|vm_compute in E; discriminate..].
  destruct (@X5_wait_sleeps_between_polls (play green) 1 repo 7%Z 300%Z 15%Z [] status tr' E)
    as (k & H1 & H2).
  exists status, tr', k. auto.
Defined.

(** X6, witness: a wait with a timeout of one day. *)
Lemma X6_witness :
  exists status tr',
    GitHubService.wait_for_ci_completion (play green) 1 repo 7 86400 15 []
    = (Returned status, tr')
    /\ GitHubService.state status <> "pending".
Proof.
  destruct (GitHubService.wait_for_ci_completion (play green) 1 repo 7 86400 15 [])
    as [[status|e|] tr'] eqn:E; [|vm_compute in E; discriminate..].
  exists status, tr'. split; [reflexivity|].
  apply (@X6_wait_day_timeout_never_pending (play green) 1 repo 7%Z 86400%Z 15%Z [] status tr');
    [lia | exact E].
Defined.

(** X7, witness: a wait without any timeout, while CI is pending. *)
Lemma X7_witness :
  sleeps (snd (GitHubService.wait_for_ci_completion (play stuck_pending) 5 repo 7 0 15 []))
  = sleeps []
  /\ (count TGetPrStatus
        (snd (GitHubService.wait_for_ci_completion (play stuck_pending) 5 repo 7 0 15 []))
      <= 1 + count TGetPrStatus [])%nat.
Proof.
  destruct (@X7_wait_without_timeout_polls_once (play stuck_pending) 5 repo 7%Z 0%Z 15%Z [])
    as (_ & H1 & H2 & _); [lia|].
  split; assumption.
Defined.

(** X11, witness: the TypeScript and Markdown files of the scenario. *)
Lemma X11_witness :
  exists files tr',
    GitHubServiceFiles.get_files_by_extensions (play green) b64decode_utf8 repo
      [".tsx"; ".md"] 1 "main" []
    = (Returned files, tr')
    /\ (Z.of_nat (List.length files) <= Z.max 1 1)%Z
    /\ List.NoDup (map fst files).
Proof.
  destruct (GitHubServiceFiles.get_files_by_extensions (play green) b64decode_utf8 repo
              [".tsx"; ".md"] 1 "main" [])
    as [[files|e|] tr'] eqn:E; [|vm_compute in E; discriminate..].
  exists files, tr'. split; [reflexivity|].
  destruct (@X11_get_files_by_extensions_bounded (play green) b64decode_utf8 repo
              [".tsx"; ".md"] 1%Z "main" [] files tr' E) as (H1 & H2 & _).
  auto.
Defined.

(** X16, witness: the loop without budget, in the green scenario. *)
Lemma X16_witness :
  VerificationLoopService.run_verification_loop (play green) prompts reader no_budget 1
    repo 7 "fix-vibe-0f8fad5b" "src/App.tsx" "v0" []
  = (Returned (VerificationLoopService.exhausted no_budget 0 "v0" []), []).
Proof.
  apply (@X16_loop_without_budget_does_nothing (play green) prompts reader no_budget 1 repo 7%Z
           "fix-vibe-0f8fad5b" "src/App.tsx" "v0" []).
  simpl. lia.
Defined.

(** X18, witness: the build fails, the correction is committed, and the
    next poll is green. *)
Lemma X18_witness :
  exists r tr' cs,
    verify (red_then_green "fixed") 1 "v0" [] = (Returned r, tr')
    /\ committed_contents tr' = committed_contents [] ++ cs
    /\ VerificationLoopService.corrected_code r = Some (List.last cs "v0").
Proof.
  destruct (verify (red_then_green "fixed") 1 "v0" []) as [[r|e|] tr'] eqn:E;
    [|vm_compute in E; discriminate..].
  destruct (@X18_loop_returns_last_committed_code (play (red_then_green "fixed")) prompts reader
              VerificationLoopService.init 1 repo 7%Z "fix-vibe-0f8fad5b" "src/App.tsx"
              "v0" [] r tr' E) as (cs & H1 & H2 & _).
  exists r, tr', cs. auto.
Defined.

(** X19, witness: the result of the green scenario. *)
Lemma X19_witness :
  exists r tr',
    verify green 1 "v0" [] = (Returned r, tr')
    /\ VerificationLoopService.success r
       = String.eqb (VerificationLoopService.final_status r) "success".
Proof.
  destruct (verify green 1 "v0" []) as [[r|e|] tr'] eqn:E;
    [|vm_compute in E; discriminate..].
  exists r, tr'. split; [reflexivity|].
  exact (proj1 (@X19_loop_result_is_consistent (play green) prompts reader
                  VerificationLoopService.init 1 repo 7%Z "fix-vibe-0f8fad5b"
                  "src/App.tsx" "v0" [] r tr' E)).
Defined.

(** X21, witness: the request without visual input. *)
Lemma X21_witness :
  Analyze.analyze_vibe (play green) b64decode_utf8 prompts reader blank_form ambient []
  = (Raised (HTTPException 400 Analyze.no_visual_input), [EvCall Uuid4]).
Proof.
  rewrite (@X21_request_without_visual_input_is_refused (play green) b64decode_utf8 prompts
             reader blank_form ambient []); reflexivity.
Defined.

(** X22, witness: the green request removes its directory at the end. *)
Lemma X22_witness :
  exists rest,
    snd (submit green [])
    = EvCall (Rmtree "/tmp/vibe_check_0f8fad5b-d9cb-469f-a165-70867728950e_") :: rest.
Proof.
  apply (@X22_temp_dir_is_removed_last (play green) b64decode_utf8 prompts reader form ambient
           [] "0f8fad5b-d9cb-469f-a165-70867728950e"
           "/tmp/vibe_check_0f8fad5b-d9cb-469f-a165-70867728950e_");
    vm_compute; reflexivity.
Defined.

(** X23, witness: the request that may not create a reference. *)
Lemma X23_witness :
  match fst (submit forbidden []) with
  | Returned _ => True
  | Raised e => is_HTTPException e = true /\ In (http_status e) [400; 401; 403; 500]%Z
  | Unfinished => False
  end.
Proof.
  apply (@X23_request_ends_with_listed_status (play forbidden) b64decode_utf8 prompts reader
           form ambient [] "0f8fad5b-d9cb-469f-a165-70867728950e").
  vm_compute. reflexivity.
Defined.

(** X24, witness: a reply that names no fix and no severity is answered
    the response without a pull request; a reply that names no fix and
    gives [null] for the severity ends the request with HTTP 500. *)
Lemma X24_witness :
  (exists r,
     Analyze.deliver (play green) reader form "job-1" with_video
       (GeminiService.fill_analysis reply_without_fix) []
     = (Returned r, [])
     /\ Analyze.pr_url r = None
     /\ option_map Analyze.severity (Analyze.analysis_ r) = Some "Unknown")
  /\ exists detail,
       Analyze.http_boundary
         (Analyze.deliver (play green) reader form "job-1" with_video
            (GeminiService.fill_analysis reply_with_null_severity)) []
       = (Raised (HTTPException 500 detail), []).
Proof.
  split.
  - eexists. split.
    + apply (@X24_reply_without_fix_opens_no_pull_request (play green) reader form "job-1"
               with_video reply_without_fix []).
      reflexivity.
    + split; reflexivity.
  - pose proof (@X24_reply_without_fix_opens_no_pull_request (play green) reader form
                  "job-1" with_video reply_with_null_severity [] eq_refl) as H.
    cbv beta iota delta [default from_option id GeminiService.ad_analysis
                           GeminiService.ad_severity reply_with_null_severity] in H.
    destruct H as [_ H]. eexists. exact H.
Defined.

(** X25, witness: a request with a screenshot and a video. *)
Lemma X25_witness :
  model_calls (snd (Analyze.request_analysis (play green) prompts reader form with_video []))
  = model_calls []
    ++ [[PText (GeminiService.analysis_prompt prompts (Analyze.g_code_context with_video)
                  (Some ("The buy button overflows"
                         ++ " (Video: " ++ "/tmp/job/video_bug.mp4" ++ ")")%string))]].
Proof.
  apply (@X25_video_analysis_sends_no_image (play green) prompts reader form with_video
           "/tmp/job/video_bug.mp4" []); reflexivity.
Defined.

(** X26, witness: a request with a nameless image and a deployed URL,
    in a world where no page can be captured. *)
Lemma X26_witness :
  exists g tr',
    Analyze.gather without_browser b64decode_utf8 prompts reader url_form ambient
      "/tmp/job" []
    = (Returned g, tr')
    /\ Analyze.has_visual_input url_form = true
    /\ Analyze.g_screenshots_captured g = None
    /\ Analyze.g_image_paths g = []
    /\ Analyze.g_video_path g = None.
Proof.
  destruct (Analyze.gather without_browser b64decode_utf8 prompts reader url_form ambient
              "/tmp/job" []) as [[g|e|] tr'] eqn:E; [|vm_compute in E; discriminate..].
  exists g, tr'. split; [reflexivity|].
  destruct (@X26_unusable_visual_input_reaches_the_model without_browser b64decode_utf8
              prompts reader url_form ambient "/tmp/job" [] g tr')
    as (H1 & _ & H).
  - intros url _. eexists. reflexivity.
  - repeat constructor.
  - reflexivity.
  - destruct (H E) as (H2 & H3 & H4 & _). rewrite H1. auto.
Defined.

(** X27, witness: the context of the green scenario. *)
Lemma X27_witness :
  exists ctx tr',
    Analyze.scout_and_fetch (play green) b64decode_utf8 prompts reader form tree []
    = (Returned ctx, tr')
    /\ List.NoDup (map fst ctx)
    /\ (1 <= List.length ctx <= 10)%nat.
Proof.
  destruct (Analyze.scout_and_fetch (play green) b64decode_utf8 prompts reader form tree [])
    as [[ctx|e|] tr'] eqn:E; [|vm_compute in E; discriminate..].
  exists ctx, tr'. split; [reflexivity|].
  destruct (@X27_code_context_is_well_formed (play green) b64decode_utf8 prompts reader form
              tree [] ctx tr' E) as (relevant & tr1 & _ & H1 & _ & H2).
  auto.
Defined.

(** X30, witness: the green request, with its pull request. *)
Lemma X30_witness :
  exists r tr',
    submit green [] = (Returned r, tr')
    /\ Analyze.status r = "success" /\ Analyze.error r = None.
Proof.
  destruct (submit green []) as [[r|e|] tr'] eqn:E; [|vm_compute in E; discriminate..].
  exists r, tr'. split; [reflexivity|].
  destruct (@X30_response_tells_what_was_done (play green) b64decode_utf8 prompts reader form
              ambient [] r tr' E) as (H1 & H2 & _).
  auto.
Defined.

(** C10, witness: the model's reply has no [corrected_code]; the empty
    string is handed to the commit and written to the file. *)
Lemma C10_witness :
  exists evs msg tr3 ws,
    snd (VerificationLoopService.pass (play (red_then_green "omitted")) prompts reader
           VerificationLoopService.init 1 repo 7 "fix-vibe-0f8fad5b" "src/App.tsx"
           1 "v0" [])
    = evs ++ EvCommitFileChanges "fix-vibe-0f8fad5b" "src/App.tsx" empty msg :: tr3
    /\ file_writes
         (snd (VerificationLoopService.pass (play (red_then_green "omitted")) prompts
                 reader VerificationLoopService.init 1 repo 7 "fix-vibe-0f8fad5b"
                 "src/App.tsx" 1 "v0" []))
       = file_writes tr3 ++ ws
    /\ Forall (fun w =>
                 write_target w = ("src/App.tsx", msg, empty, "fix-vibe-0f8fad5b")) ws
    /\ (1 <= List.length ws)%nat.
Proof.
  pose (env := play (red_then_green "omitted")).
  pose (w1 := GitHubService.wait_for_ci_completion env 1 repo 7 300 15 []).
  pose (g1 := GitHubService.get_check_logs env repo 7 (snd w1)).
  pose (l := hd no_log (returned [] g1)).
  pose (ls := tl (returned [] g1)).
  pose (c1 := GeminiService.self_correct env prompts reader "v0" (l :: ls) "src/App.tsx"
                (snd g1)).
  pose (p1 := VerificationLoopService.pass env prompts reader
                VerificationLoopService.init 1 repo 7 "fix-vibe-0f8fad5b" "src/App.tsx"
                1 "v0" []).
  destruct (@C10_missing_code_becomes_empty env prompts reader
              VerificationLoopService.init 1 repo 7%Z "fix-vibe-0f8fad5b" "src/App.tsx"
              1%Z "v0" [] (returned no_status w1) (snd w1) l ls (snd g1)
              (returned ∅ c1) (snd c1))
    as (text & parsed & Hg & Hp & _ & (evs & He) & (ws & Hws & Hall & Hone) & _).
  - vm_compute. reflexivity.
  - vm_compute. reflexivity.
  - vm_compute. reflexivity.
  - vm_compute. reflexivity.
  - assert (Hnone : parsed !! "corrected_code" = None).
    { vm_compute in Hg. injection Hg as <-. exact (@reader_omitted parsed Hp). }
    rewrite Hnone in He, Hall.
    exists evs, (VerificationLoopService.commit_message 1 (returned ∅ c1)), (snd c1), ws.
    split; [exact He|split; [exact Hws|split; [exact Hall|]]].
    apply (Hone empty (l :: ls) (snd p1)). vm_compute. reflexivity.
Defined.
